(** * ESG_Regression: the data-preparation pipeline of [src/prep_data.py]

    A shallow embedding of the header normaliser [_norm], the header locator
    [find_header_row], the sheet reader [read_firm_sheet], the sheet
    enumerator [list_firm_sheets], the panel builder [build_panel], the
    group-wise standardiser [add_esg_zscores] and the driver [main], with
    the constants of [src/config.py].

    - Python [str] values are modelled by [string], one [ascii] per code
      point below 256 (Latin-1); [str.isspace], [str.lower] and the regular
      expression class [\s] are written out for those 256 code points.
    - A raised exception is the [Raise] case of [result]; the calls of one
      function are chained with [bind].
    - The file system is met through [pd.read_excel] and [pd.ExcelFile]
      only: a [Workbook] is what those calls return.
    - A [DataFrame] has named index levels, column labels that may repeat,
      and rows; the structural operations of pandas the program uses
      (selection, assignment, boolean mask, [set_index], [reset_index],
      [sort_index], [concat], [groupby(..).transform]) are written out on
      that representation.
    - Floats are the binary64 floats of the kernel.  The element-wise
      converters [pd.to_datetime] and [pd.to_numeric], the reductions
      [Series.mean] and [Series.std] and the arithmetic of a Series with a
      scalar are parameters of the pipeline: the statements hold for every
      behaviour of these.  The row-by-row statement on the z-scores alone
      takes the arithmetic to be that of binary64, and of the reductions
      what [pandas_reductions] says.

    The definitions come first, then the vocabulary of the statements, then
    the properties, component by component. *)

From Stdlib Require Import List String Ascii Bool Arith ZArith Lia.
From Stdlib Require Import DecimalString Permutation Sorted PrimFloat.
From Stdlib Require FloatAxioms SpecFloat FloatOps.
Import ListNotations.
Open Scope string_scope.

(** ** Python string primitives used by [_norm] *)

Module PyStr.

(** [str.isspace] on one code point, also the class [\s] of [re] for [str]
    patterns: U+0009..U+000D, U+001C..U+0020, U+0085 and U+00A0. *)
Definition isspace (c : ascii) : bool :=
  let n := nat_of_ascii c in
  (((9 <=? n) && (n <=? 13)) || ((28 <=? n) && (n <=? 32))
   || (n =? 133) || (n =? 160))%nat.

(** [str.lower] on one code point: A..Z and the Latin-1 capitals
    U+00C0..U+00DE (the multiplication sign U+00D7 apart) move up by 32.
    Below U+0100 [str.lower] maps one code point to one; above, which the
    model leaves out, it need not (U+0130 becomes two code points), so no
    statement here bounds the length of a token by that of its text. *)
Definition lower_char (c : ascii) : ascii :=
  let n := nat_of_ascii c in
  if (((65 <=? n) && (n <=? 90))
      || ((192 <=? n) && (n <=? 222) && negb (n =? 215)))%nat
  then ascii_of_nat (n + 32) else c.

Fixpoint lower (s : string) : string :=
  match s with
  | EmptyString => EmptyString
  | String c s' => String (lower_char c) (lower s')
  end.

Fixpoint lstrip (s : string) : string :=
  match s with
  | EmptyString => EmptyString
  | String c s' => if isspace c then lstrip s' else s
  end.

Fixpoint rstrip (s : string) : string :=
  match s with
  | EmptyString => EmptyString
  | String c s' =>
      match rstrip s' with
      | EmptyString => if isspace c then EmptyString else String c EmptyString
      | r => String c r
      end
  end.

(** [s.strip()] *)
Definition strip (s : string) : string := rstrip (lstrip s).

(** [re.sub(r"\s+", " ", s)]: every maximal run of whitespace becomes one
    space.  [in_run] tells that the previous character belonged to a run
    whose replacement is already written. *)
Fixpoint sub_ws_from (in_run : bool) (s : string) : string :=
  match s with
  | EmptyString => EmptyString
  | String c s' =>
      if isspace c
      then if in_run then sub_ws_from true s'
           else String " " (sub_ws_from true s')
      else String c (sub_ws_from false s')
  end.

Definition re_sub_ws (s : string) : string := sub_ws_from false s.

(** [s.replace(old, new)] for one-character [old] and [new]. *)
Fixpoint replace_char (old new : ascii) (s : string) : string :=
  match s with
  | EmptyString => EmptyString
  | String c s' =>
      String (if Ascii.eqb c old then new else c) (replace_char old new s')
  end.

Definition LF : ascii := ascii_of_nat 10.

(** A string made of whitespace only. *)
Fixpoint all_space (s : string) : bool :=
  match s with
  | EmptyString => true
  | String c s' => isspace c && all_space s'
  end.

(** [str(n)] for a Python [int]. *)
Definition str_of_int (z : Z) : string := NilZero.string_of_int (Z.to_int z).

End PyStr.

(** ** Raw cell values *)

(** What a spreadsheet cell, or a column label, can be when it reaches the
    code: [None], the float NaN, a [str], an [int], or any other object
    (a float, a timestamp), which carries the text [str()] gives for it. *)
Inductive cell : Type :=
| CNone
| CNaN
| CStr (s : string)
| CInt (z : Z)
| CObj (text : string).

(** [str(s)] for a cell that is neither [None] nor NaN. *)
Definition py_str (c : cell) : string :=
  match c with
  | CNone => "None"
  | CNaN => "nan"
  | CStr s => s
  | CInt z => PyStr.str_of_int z
  | CObj t => t
  end.

(** The three assignments of [_norm] after the guard. *)
Definition norm_text (s : string) : string :=
  let s1 := PyStr.lower (PyStr.strip s) in
  let s2 := PyStr.re_sub_ws s1 in
  PyStr.strip (PyStr.replace_char PyStr.LF " " s2).

Definition _norm (s : cell) : string :=
  match s with
  | CNone => ""
  | CNaN => ""
  | _ => norm_text (py_str s)
  end.

(** ** Exceptions *)

Inductive exn : Type :=
| ValueError (msg : string)
| TypeError (msg : string)
| KeyError (key : string).

(** A call either returns or raises. *)
Inductive result (A : Type) : Type :=
| Ok (a : A)
| Raise (e : exn).
Arguments Ok {A} a.
Arguments Raise {A} e.

Definition bind {A B : Type} (r : result A) (k : A -> result B) : result B :=
  match r with
  | Ok a => k a
  | Raise e => Raise e
  end.

Notation "x <- c ;; k" := (bind c (fun x => k))
  (at level 61, c at next level, right associativity).

Fixpoint mapM {A B : Type} (f : A -> result B) (l : list A) : result (list B) :=
  match l with
  | [] => Ok []
  | a :: l' => b <- f a ;; bs <- mapM f l' ;; Ok (b :: bs)
  end.

Definition is_ok {A : Type} (r : result A) : bool :=
  match r with Ok _ => true | Raise _ => false end.

(** ** [src/config.py] *)

Module Config.

Definition WORKSHEET_NAME : string := "Worksheet".
Definition HEADER_SCAN_START_ROW : nat := 2000.
Definition HEADER_SCAN_MAX_ROWS : nat := 3000.
Definition DATE_FORMAT : string := "%m/%d/%Y".

Definition EXPECTED_HEADERS : list string :=
  [ "date";
    "rendite_1_quartal";
    "volatility 260 day calc";
    "return on common equity";
    "price to book ratio";
    "book to market ratio";
    "bloomberg_esg";
    "refinitiv_esg";
    "rendite_2_quartal" ].

Definition SECTOR_BANKS : string := "banks".
Definition SECTOR_OILGAS : string := "oil_gas".

End Config.

(** ** Workbooks

    [pd.read_excel] and [pd.ExcelFile] are where the program meets the file
    system.  A workbook is what those calls return for it: its sheet names,
    each sheet read without a header ([header=None]) and each sheet read with
    row [hdr] as its header ([header=hdr]). *)

Record RawFrame : Type := mkRawFrame {
  raw_columns : list cell;
  raw_rows : list (list cell)
}.

Record Workbook : Type := mkWorkbook {
  sheet_names : list string;
  sheet_rows : string -> list (list cell);
  sheet_frame : string -> nat -> RawFrame
}.

(** [pd.read_excel(file, sheet_name, header=None, skiprows=.., nrows=..)] *)
Definition read_excel_block (wb : Workbook) (sheet_name : string)
    (skiprows nrows : nat) : list (list cell) :=
  firstn nrows (skipn skiprows (sheet_rows wb sheet_name)).

(** ** Header locator *)

(** [x in s] for a collection of strings. *)
Definition mem (x : string) (s : list string) : bool :=
  existsb (String.eqb x) s.

(** [set(_norm(h) for h in EXPECTED_HEADERS)], as a duplicate-free list. *)
Definition expected : list string :=
  nodup string_dec (map (fun h => _norm (CStr h)) Config.EXPECTED_HEADERS).

(** [sum((h in row_set) for h in expected)] *)
Definition hits (row_set : list string) : nat :=
  List.length (filter (fun h => mem h row_set) expected).

(** The test of the loop body on one row of the block; [row_set] is used
    for membership only, so the list of tokens stands for the set. *)
Definition is_header_row (row : list cell) : bool :=
  let row_set := map _norm row in
  mem "date" row_set && (7 <=? hits row_set)%nat.

(** The [for i in range(len(chunk))] loop, from index [i] on. *)
Fixpoint scan_chunk (chunk : list (list cell)) (i : nat) : option nat :=
  match chunk with
  | [] => None
  | row :: rest => if is_header_row row then Some i else scan_chunk rest (S i)
  end.

Definition header_not_found_msg (file_path sheet_name : string)
    (start_row max_scan_rows : nat) : string :=
  "Header row not found in '" ++ sheet_name ++ "' of '" ++ file_path ++ "' "
  ++ "(scanned rows " ++ PyStr.str_of_int (Z.of_nat start_row) ++ ".."
  ++ PyStr.str_of_int (Z.of_nat start_row + Z.of_nat max_scan_rows - 1)
  ++ ").".

Definition find_header_row (wb : Workbook) (file_path sheet_name : string)
    (start_row max_scan_rows : nat) : result nat :=
  let chunk := read_excel_block wb sheet_name start_row max_scan_rows in
  match scan_chunk chunk 0 with
  | Some i => Ok (start_row + i)%nat
  | None =>
      Raise (ValueError
               (header_not_found_msg file_path sheet_name start_row max_scan_rows))
  end.

(** ** Values and frames *)

(** What a frame holds once the sheet is read: a raw cell not yet coerced,
    a float (NaN included), a string, a timestamp (nanoseconds since the
    epoch) or NaT. *)
Inductive value : Type :=
| VCell (c : cell)
| VFloat (x : float)
| VStr (s : string)
| VDate (t : Z)
| VNaT.

Definition NaN : value := VFloat nan.

(** [Series.notna()] on one element. *)
Definition notna (v : value) : bool :=
  match v with
  | VCell CNone | VCell CNaN | VNaT => false
  | VFloat x => negb (is_nan x)
  | _ => true
  end.

(** A [DataFrame]: the names of its index levels, its column labels, and
    its rows, each an index key with one value per column.  A default
    [RangeIndex] has no named level and the empty key. *)
Record DataFrame : Type := mkDataFrame {
  index_names : list string;
  columns : list string;
  rows : list (list value * list value)
}.

(** The values of a row under every column carrying [label]. *)
Definition cells_at (label : string) (cols : list string) (r : list value)
    : list value :=
  map snd (filter (fun lx => String.eqb (fst lx) label) (combine cols r)).

(** The value of a row under [label]; NaN when the label is absent. *)
Definition cell_at (label : string) (cols : list string) (r : list value)
    : value :=
  hd NaN (cells_at label cols r).

(** The row with [v] written under every column carrying [label]. *)
Definition set_at (label : string) (cols : list string) (r : list value)
    (v : value) : list value :=
  map (fun lx => if String.eqb (fst lx) label then v else snd lx)
      (combine cols r).

(** A frame is rectangular; a row read short is filled with NaN, as
    [read_excel] does, and cells beyond the last label are not kept. *)
Definition pad (n : nat) (r : list value) : list value :=
  firstn n r ++ repeat NaN (n - List.length r).

(** The frame read with a header row, after
    [df.columns = [_norm(c) for c in df.columns]]. *)
Definition normalized_frame (raw : RawFrame) : DataFrame :=
  let cols := map _norm (raw_columns raw) in
  {| index_names := [];
     columns := cols;
     rows := map (fun r => ([], pad (List.length cols) (map VCell r)))
                 (raw_rows raw) |}.

(** [df[keep]] for a list of labels: for each label in turn, every column
    that carries it. *)
Definition getitem_list (keep : list string) (df : DataFrame)
    : result DataFrame :=
  match find (fun k => negb (mem k (columns df))) keep with
  | Some k => Raise (KeyError k)
  | None =>
      Ok {| index_names := index_names df;
            columns :=
              flat_map (fun k => filter (String.eqb k) (columns df)) keep;
            rows :=
              map (fun r =>
                     (fst r,
                      flat_map (fun k => cells_at k (columns df) (snd r)) keep))
                  (rows df) |}
  end.

(** [df[label]] is a Series when one column carries the label and a frame
    when several do. *)
Inductive selection : Type :=
| Series (vals : list value)
| SubFrame (width : nat).

(** The column under a label. *)
Definition column (label : string) (df : DataFrame) : list value :=
  map (fun r => cell_at label (columns df) (snd r)) (rows df).

(** [df[label]], and [df.groupby(g)[label]] for the label of the column
    to transform.  A missing label is a [KeyError]; its payload is the label
    for a frame and a longer message for a grouping, and the statements
    use the class of the exception only. *)
Definition getitem (label : string) (df : DataFrame) : result selection :=
  match List.length (filter (String.eqb label) (columns df)) with
  | 0 => Raise (KeyError label)
  | 1 => Ok (Series (column label df))
  | n => Ok (SubFrame n)
  end.

(** [df[label] = vals]: an existing label is overwritten in place, a new
    one is appended as the last column.  [vals] is always derived from the
    frame's own rows here (one value per row). *)
Definition setitem (label : string) (vals : list value) (df : DataFrame)
    : DataFrame :=
  if mem label (columns df)
  then {| index_names := index_names df;
          columns := columns df;
          rows := map (fun rv => (fst (fst rv),
                                  set_at label (columns df) (snd (fst rv)) (snd rv)))
                      (combine (rows df) vals) |}
  else {| index_names := index_names df;
          columns := (columns df ++ [label])%list;
          rows := map (fun rv => (fst (fst rv), (snd (fst rv) ++ [snd rv])%list))
                      (combine (rows df) vals) |}.

(** [df[label] = v] for a scalar [v]. *)
Definition setitem_scalar (label : string) (v : value) (df : DataFrame)
    : DataFrame :=
  setitem label (map (fun _ => v) (rows df)) df.

(** [df[mask]] for a boolean Series. *)
Definition filter_rows (mask : list bool) (df : DataFrame) : DataFrame :=
  {| index_names := index_names df;
     columns := columns df;
     rows := map fst (filter snd (combine (rows df) mask)) |}.

(** [df.set_index(keys)] *)
Definition set_index (keys : list string) (df : DataFrame) : result DataFrame :=
  match find (fun k => negb (mem k (columns df))) keys with
  | Some k => Raise (KeyError k)
  | None =>
      Ok {| index_names := keys;
            columns := filter (fun c => negb (mem c keys)) (columns df);
            rows :=
              map (fun r =>
                     (map (fun k => cell_at k (columns df) (snd r)) keys,
                      map snd (filter (fun lx => negb (mem (fst lx) keys))
                                      (combine (columns df) (snd r)))))
                  (rows df) |}
  end.

(** [df.reset_index()]: the index levels become the leading columns. *)
Definition reset_index (df : DataFrame) : result DataFrame :=
  match find (fun n => mem n (columns df)) (index_names df) with
  | Some n => Raise (ValueError ("cannot insert " ++ n ++ ", already exists"))
  | None =>
      Ok {| index_names := [];
            columns := (index_names df ++ columns df)%list;
            rows := map (fun r => ([], (fst r ++ snd r)%list)) (rows df) |}
  end.

(** Order of index values.  A level holds values of one kind: strings by
    code point, timestamps by time, floats with NaN last; [value_rank]
    only keeps the comparison total across kinds. *)
Definition value_rank (v : value) : nat :=
  match v with
  | VCell _ => 0 | VFloat _ => 1 | VStr _ => 2 | VDate _ => 3 | VNaT => 4
  end.

Definition value_leb (a b : value) : bool :=
  match a, b with
  | VStr s, VStr t => String.leb s t
  | VDate s, VDate t => Z.leb s t
  | VFloat x, VFloat y => is_nan y || PrimFloat.leb x y
  | _, _ => (value_rank a <=? value_rank b)%nat
  end.

(** Index keys are compared level by level. *)
Fixpoint key_leb (a b : list value) : bool :=
  match a, b with
  | [], _ => true
  | _ :: _, [] => false
  | x :: a', y :: b' =>
      if value_leb x y then (if value_leb y x then key_leb a' b' else true)
      else false
  end.

Fixpoint insert_row (r : list value * list value)
    (l : list (list value * list value)) : list (list value * list value) :=
  match l with
  | [] => [r]
  | h :: t => if key_leb (fst r) (fst h) then r :: l else h :: insert_row r t
  end.

(** [df.sort_index()], as a stable insertion sort on the index key.  The
    default sort of pandas is not stable: the rows come out in key order,
    and rows with equal keys in an order the model does not predict.  The
    statements about sorted rows say that they are a permutation in key
    order, and nothing about the order of rows with equal keys. *)
Definition sort_index (df : DataFrame) : DataFrame :=
  {| index_names := index_names df;
     columns := columns df;
     rows := fold_right insert_row [] (rows df) |}.

(** The labels of a list, each once, in order of first appearance. *)
Fixpoint dedup (l : list string) : list string :=
  match l with
  | [] => []
  | x :: l' => x :: filter (fun y => negb (String.eqb y x)) (dedup l')
  end.

(** [pd.concat(frames, ignore_index=True)]: rows are stacked, columns are
    the union in order of first appearance, absent values are NaN. *)
Definition pd_concat (frames : list DataFrame) : result DataFrame :=
  match frames with
  | [] => Raise (ValueError "No objects to concatenate")
  | _ :: _ =>
      let cols := dedup (flat_map columns frames) in
      Ok {| index_names := [];
            columns := cols;
            rows :=
              flat_map
                (fun f =>
                   map (fun r =>
                          ([], map (fun c => cell_at c (columns f) (snd r)) cols))
                       (rows f))
                frames |}
  end.

(** ** The pipeline *)

Section Pipeline.

(** The element-wise converters and the reductions of pandas are taken as
    given: [to_datetime fmt v] is the timestamp [pd.to_datetime] reads in
    [v] under [fmt] ([None] where [errors="coerce"] yields NaT),
    [to_numeric v] the float [pd.to_numeric] reads in [v] (NaN where
    [errors="coerce"] gives up), [series_mean] and [series_std] are
    [Series.mean()] and [Series.std()], [val_sub] and [val_div] one element
    of [Series - scalar] and [Series / scalar]. *)
Variable to_datetime : string -> value -> option Z.
Variable to_numeric : value -> float.
Variable series_mean : list value -> result value.
Variable series_std : list value -> result value.
Variable val_sub : value -> value -> result value.
Variable val_div : value -> value -> result value.

Definition coerce_datetime (fmt : string) (v : value) : value :=
  match to_datetime fmt v with
  | Some t => VDate t
  | None => VNaT
  end.

(** [pd.to_datetime(arg, format=fmt, errors="coerce")]; a frame with
    duplicate labels is refused. *)
Definition pd_to_datetime (fmt : string) (arg : selection)
    : result (list value) :=
  match arg with
  | Series vals => Ok (map (coerce_datetime fmt) vals)
  | SubFrame _ => Raise (ValueError "cannot assemble with duplicate keys")
  end.

(** [pd.to_numeric(arg, errors="coerce")]; only one-dimensional input is
    accepted.  A value is kept as the number it is read as, written as a
    binary64 float; pandas keeps a column in which every cell is an
    integer as [int64], with the same numbers.  The dtype of a column is
    not modelled, and no statement is about it. *)
Definition pd_to_numeric (arg : selection) : result (list value) :=
  match arg with
  | Series vals => Ok (map (fun v => VFloat (to_numeric v)) vals)
  | SubFrame _ =>
      Raise (TypeError "arg must be a list, tuple, 1-d array, or Series")
  end.

(** The loop [for c in df.columns: if c != "date": df[c] = to_numeric(df[c])]
    over the labels [cs]. *)
Fixpoint coerce_numeric (cs : list string) (df : DataFrame)
    : result DataFrame :=
  match cs with
  | [] => Ok df
  | c :: cs' =>
      if String.eqb c "date" then coerce_numeric cs' df
      else
        sel <- getitem c df ;;
        vals <- pd_to_numeric sel ;;
        coerce_numeric cs' (setitem c vals df)
  end.

Definition no_date_msg (file_path sheet_name : string) : string :=
  "No 'date' column after reading '" ++ sheet_name ++ "' in '" ++ file_path
  ++ "'.".

Definition read_firm_sheet (wb : Workbook) (file_path sheet_name : string)
    (start_row max_scan_rows : nat) : result DataFrame :=
  hdr <- find_header_row wb file_path sheet_name start_row max_scan_rows ;;
  let df := normalized_frame (sheet_frame wb sheet_name hdr) in
  let keep := filter (fun c => mem c (columns df)) Config.EXPECTED_HEADERS in
  df <- getitem_list keep df ;;
  if negb (mem "date" (columns df))
  then Raise (ValueError (no_date_msg file_path sheet_name))
  else
    sel <- getitem "date" df ;;
    dates <- pd_to_datetime Config.DATE_FORMAT sel ;;
    let df := setitem "date" dates df in
    (* [df["date"]] is a Series here: the assignment above went through *)
    let df := filter_rows (map notna (column "date" df)) df in
    df <- coerce_numeric (columns df) df ;;
    df <- set_index ["date"] df ;;
    Ok (sort_index df).

Definition list_firm_sheets (wb : Workbook) : list string :=
  filter (fun s => negb (String.eqb s Config.WORKSHEET_NAME)) (sheet_names wb).

(** The loop of [build_panel] over the firm sheets still to read; [frames]
    is the list built so far. *)
Fixpoint collect_frames (wb : Workbook) (xlsx_path sector_label : string)
    (firms : list string) (frames : list DataFrame)
    : result (list DataFrame) :=
  match firms with
  | [] => Ok frames
  | firm :: rest =>
      df_firm <- read_firm_sheet wb xlsx_path firm
                   Config.HEADER_SCAN_START_ROW Config.HEADER_SCAN_MAX_ROWS ;;
      let df_firm := setitem_scalar "firm" (VStr firm) df_firm in
      let df_firm := setitem_scalar "sector" (VStr sector_label) df_firm in
      df_flat <- reset_index df_firm ;;
      collect_frames wb xlsx_path sector_label rest (frames ++ [df_flat])%list
  end.

Definition build_panel (wb : Workbook) (xlsx_path sector_label : string)
    : result DataFrame :=
  frames <- collect_frames wb xlsx_path sector_label (list_firm_sheets wb) [] ;;
  panel <- pd_concat frames ;;
  panel <- set_index ["firm"; "date"] panel ;;
  Ok (sort_index panel).

(** *** Group-wise standardiser *)

Definition cell_eqb (a b : cell) : bool :=
  match a, b with
  | CStr s, CStr t => String.eqb s t
  | CInt x, CInt y => Z.eqb x y
  | CObj s, CObj t => String.eqb s t
  | _, _ => false
  end.

(** Equality of group keys. *)
Definition value_eqb (a b : value) : bool :=
  match a, b with
  | VCell c, VCell d => cell_eqb c d
  | VFloat x, VFloat y => PrimFloat.eqb x y
  | VStr s, VStr t => String.eqb s t
  | VDate s, VDate t => Z.eqb s t
  | _, _ => false
  end.

(** The keys [df.groupby(group_col)] groups by: a column, or else an index
    level, of that name. *)
Definition group_keys (group_col : string) (df : DataFrame)
    : result (list value) :=
  match List.length (filter (String.eqb group_col) (columns df)),
        List.length (filter (String.eqb group_col) (index_names df)) with
  | 0, 0 => Raise (KeyError group_col)
  | 1, 0 => Ok (column group_col df)
  | 0, S _ =>
      Ok (map (fun r => cell_at group_col (index_names df) (fst r)) (rows df))
  | S (S _), 0 =>
      Raise (ValueError ("Grouper for '" ++ group_col ++ "' not 1-dimensional"))
  | S _, S _ =>
      Raise (ValueError ("'" ++ group_col
               ++ "' is both an index level and a column label, which is ambiguous."))
  end.

(** The distinct keys in order of first appearance. *)
Fixpoint distinct_keys (keys : list value) : list value :=
  match keys with
  | [] => []
  | k :: ks => k :: filter (fun k' => negb (value_eqb k' k)) (distinct_keys ks)
  end.

(** The values of the rows of one group, in row order. *)
Definition group_values (k : value) (keys vals : list value) : list value :=
  map snd (filter (fun kv => value_eqb (fst kv) k) (combine keys vals)).

(** Takes the next output of group [k] from the table of group outputs. *)
Fixpoint take_output (k : value) (outs : list (value * list value))
    : option (value * list (value * list value)) :=
  match outs with
  | [] => None
  | (k', zs) :: outs' =>
      if value_eqb k' k
      then match zs with
           | [] => None
           | z :: zs' => Some (z, (k', zs') :: outs')
           end
      else match take_output k outs' with
           | Some (z, outs'') => Some (z, (k', zs) :: outs'')
           | None => None
           end
  end.

(** Puts the group outputs back in row order; a row whose key is missing
    belongs to no group and gets NaN. *)
Fixpoint scatter (keys : list value) (outs : list (value * list value))
    : list value :=
  match keys with
  | [] => []
  | k :: ks =>
      match (if notna k then take_output k outs else None) with
      | Some (z, outs') => z :: scatter ks outs'
      | None => NaN :: scatter ks outs
      end
  end.

(** [df.groupby(group_col)[col].transform(f)] on the key and value
    columns. *)
Definition groupby_transform (f : list value -> result (list value))
    (keys vals : list value) : result (list value) :=
  outs <- mapM (fun k => zs <- f (group_values k keys vals) ;; Ok (k, zs))
               (distinct_keys (filter notna keys)) ;;
  Ok (scatter keys outs).

(** [lambda x: (x - x.mean()) / x.std()] *)
Definition zscore (x : list value) : result (list value) :=
  m <- series_mean x ;;
  d <- mapM (fun v => val_sub v m) x ;;
  s <- series_std x ;;
  mapM (fun v => val_div v s) d.

(** The loop of [add_esg_zscores] over the target columns still to do. *)
Fixpoint add_esg_zscores_loop (esg_cols : list string) (group_col : string)
    (df : DataFrame) : result DataFrame :=
  match esg_cols with
  | [] => Ok df
  | col :: rest =>
      let z_col := col ++ "_z" in
      keys <- group_keys group_col df ;;
      sel <- getitem col df ;;
      z <- match sel with
           | Series x => groupby_transform zscore keys x
           | SubFrame _ =>
               Raise (ValueError
                        ("Cannot set a DataFrame with multiple columns to the single column "
                         ++ z_col))
           end ;;
      add_esg_zscores_loop rest group_col (setitem z_col z df)
  end.

Definition add_esg_zscores (df : DataFrame) (esg_cols : list string)
    (group_col : string) : result DataFrame :=
  add_esg_zscores_loop esg_cols group_col df.

End Pipeline.

(** ** An instance of the parameters, to run the pipeline on examples

    Dates are read from text of the form month/day/year, numbers from
    integer cells and decimal digits, and the reductions sum from left to
    right.  The properties below do not depend on this instance, the
    subtraction and the division of binary64 apart ([val_sub], [val_div]),
    which the row-by-row statement on the standardiser is about; it serves
    to evaluate the pipeline on concrete workbooks and panels. *)

Module Sample.

Definition digit_of (c : ascii) : option Z :=
  let n := nat_of_ascii c in
  if ((48 <=? n) && (n <=? 57))%nat then Some (Z.of_nat (n - 48)) else None.

(** The number written by a string of decimal digits. *)
Fixpoint number_from (acc : Z) (s : string) : option Z :=
  match s with
  | EmptyString => Some acc
  | String c s' =>
      match digit_of c with
      | Some d => number_from (10 * acc + d) s'
      | None => None
      end
  end.

Definition number (s : string) : option Z :=
  match s with
  | EmptyString => None
  | _ => number_from 0 s
  end.

(** Splits at the first [sep]. *)
Fixpoint split_at (sep : ascii) (s : string) : string * option string :=
  match s with
  | EmptyString => (EmptyString, None)
  | String c s' =>
      if Ascii.eqb c sep then (EmptyString, Some s')
      else let (a, b) := split_at sep s' in (String c a, b)
  end.

Definition is_leap (y : Z) : bool :=
  ((y mod 4 =? 0) && negb (y mod 100 =? 0) || (y mod 400 =? 0))%Z.

Definition days_in_month (y m : Z) : Z :=
  if (m =? 2)%Z then (if is_leap y then 29 else 28)
  else if ((m =? 4) || (m =? 6) || (m =? 9) || (m =? 11))%Z then 30 else 31.

(** Days from 1970-01-01 to the civil date [y]-[m]-[d]. *)
Definition days_from_civil (y m d : Z) : Z :=
  let y' := (if m <=? 2 then y - 1 else y)%Z in
  let era := (y' / 400)%Z in
  let yoe := (y' - era * 400)%Z in
  let mp := (if m <=? 2 then m + 9 else m - 3)%Z in
  let doy := ((153 * mp + 2) / 5 + d - 1)%Z in
  let doe := (yoe * 365 + yoe / 4 - yoe / 100 + doy)%Z in
  (era * 146097 + doe - 719468)%Z.

(** A text of the form month/day/year, as [%m/%d/%Y] reads it. *)
Definition parse_mdY (s : string) : option Z :=
  match split_at "/" s with
  | (ms, Some rest) =>
      match split_at "/" rest with
      | (ds, Some ys) =>
          match number ms, number ds, number ys with
          | Some m, Some d, Some y =>
              if ((String.length ms <=? 2) && (String.length ds <=? 2)
                  && (String.length ys =? 4))%nat
                 && ((1 <=? m) && (m <=? 12) && (1 <=? d)
                     && (d <=? days_in_month y m))%Z
              then Some (days_from_civil y m d * 86400000000000)%Z
              else None
          | _, _, _ => None
          end
      | _ => None
      end
  | _ => None
  end.

Definition to_datetime (fmt : string) (v : value) : option Z :=
  match v with
  | VDate t => Some t
  | VCell (CStr s) => if String.eqb fmt "%m/%d/%Y" then parse_mdY s else None
  | _ => None
  end.

Fixpoint float_of_pos (p : positive) : float :=
  match p with
  | xH => 1%float
  | xO p' => (2 * float_of_pos p')%float
  | xI p' => (2 * float_of_pos p' + 1)%float
  end.

Definition float_of_Z (z : Z) : float :=
  match z with
  | Z0 => 0%float
  | Zpos p => float_of_pos p
  | Zneg p => (- float_of_pos p)%float
  end.

(** Integer cells and integers written in decimal are numbers; nothing
    else is. *)
Definition to_numeric (v : value) : float :=
  match v with
  | VFloat x => x
  | VCell (CInt z) => float_of_Z z
  | VCell (CStr s) =>
      match number s with
      | Some z => float_of_Z z
      | None => nan
      end
  | _ => nan
  end.

(** The floats of a Series that are not NaN; [None] when the Series holds
    anything but floats. *)
Fixpoint floats_of (x : list value) : option (list float) :=
  match x with
  | [] => Some []
  | VFloat f :: x' =>
      match floats_of x' with
      | Some fs => Some (if is_nan f then fs else f :: fs)
      | None => None
      end
  | _ :: _ => None
  end.

Definition fsum (fs : list float) : float :=
  fold_left PrimFloat.add fs 0%float.

Definition fmean (fs : list float) : float :=
  (fsum fs / float_of_Z (Z.of_nat (List.length fs)))%float.

Definition series_mean (x : list value) : result value :=
  match floats_of x with
  | Some fs => Ok (VFloat (fmean fs))
  | None => Raise (TypeError "Could not convert to numeric")
  end.

(** [Series.std()], with [ddof=1]: NaN when no more than one value is
    left after the NaN are skipped, as [nanvar] of pandas returns it. *)
Definition series_std (x : list value) : result value :=
  match floats_of x with
  | Some fs =>
      if (List.length fs <=? 1)%nat then Ok NaN
      else
        let m := fmean fs in
        let ss := fsum (map (fun f => ((f - m) * (f - m))%float) fs) in
        Ok (VFloat (PrimFloat.sqrt
                      (ss / float_of_Z (Z.of_nat (List.length fs) - 1))%float))
  | None => Raise (TypeError "Could not convert to numeric")
  end.

Definition val_sub (a b : value) : result value :=
  match a, b with
  | VFloat x, VFloat y => Ok (VFloat (x - y)%float)
  | _, _ => Raise (TypeError "unsupported operand type(s) for -")
  end.

Definition val_div (a b : value) : result value :=
  match a, b with
  | VFloat x, VFloat y => Ok (VFloat (x / y)%float)
  | _, _ => Raise (TypeError "unsupported operand type(s) for /")
  end.

(** The header read of a grid whose header row has neither an empty nor a
    repeated cell: the labels are the cells of row [hdr]. *)
Definition frame_at (grid : list (list cell)) (hdr : nat) : RawFrame :=
  {| raw_columns := nth hdr grid [];
     raw_rows := skipn (S hdr) grid |}.

(** A workbook given by its sheets in order. *)
Definition grid_of (sheets : list (string * list (list cell))) (name : string)
    : list (list cell) :=
  match find (fun s => String.eqb (fst s) name) sheets with
  | Some s => snd s
  | None => []
  end.

Definition workbook_of (sheets : list (string * list (list cell))) : Workbook :=
  {| sheet_names := map fst sheets;
     sheet_rows := grid_of sheets;
     sheet_frame := fun name hdr => frame_at (grid_of sheets name) hdr |}.

Definition read_firm_sheet := read_firm_sheet to_datetime to_numeric.
Definition build_panel := build_panel to_datetime to_numeric.
Definition add_esg_zscores :=
  add_esg_zscores series_mean series_std val_sub val_div.

End Sample.

(** ** The driver [main]

    The paths of [src/config.py] hang from [ROOT], the directory above the
    one that holds [config.py]; [/] of [pathlib] is written for a POSIX
    system. *)

Module Paths.

Section Root.

Variable ROOT : string.

Definition DATA_DIR : string := ROOT ++ "/data".
Definition RAW_DIR : string := DATA_DIR ++ "/raw".
Definition PROCESSED_DIR : string := DATA_DIR ++ "/processed".
Definition BANK_FILE : string := RAW_DIR ++ "/Stoxx Europe Banks_data.xlsx".
Definition OIL_FILE : string := RAW_DIR ++ "/Stoxx Europe Oil&Gas_data.xlsx".
Definition BANK_PANEL_PARQUET : string := PROCESSED_DIR ++ "/bank_panel.parquet".
Definition OIL_PANEL_PARQUET : string := PROCESSED_DIR ++ "/oil_panel.parquet".

End Root.

End Paths.

(** What a run of [main] leaves behind: the files written with
    [to_parquet], in order, each with the table it holds, and the value
    returned or the exception raised. *)
Record Run : Type := mkRun {
  written : list (string * DataFrame);
  outcome : result (DataFrame * DataFrame)
}.

Section Driver.

Variable to_datetime : string -> value -> option Z.
Variable to_numeric : value -> float.
Variable series_mean : list value -> result value.
Variable series_std : list value -> result value.
Variable val_sub : value -> value -> result value.
Variable val_div : value -> value -> result value.

(** The two panels of [main], built and standardised, before anything is
    saved. *)
Definition main_panels (ROOT : string) (bank_wb oil_wb : Workbook)
    : result (DataFrame * DataFrame) :=
  df_bank_panel <- build_panel to_datetime to_numeric bank_wb
                     (Paths.BANK_FILE ROOT) Config.SECTOR_BANKS ;;
  df_oil_panel <- build_panel to_datetime to_numeric oil_wb
                    (Paths.OIL_FILE ROOT) Config.SECTOR_OILGAS ;;
  df_bank_panel <- add_esg_zscores series_mean series_std val_sub val_div
                     df_bank_panel ["bloomberg_esg"; "refinitiv_esg"] "sector" ;;
  df_oil_panel <- add_esg_zscores series_mean series_std val_sub val_div
                    df_oil_panel ["bloomberg_esg"; "refinitiv_esg"] "sector" ;;
  Ok (df_bank_panel, df_oil_panel).

(** [main(save)], for the workbooks [bank_wb] and [oil_wb] found at
    [BANK_FILE] and [OIL_FILE].  [df.reset_index().to_parquet(path,
    index=False)] writes the flattened table at [path]; the first file is
    written before the second table is flattened.  [config.py] makes
    [PROCESSED_DIR] when it is imported, and the writing itself is taken
    to succeed: of the saving only [reset_index] can raise here. *)
Definition main (ROOT : string) (bank_wb oil_wb : Workbook) (save : bool)
    : Run :=
  match main_panels ROOT bank_wb oil_wb with
  | Raise e => {| written := []; outcome := Raise e |}
  | Ok (df_bank_panel, df_oil_panel) =>
      if save then
        match reset_index df_bank_panel with
        | Raise e => {| written := []; outcome := Raise e |}
        | Ok bank_flat =>
            let w1 := [(Paths.BANK_PANEL_PARQUET ROOT, bank_flat)] in
            match reset_index df_oil_panel with
            | Raise e => {| written := w1; outcome := Raise e |}
            | Ok oil_flat =>
                {| written :=
                     (w1 ++ [(Paths.OIL_PANEL_PARQUET ROOT, oil_flat)])%list;
                   outcome := Ok (df_bank_panel, df_oil_panel) |}
            end
        end
      else {| written := []; outcome := Ok (df_bank_panel, df_oil_panel) |}
  end.

End Driver.

Module SampleRun.

Definition main : string -> Workbook -> Workbook -> bool -> Run :=
  main Sample.to_datetime Sample.to_numeric
       Sample.series_mean Sample.series_std Sample.val_sub Sample.val_div.

End SampleRun.

(** * Vocabulary of the statements *)

Module NormShape.
Import PyStr.

(** The shape of a normalised token: no whitespace but single spaces
    between other characters, and every character in lower case.
    [after_space] tells that a character other than whitespace must
    follow. *)
Fixpoint tidy (after_space : bool) (s : string) : bool :=
  match s with
  | EmptyString => negb after_space
  | String c s' =>
      if isspace c
      then negb after_space && Ascii.eqb c " " && tidy true s'
      else Ascii.eqb (lower_char c) c && tidy false s'
  end.

Definition canonical (s : string) : Prop := s = "" \/ tidy true s = true.

End NormShape.

(** A row qualifies as the header when its tokens contain ["date"] and at
    least 7 of the expected names. *)
Definition qualifies (row : list cell) : Prop :=
  In "date" (map _norm row)
  /\ exists l : list string,
       NoDup l /\ List.length l = 7%nat
       /\ incl l Config.EXPECTED_HEADERS /\ incl l (map _norm row).

(** The synthetic sheet of the locator test: below a preamble, a decoy row
    at offset 5 of the scanned block with 6 expected names and no date, and
    the header at offset 12 with all 9. *)
Module Decoy.

Definition scan_start : nat := 40.

Definition decoy_row : list cell :=
  map CStr [ "Rendite_1_Quartal"; "Volatility 260 Day Calc";
             "Return on Common Equity"; "Price to Book Ratio";
             "Book to Market Ratio"; "Bloomberg_ESG"; "comment" ].

Definition header_row : list cell :=
  map CStr [ " Date "; "RENDITE_1_QUARTAL"; "Volatility  260 Day Calc";
             "Return on Common Equity"; "Price to Book Ratio";
             "Book to Market Ratio"; "Bloomberg_ESG"; "Refinitiv_ESG";
             "Rendite_2_Quartal" ].

Definition blank_row : list cell := repeat CNaN 9.

Definition grid : list (list cell) :=
  (repeat [CStr "legend"; CNaN] scan_start
   ++ repeat blank_row 5 ++ [decoy_row]
   ++ repeat blank_row 6 ++ [header_row]
   ++ [[CStr "01/31/2020"; CInt 1; CInt 2; CInt 3; CInt 4; CInt 5; CInt 6;
        CInt 7; CInt 8]])%list.

Definition wb : Workbook := Sample.workbook_of [("FirmA", grid)].

End Decoy.

(** A frame whose rows are computed from a list [xs]: row [x] has the key
    [key x] and holds [val x c] under column [c]. *)
Definition gen_frame {X : Type} (idx cols : list string) (xs : list X)
    (key : X -> list value) (val : X -> string -> value) : DataFrame :=
  {| index_names := idx;
     columns := cols;
     rows := map (fun x => (key x, map (val x) cols)) xs |}.

(** The number of columns carrying a label. *)
Definition label_count (label : string) (cols : list string) : nat :=
  List.length (filter (String.eqb label) cols).

(** What [read_firm_sheet] makes of the frame read under the header. *)
Section ReadVocabulary.

Variable to_datetime : string -> value -> option Z.
Variable to_numeric : value -> float.

(** The normalised column labels. *)
Definition labels (raw : RawFrame) : list string :=
  map _norm (raw_columns raw).

(** The expected names present among the labels, in canonical order. *)
Definition kept_labels (raw : RawFrame) : list string :=
  filter (fun c => mem c (labels raw)) Config.EXPECTED_HEADERS.

Definition data_labels (raw : RawFrame) : list string :=
  filter (fun c => negb (mem c ["date"])) (kept_labels raw).

(** The cell of the data row [r] under a label. *)
Definition raw_cell (raw : RawFrame) (r : list cell) (label : string)
    : value :=
  cell_at label (labels raw)
          (pad (List.length (labels raw)) (map VCell r)).

(** The date cell of the row parses under the fixed format. *)
Definition date_parses (raw : RawFrame) (r : list cell) : bool :=
  match to_datetime Config.DATE_FORMAT (raw_cell raw r "date") with
  | Some _ => true
  | None => false
  end.

(** The row of the firm table made from the data row [r]. *)
Definition clean_row (raw : RawFrame) (r : list cell)
    : list value * list value :=
  ([coerce_datetime to_datetime Config.DATE_FORMAT (raw_cell raw r "date")],
   map (fun c => VFloat (to_numeric (raw_cell raw r c))) (data_labels raw)).

(** No expected name labels two columns. *)
Definition labels_distinct (raw : RawFrame) : bool :=
  forallb (fun c => (label_count c (labels raw) <=? 1)%nat)
          Config.EXPECTED_HEADERS.

End ReadVocabulary.

(** Ascending order of index keys. *)
Definition key_le (a b : list value) : Prop := key_leb a b = true.

(** Ascending order of (firm, date) pairs: by firm name, then by date. *)
Definition firm_date_le (a b : string * Z) : Prop :=
  String.ltb (fst a) (fst b) = true
  \/ (fst a = fst b /\ (snd a <= snd b)%Z).

(** The timestamp of a date key and the pair of a (firm, date) key. *)
Definition date_of_key (k : list value) : Z :=
  match k with
  | [VDate t] => t
  | _ => 0%Z
  end.

Definition firm_date_of_key (k : list value) : string * Z :=
  match k with
  | [VStr f; VDate t] => (f, t)
  | _ => ("", 0%Z)
  end.

Definition is_date_key (k : list value) : Prop := exists t, k = [VDate t].

Definition is_firm_date_key (k : list value) : Prop :=
  exists f t, k = [VStr f; VDate t].

(** The firm table read from the frame under the header: indexed by the
    parsed date, one row per data row whose date parses, sorted. *)
Definition firm_table (to_datetime : string -> value -> option Z)
    (to_numeric : value -> float) (raw : RawFrame) : DataFrame :=
  {| index_names := ["date"];
     columns := data_labels raw;
     rows := fold_right insert_row []
               (map (clean_row to_datetime to_numeric raw)
                    (filter (date_parses to_datetime raw) (raw_rows raw))) |}.

(** A small workbook: the sheet "Worksheet" to skip and two firm sheets
    whose header is row 2000.  FirmB has a date that does not parse and
    cells that are not numbers; it lacks two of the expected columns. *)
Module Demo.

Definition header_a : list cell :=
  map CStr [ "Date"; "Rendite_1_Quartal"; "Volatility 260 Day Calc";
             "Return on Common Equity"; "Price to Book Ratio";
             "Book to Market Ratio"; "Bloomberg_ESG"; "Refinitiv_ESG";
             "Rendite_2_Quartal"; "Notes" ].

Definition header_b : list cell :=
  map CStr [ "Bloomberg_ESG"; " DATE "; "Rendite_1_Quartal";
             "Volatility 260 Day Calc"; "Return on Common Equity";
             "Price to Book Ratio"; "Book to Market Ratio" ].

Definition preamble : list (list cell) := repeat [CStr "legend"] 2000.

Definition sheet_a : list (list cell) :=
  (preamble
   ++ [ header_a;
        [CStr "03/31/2021"; CInt 5; CInt 20; CInt 11; CInt 2; CInt 1;
         CInt 70; CInt 64; CInt 3; CStr "ok"];
        [CStr "12/31/2020"; CInt 4; CInt 22; CStr "n/a"; CInt 2; CInt 1;
         CInt 50; CInt 60; CInt 7; CNaN] ])%list.

Definition sheet_b : list (list cell) :=
  (preamble
   ++ [ header_b;
        [CInt 40; CStr "06/30/2021"; CInt 1; CInt 30; CInt 9; CInt 1; CInt 2];
        [CInt 42; CStr "not a date"; CInt 2; CInt 31; CInt 8; CInt 1; CInt 2];
        [CStr "--"; CStr "03/31/2021"; CStr "x"; CInt 33; CNaN; CInt 1; CInt 2] ])%list.

Definition wb : Workbook :=
  Sample.workbook_of
    [("FirmB", sheet_b); ("Worksheet", [[CStr "meta"]]); ("FirmA", sheet_a)].

(** A workbook with nothing but the sheet to skip. *)
Definition wb_meta_only : Workbook :=
  Sample.workbook_of [("Worksheet", [[CStr "meta"]])].

(** A workbook whose second firm sheet has no header row. *)
Definition wb_broken : Workbook :=
  Sample.workbook_of
    [("FirmA", sheet_a); ("FirmC", preamble); ("FirmB", sheet_b)].

(** The sheet of FirmA without its column of notes. *)
Definition sheet_a_plain : list (list cell) :=
  (preamble
   ++ [ removelast header_a;
        [CStr "03/31/2021"; CInt 5; CInt 20; CInt 11; CInt 2; CInt 1;
         CInt 70; CInt 64; CInt 3];
        [CStr "12/31/2020"; CInt 4; CInt 22; CStr "n/a"; CInt 2; CInt 1;
         CInt 50; CInt 60; CInt 7] ])%list.

Definition wb_plain : Workbook :=
  Sample.workbook_of
    [("FirmB", sheet_b); ("Worksheet", [[CStr "meta"]]); ("FirmA", sheet_a_plain)].

(** The firm tables of [wb]. *)
Definition table (firm : string) : DataFrame :=
  firm_table Sample.to_datetime Sample.to_numeric (sheet_frame wb firm 2000).

End Demo.

(** The shape of a firm table: indexed by date, distinct labels among the
    expected names other than ["date"], one value per label in each row. *)
Definition table_ok (t : DataFrame) : Prop :=
  index_names t = ["date"]
  /\ NoDup (columns t)
  /\ (forall c, In c (columns t) ->
        In c Config.EXPECTED_HEADERS /\ c <> "date")
  /\ Forall (fun r => is_date_key (fst r)
                      /\ List.length (snd r) = List.length (columns t))
            (rows t).

(** The value a row of the firm table [t] has in the panel under column
    [c]: the sector label, its own value, or NaN for a column the firm's
    sheet lacks. *)
Definition panel_value (sector_label : string) (t : DataFrame)
    (r : list value * list value) (c : string) : value :=
  if String.eqb c "sector" then VStr sector_label
  else if mem c (columns t) then cell_at c (columns t) (snd r)
  else NaN.

(** The panel row of a row of the firm table of [firm]: the firm name is
    put before the date in the key. *)
Definition panel_row (firm sector_label : string) (t : DataFrame)
    (pcols : list string) (r : list value * list value)
    : list value * list value :=
  (VStr firm :: fst r, map (panel_value sector_label t r) pcols).

(** A firm table with its two tags, after [reset_index]. *)
Definition tagged_value (firm sector_label : string) (cols : list string)
    (r : list value * list value) (k : string) : value :=
  if mem k ["date"] then hd NaN (fst r)
  else if String.eqb k "sector" then VStr sector_label
  else if String.eqb k "firm" then VStr firm
  else cell_at k cols (snd r).

Definition flat_columns (t : DataFrame) : list string :=
  (["date"] ++ (columns t ++ ["firm"]) ++ ["sector"])%list.

Definition flat_frame (firm sector_label : string) (t : DataFrame)
    : DataFrame :=
  gen_frame [] (flat_columns t) (rows t) (fun _ => [])
            (tagged_value firm sector_label (columns t)).

(** The columns of the panel built from the firm tables [ts]: the union of
    the flat columns in order of first appearance, less the two keys. *)
Definition panel_columns (ts : list DataFrame) : list string :=
  filter (fun c => negb (mem c ["firm"; "date"]))
         (dedup (flat_map flat_columns ts)).

(** The rows of the firm tables, each with its firm, in sheet order. *)
Definition tagged_rows (table : string -> DataFrame) (firms : list string)
    : list (string * (list value * list value)) :=
  flat_map (fun firm => map (pair firm) (rows (table firm))) firms.

(** The value of such a row under a column of the concatenation. *)
Definition concat_value (sector_label : string) (table : string -> DataFrame)
    (x : string * (list value * list value)) (c : string) : value :=
  if mem c (flat_columns (table (fst x)))
  then tagged_value (fst x) sector_label (columns (table (fst x))) (snd x) c
  else NaN.

(** The panel [build_panel] makes of the firm tables. *)
Definition panel_of (sector_label : string) (table : string -> DataFrame)
    (firms : list string) : DataFrame :=
  let pcols := panel_columns (map table firms) in
  {| index_names := ["firm"; "date"];
     columns := pcols;
     rows := fold_right insert_row []
               (flat_map (fun firm =>
                            map (panel_row firm sector_label (table firm) pcols)
                                (rows (table firm)))
                         firms) |}.

(** A frame is rectangular: one value per column in every row. *)
Definition frame_wf (df : DataFrame) : Prop :=
  Forall (fun r => List.length (snd r) = List.length (columns df)) (rows df).

(** The row [r'] is the row [r] with [n] values appended: same key, every
    value of [r] in its place. *)
Definition extends (n : nat) (r r' : list value * list value) : Prop :=
  fst r' = fst r
  /\ exists z, List.length z = n /\ snd r' = (snd r ++ z)%list.

(** The name of the z-score column of a target column. *)
Definition z_name (col : string) : string := col ++ "_z".

Section ZVocabulary.

Variable series_mean : list value -> result value.
Variable series_std : list value -> result value.
Variable val_sub : value -> value -> result value.
Variable val_div : value -> value -> result value.

(** The standardisation of every group of every target column goes
    through (the reductions and the arithmetic raise on none of them). *)
Definition zscores_defined (df : DataFrame) (esg_cols : list string)
    (group_col : string) : Prop :=
  forall c k,
    In c esg_cols ->
    In k (distinct_keys (filter notna (column group_col df))) ->
    exists z,
      zscore series_mean series_std val_sub val_div
             (group_values k (column group_col df) (column c df)) = Ok z.

End ZVocabulary.

(** A panel that already has a z-score column, from an earlier
    standardisation within firms. *)
Module Rerun.

(** A panel before any standardisation. *)
Definition df0 : DataFrame :=
  {| index_names := ["firm"; "date"];
     columns := ["bloomberg_esg"; "sector"];
     rows :=
       [ ([VStr "FirmA"; VDate 0], [VFloat 1; VStr "banks"]);
         ([VStr "FirmA"; VDate 1], [VFloat 3; VStr "banks"]);
         ([VStr "FirmB"; VDate 0], [VFloat 5; VStr "banks"]);
         ([VStr "FirmB"; VDate 1], [VFloat 7; VStr "banks"]) ] |}.

(** The panel standardised within firms. *)
Definition df : DataFrame :=
  Eval vm_compute in
    match Sample.add_esg_zscores df0 ["bloomberg_esg"] "firm" with
    | Ok d => d
    | Raise _ => df0
    end.

End Rerun.

(** [read_firm_sheet] with the scan window of the configuration, as
    [build_panel] calls it. *)
Definition read_with_config (to_datetime : string -> value -> option Z)
    (to_numeric : value -> float) (wb : Workbook) (xlsx_path firm : string)
    : result DataFrame :=
  read_firm_sheet to_datetime to_numeric wb xlsx_path firm
    Config.HEADER_SCAN_START_ROW Config.HEADER_SCAN_MAX_ROWS.

(** Two rows with the same set of tokens: the same cells up to case,
    whitespace, order and repetition. *)
Definition token_equiv (row row' : list cell) : Prop :=
  forall t, In t (map _norm row) <-> In t (map _norm row').

(** Two sheets of three rows: the header in second place, written
    differently. *)
Module Shuffled.

Definition wb1 : Workbook :=
  Sample.workbook_of
    [("FirmA", [ [CStr "legend"]; Decoy.header_row; [CStr "01/31/2020"] ])].

Definition wb2 : Workbook :=
  Sample.workbook_of
    [("FirmA",
      [ [CStr "LEGEND"; CStr " legend "];
        (map CStr [ "refinitiv_esg"; "rendite_2_quartal"; "BLOOMBERG_ESG";
                    "date"; "Date"; "rendite_1_quartal";
                    "Volatility 260 day calc"; "return on common equity";
                    "price to  book ratio"; "book to market ratio" ]);
        [CStr "01/31/2020"; CStr "01/31/2020"] ])].

End Shuffled.

(** The outcome of [read_firm_sheet] once the header row is known, read
    off the labels of the frame under it. *)
Definition dup_date_error : exn :=
  ValueError "cannot assemble with duplicate keys".

Definition dup_column_error : exn :=
  TypeError "arg must be a list, tuple, 1-d array, or Series".

Definition read_outcome (to_datetime : string -> value -> option Z)
    (to_numeric : value -> float) (file_path sheet_name : string)
    (raw : RawFrame) : result DataFrame :=
  if negb (mem "date" (labels raw))
  then Raise (ValueError (no_date_msg file_path sheet_name))
  else if (2 <=? label_count "date" (labels raw))%nat
  then Raise dup_date_error
  else if labels_distinct raw
  then Ok (firm_table to_datetime to_numeric raw)
  else Raise dup_column_error.

(** A sheet whose header writes the date column twice, in two ways, and a
    sheet whose header writes an ESG column twice. *)
Module Dup.

Definition two_dates : list (list cell) :=
  [ map CStr [ "Date"; "DATE "; "Rendite_1_Quartal";
               "Volatility 260 Day Calc"; "Return on Common Equity";
               "Price to Book Ratio"; "Book to Market Ratio";
               "Bloomberg_ESG" ];
    [CStr "03/31/2021"; CStr "03/31/2021"; CInt 1; CInt 2; CInt 3; CInt 4;
     CInt 5; CInt 6] ].

Definition two_scores : list (list cell) :=
  [ map CStr [ "Date"; "Bloomberg_ESG"; "Rendite_1_Quartal";
               "Volatility 260 Day Calc"; "Return on Common Equity";
               "Price to Book Ratio"; "Book to Market Ratio";
               "bloomberg_esg" ];
    [CStr "03/31/2021"; CInt 1; CInt 1; CInt 2; CInt 3; CInt 4; CInt 5;
     CInt 6] ].

Definition wb : Workbook :=
  Sample.workbook_of [("TwoDates", two_dates); ("TwoScores", two_scores)].

End Dup.

(** The frame [raw] with one more column on the right: the label [label]
    and one cell per data row. *)
Definition with_column (raw : RawFrame) (label : cell) (cells : list cell)
    : RawFrame :=
  {| raw_columns := (raw_columns raw ++ [label])%list;
     raw_rows := map (fun rc => (fst rc ++ [snd rc])%list)
                     (combine (raw_rows raw) cells) |}.

(** Every data row has one cell per column label. *)
Definition raw_rectangular (raw : RawFrame) : Prop :=
  Forall (fun r => List.length r = List.length (raw_columns raw))
         (raw_rows raw).

(** The table read from a firm sheet with the configured window, or the
    empty frame when the read raises. *)
Definition table_of (to_datetime : string -> value -> option Z)
    (to_numeric : value -> float) (wb : Workbook) (xlsx_path firm : string)
    : DataFrame :=
  match read_with_config to_datetime to_numeric wb xlsx_path firm with
  | Ok t => t
  | Raise _ => {| index_names := []; columns := []; rows := [] |}
  end.

(** Two workbooks with the same sheets but for what the sheet of the
    excluded name holds. *)
Definition same_firm_sheets (wb wb' : Workbook) : Prop :=
  sheet_names wb = sheet_names wb'
  /\ forall s, s <> Config.WORKSHEET_NAME ->
       sheet_rows wb s = sheet_rows wb' s
       /\ forall hdr, sheet_frame wb s hdr = sheet_frame wb' s hdr.

(** [Demo.wb] with another sheet of metadata. *)
Module Meta.

Definition wb : Workbook :=
  Sample.workbook_of
    [("FirmB", Demo.sheet_b);
     ("Worksheet", (Demo.preamble ++ [Demo.header_a; [CStr "31/31/2021"]])%list);
     ("FirmA", Demo.sheet_a)].

End Meta.

(** The bank panel of [Demo.wb]. *)
Module DemoPanel.

Definition panel : DataFrame :=
  Eval vm_compute in
    match Sample.build_panel Demo.wb "banks.xlsx" "banks" with
    | Ok p => p
    | Raise _ => {| index_names := []; columns := []; rows := [] |}
    end.

End DemoPanel.

(** What [setitem] does to a row when the label is there already. *)
Definition overwritten (l : string) (cols : list string)
    (r r' : list value * list value) : Prop :=
  fst r' = fst r /\ exists v, snd r' = set_at l cols (snd r) v.


(** The table [df.reset_index()] makes of a panel: the two index levels
    come first, as columns. *)
Definition flattened (panel : DataFrame) : DataFrame :=
  {| index_names := [];
     columns := "firm" :: "date" :: columns panel;
     rows := map (fun r => ([], (fst r ++ snd r)%list)) (rows panel) |}.

(** A workbook whose only firm sheet has no Refinitiv score. *)
Module OnlyB.

Definition wb : Workbook := Sample.workbook_of [("FirmB", Demo.sheet_b)].

End OnlyB.

(** The panel [b] is the panel [p] with the two z-score columns of [main]
    after its own, and [label] under ["sector"] in every row. *)
Definition esg_standardised (label : string) (p b : DataFrame) : Prop :=
  index_names b = ["firm"; "date"]
  /\ columns b = (columns p ++ ["bloomberg_esg_z"; "refinitiv_esg_z"])%list
  /\ Forall2 (extends 2) (rows p) (rows b)
  /\ In "bloomberg_esg" (columns p)
  /\ In "refinitiv_esg" (columns p)
  /\ forall row, In row (rows b) ->
       cell_at "sector" (columns b) (snd row) = VStr label.

(** [pd.NaT] and [pd.NA] as they reach [_norm]: neither is [None] or a
    float, and [str] gives ["NaT"] and ["<NA>"] for them. *)
Definition pd_NaT : cell := CObj "NaT".
Definition pd_NA : cell := CObj "<NA>".

(** A label that ends in [_z], as the name of a z-score column does. *)
Fixpoint ends_z (s : string) : bool :=
  match s with
  | EmptyString => false
  | String _ s' => String.eqb s "_z" || ends_z s'
  end.

(** ** Vocabulary of the row-by-row statements on the standardiser *)

(** The values of a Series that are not missing, counted. *)
Definition count_notna (x : list value) : nat := List.length (filter notna x).

(** The keys of [D] are pairwise different group keys. *)
Definition keys_apart (D : list value) : Prop :=
  ForallOrdPairs (fun a b => value_eqb b a = false) D.

(** The table of group outputs [outs] holds, for the keys [D] in turn, one
    output for each value the rows [ks], [vs] have in the group, related to
    it by [R]. *)
Definition outputs_for (R : value -> value -> value -> Prop)
    (D ks vs : list value) (outs : list (value * list value)) : Prop :=
  Forall2 (fun k o => fst o = k
                      /\ Forall2 (R k) (group_values k ks vs) (snd o))
          D outs.

Definition is_float (v : value) : bool :=
  match v with VFloat _ => true | _ => false end.

(** What the statements take of [Series.mean] and [Series.std] of pandas:
    on a Series of floats both return a float, and the deviation is NaN when
    no more than one value is left after the NaN are skipped (the
    denominator is the number of values less one). *)
Definition pandas_reductions
    (series_mean series_std : list value -> result value) : Prop :=
  forall x fs, Sample.floats_of x = Some fs ->
    (exists m, series_mean x = Ok (VFloat m))
    /\ (exists s, series_std x = Ok (VFloat s))
    /\ ((List.length fs <= 1)%nat -> series_std x = Ok NaN).

(** The z-score [z] of the value [v] of a row whose group has the values
    [grp]: the float [(v - mean) / std] for the mean and the deviation of
    the group, which is NaN when [v] is missing and when the group has no
    more than one value that is not. *)
Definition row_zscore (series_mean series_std : list value -> result value)
    (grp : list value) (v z : value) : Prop :=
  (exists xv m s,
     v = VFloat xv
     /\ series_mean grp = Ok (VFloat m)
     /\ series_std grp = Ok (VFloat s)
     /\ z = VFloat ((xv - m) / s)%float)
  /\ (notna v = false -> z = NaN)
  /\ ((count_notna grp <= 1)%nat -> z = NaN).

(** The z-score column [zs] of the column [x] of a frame grouped by the
    keys [keys], row by row; a row whose key is missing is in no group. *)
Definition zscore_column (series_mean series_std : list value -> result value)
    (keys x zs : list value) : Prop :=
  Forall2 (fun kv z =>
             if notna (fst kv)
             then row_zscore series_mean series_std
                    (group_values (fst kv) keys x) (snd kv) z
             else z = NaN)
          (combine keys x) zs.

(** The frame [d] is the frame [p] with z-score columns of the targets
    [esg] added: same index and row keys, distinct labels, every column of
    [p] with its values, and no other column than those and the z-score
    columns. *)
Definition z_extended (esg : list string) (p d : DataFrame) : Prop :=
  index_names d = index_names p
  /\ map fst (rows d) = map fst (rows p)
  /\ frame_wf d
  /\ NoDup (columns d)
  /\ (forall l, In l (columns d) -> In l (columns p) \/ In l (map z_name esg))
  /\ (forall l, In l (columns p) -> In l (columns d) /\ column l d = column l p).

(** A panel of one firm whose Bloomberg score is the same in every row:
    a group of zero variance.  The sum of the three scores is not a float,
    and rounds to a float whose third is not the score. *)
Module ZeroVar.

Definition score : Z := 13510798882111492.

Definition data_row (date : string) (esg : Z) : list cell :=
  [CInt esg; CStr date; CInt 1; CInt 30; CInt 9; CInt 1; CInt 2].

Definition sheet : list (list cell) :=
  (Demo.preamble
   ++ [ Demo.header_b;
        data_row "03/31/2021" score;
        data_row "06/30/2021" score;
        data_row "09/30/2021" score ])%list.

Definition wb : Workbook := Sample.workbook_of [("FirmA", sheet)].

Definition panel : DataFrame :=
  Eval vm_compute in
    match Sample.build_panel wb "banks.xlsx" "banks" with
    | Ok p => p
    | Raise _ => {| index_names := []; columns := []; rows := [] |}
    end.

End ZeroVar.

(** A panel of one firm with the scores 2^53, 2^53 and 2^53 + 2: three
    values of non-zero variance whose sum rounds to 3 * 2^53. *)
Module Skewed.

Definition sheet : list (list cell) :=
  (Demo.preamble
   ++ [ Demo.header_b;
        ZeroVar.data_row "03/31/2021" 9007199254740992;
        ZeroVar.data_row "06/30/2021" 9007199254740992;
        ZeroVar.data_row "09/30/2021" 9007199254740994 ])%list.

Definition wb : Workbook := Sample.workbook_of [("FirmA", sheet)].

Definition panel : DataFrame :=
  Eval vm_compute in
    match Sample.build_panel wb "banks.xlsx" "banks" with
    | Ok p => p
    | Raise _ => {| index_names := []; columns := []; rows := [] |}
    end.

End Skewed.

(** A frame of three rows with the score 0.1 in each. *)
Module Tenth.

Definition score : float := Eval vm_compute in (1 / 10)%float.

Definition df : DataFrame :=
  {| index_names := ["firm"; "date"];
     columns := ["bloomberg_esg"; "sector"];
     rows :=
       [ ([VStr "FirmA"; VDate 0], [VFloat score; VStr "banks"]);
         ([VStr "FirmA"; VDate 1], [VFloat score; VStr "banks"]);
         ([VStr "FirmA"; VDate 2], [VFloat score; VStr "banks"]) ] |}.

End Tenth.

(** * Properties *)

(** ** The header normaliser *)

Module NormFacts.
Import PyStr NormShape.

Lemma isspace_lower_char c : isspace (lower_char c) = isspace c.
Proof. destruct c as [[] [] [] [] [] [] [] []]; reflexivity. Qed.

Lemma lower_char_idem c : lower_char (lower_char c) = lower_char c.
Proof. destruct c as [[] [] [] [] [] [] [] []]; reflexivity. Qed.

Lemma lower_idem s : lower (lower s) = lower s.
Proof. induction s as [|c s IH]; simpl; [reflexivity|]. now rewrite lower_char_idem, IH. Qed.

Lemma lower_app a b : lower (a ++ b) = lower a ++ lower b.
Proof. induction a as [|c a IH]; simpl; [reflexivity|]. now rewrite IH. Qed.

Lemma all_space_lower s : all_space (lower s) = all_space s.
Proof. induction s as [|c s IH]; simpl; [reflexivity|]. now rewrite isspace_lower_char, IH. Qed.

Lemma lstrip_lower s : lstrip (lower s) = lower (lstrip s).
Proof.
  induction s as [|c s IH]; simpl; [reflexivity|].
  rewrite isspace_lower_char. destruct (isspace c); [exact IH | reflexivity].
Qed.

Lemma rstrip_lower s : rstrip (lower s) = lower (rstrip s).
Proof.
  induction s as [|c s IH]; simpl; [reflexivity|].
  rewrite IH, isspace_lower_char.
  destruct (rstrip s); simpl; [destruct (isspace c)|]; reflexivity.
Qed.

Lemma strip_lower s : strip (lower s) = lower (strip s).
Proof. unfold strip. now rewrite lstrip_lower, rstrip_lower. Qed.

(** [rstrip] gives the empty string exactly on whitespace. *)
Lemma rstrip_empty_iff s : rstrip s = "" <-> all_space s = true.
Proof.
  induction s as [|c s IH]; simpl; [tauto|].
  destruct (rstrip s) eqn:E.
  - destruct (isspace c); simpl; [tauto|]. split; discriminate.
  - split; [discriminate|]. intros H. apply andb_prop in H as [_ H].
    apply IH in H. discriminate.
Qed.

Lemma rstrip_all_space s : all_space s = true -> rstrip s = "".
Proof. apply rstrip_empty_iff. Qed.

Lemma rstrip_idem s : rstrip (rstrip s) = rstrip s.
Proof.
  induction s as [|c s IH]; simpl; [reflexivity|].
  destruct (rstrip s) as [|d r] eqn:E.
  - destruct (isspace c) eqn:Ec; simpl; [reflexivity|]. now rewrite Ec.
  - change (rstrip (String c (String d r)) = String c (String d r)).
    simpl rstrip at 1. simpl in IH. 
    destruct (rstrip r) eqn:Er.
    + destruct (isspace d); [discriminate|]. now rewrite IH.
    + now rewrite IH.
Qed.

Lemma sub_ws_all_space b s :
  all_space s = true -> rstrip (sub_ws_from b s) = "".
Proof.
  revert b. induction s as [|c s IH]; intros b H; simpl in *; [reflexivity|].
  apply andb_prop in H as [Hc Hs]. rewrite Hc.
  destruct b; simpl; [now apply IH|].
  rewrite (IH true Hs). reflexivity.
Qed.

Lemma sub_ws_empty b s : sub_ws_from b s = "" -> all_space s = true.
Proof.
  revert b. induction s as [|c s IH]; intros b H; simpl in *; [reflexivity|].
  destruct (isspace c); simpl; [|discriminate].
  destruct b; [now apply (IH true)|discriminate].
Qed.

Lemma rstrip_cons_rest c s :
  all_space s = false -> rstrip (String c s) = String c (rstrip s).
Proof.
  intros H. simpl. destruct (rstrip s) eqn:E; [|reflexivity].
  apply rstrip_empty_iff in E. congruence.
Qed.

Lemma rstrip_cons_last c s :
  all_space s = true ->
  rstrip (String c s) = if isspace c then "" else String c "".
Proof. intros H. simpl. now rewrite (rstrip_all_space s H). Qed.

Lemma sub_ws_not_all_space b s :
  all_space s = false -> all_space (sub_ws_from b s) = false.
Proof.
  revert b. induction s as [|c s IH]; intros b H; simpl in *; [discriminate|].
  destruct (isspace c) eqn:Ec; simpl in *.
  - destruct b; simpl; rewrite ?IH; auto.
  - now rewrite Ec.
Qed.

(** Collapsing commutes with stripping on the right. *)
Lemma sub_ws_rstrip b s :
  sub_ws_from b (rstrip s) = rstrip (sub_ws_from b s).
Proof.
  revert b. induction s as [|c s IH]; intros b; [reflexivity|].
  destruct (all_space s) eqn:Hs.
  - rewrite (rstrip_cons_last c s Hs).
    destruct (isspace c) eqn:Ec.
    + symmetry. apply sub_ws_all_space. simpl. now rewrite Ec.
    + simpl. rewrite Ec. simpl. now rewrite (sub_ws_all_space false s Hs), Ec.
  - rewrite (rstrip_cons_rest c s Hs).
    cbn [sub_ws_from]. destruct (isspace c); [destruct b|].
    + apply IH.
    + rewrite rstrip_cons_rest by now apply sub_ws_not_all_space.
      now rewrite IH.
    + rewrite rstrip_cons_rest by now apply sub_ws_not_all_space.
      now rewrite IH.
Qed.

(** Collapsing from inside a run skips the leading whitespace. *)
Lemma sub_ws_lstrip s : sub_ws_from false (lstrip s) = sub_ws_from true s.
Proof.
  induction s as [|c s IH]; simpl; [reflexivity|].
  destruct (isspace c) eqn:Ec; [exact IH|]. simpl. now rewrite Ec.
Qed.

Lemma tidy_lower a s : tidy a s = true -> lower s = s.
Proof.
  revert a. induction s as [|c s IH]; intros a H; simpl in *; [reflexivity|].
  destruct (isspace c) eqn:Ec.
  - apply andb_prop in H as [H1 H3]. apply andb_prop in H1 as [_ H2].
    apply Ascii.eqb_eq in H2. subst c. simpl. f_equal. eapply IH; eauto.
  - apply andb_prop in H as [H1 H2]. apply Ascii.eqb_eq in H1.
    rewrite H1. f_equal. eapply IH; eauto.
Qed.

Lemma tidy_rstrip a s : tidy a s = true -> rstrip s = s.
Proof.
  revert a. induction s as [|c s IH]; intros a H; simpl in *; [reflexivity|].
  destruct (isspace c) eqn:Ec.
  - apply andb_prop in H as [_ H3]. rewrite (IH _ H3).
    destruct s; [discriminate|reflexivity].
  - apply andb_prop in H as [_ H2]. rewrite (IH _ H2).
    destruct s; reflexivity.
Qed.

Lemma tidy_lstrip s : tidy true s = true -> lstrip s = s.
Proof.
  destruct s as [|c s]; simpl; [reflexivity|].
  destruct (isspace c); [discriminate|reflexivity].
Qed.

Lemma tidy_sub_ws a s b :
  tidy a s = true -> (b = true -> a = true) -> sub_ws_from b s = s.
Proof.
  revert a b. induction s as [|c s IH]; intros a b H Hb; simpl in *; [reflexivity|].
  destruct (isspace c) eqn:Ec.
  - apply andb_prop in H as [H1 H3]. apply andb_prop in H1 as [H1 H2].
    apply Ascii.eqb_eq in H2. subst c.
    destruct a; [discriminate|]. destruct b; [now specialize (Hb eq_refl)|].
    f_equal. apply (IH true true); auto.
  - apply andb_prop in H as [_ H2]. f_equal.
    apply (IH false false); [assumption | discriminate].
Qed.

Lemma tidy_replace a s : tidy a s = true -> replace_char LF " " s = s.
Proof.
  revert a. induction s as [|c s IH]; intros a H; simpl in *; [reflexivity|].
  destruct (isspace c) eqn:Ec.
  - apply andb_prop in H as [H1 H3]. apply andb_prop in H1 as [_ H2].
    apply Ascii.eqb_eq in H2. subst c. simpl. f_equal. eapply IH; eauto.
  - apply andb_prop in H as [_ H2].
    destruct (Ascii.eqb c LF) eqn:E.
    + apply Ascii.eqb_eq in E. subst c. discriminate.
    + f_equal. eapply IH; eauto.
Qed.

(** Every step of [norm_text] leaves a canonical string as it is. *)
Lemma canonical_fixed s : canonical s -> norm_text s = s.
Proof.
  intros [-> | H]; [reflexivity|].
  unfold norm_text, strip, re_sub_ws.
  rewrite (tidy_lstrip s H), (tidy_rstrip _ s H), (tidy_lower _ s H).
  rewrite (tidy_sub_ws true s false H) by discriminate.
  rewrite (tidy_replace _ s H), (tidy_lstrip s H).
  apply (tidy_rstrip _ s H).
Qed.

(** Collapsing a lower-case string that does not end in whitespace gives a
    tidy string. *)
Lemma sub_ws_tidy s :
  rstrip s = s -> lower s = s ->
  (s <> "" -> tidy true (sub_ws_from true s) = true)
  /\ tidy false (sub_ws_from false s) = true.
Proof.
  induction s as [|c s IH]; intros Hr Hl; [split; [congruence|reflexivity]|].
  simpl in Hl. injection Hl as Hc Hl.
  assert (Hs : rstrip s = s /\ (isspace c = true -> s <> "")).
  { simpl in Hr. destruct (rstrip s) eqn:E.
    - destruct (isspace c); [discriminate|]. injection Hr as <-. split; [assumption|discriminate].
    - injection Hr as <-. split; [reflexivity|discriminate]. }
  destruct Hs as [Hr' Hne]. destruct (IH Hr' Hl) as [IH1 IH2].
  simpl. destruct (isspace c) eqn:Ec; simpl.
  - split; [intros _; apply IH1; auto|]. apply IH1; auto.
  - rewrite Ec, Hc, Ascii.eqb_refl, IH2. split; reflexivity.
Qed.

(** [norm_text] in one pass: lower case, collapse, strip on the right. *)
Lemma norm_text_alt s :
  norm_text s = rstrip (sub_ws_from true (lower s))
  /\ canonical (norm_text s).
Proof.
  set (u := rstrip (lower (lstrip s))).
  assert (Hu : lower (strip s) = u).
  { unfold u, strip. now rewrite rstrip_lower. }
  assert (Hr : rstrip u = u) by (unfold u; apply rstrip_idem).
  assert (Hl : lower u = u).
  { unfold u. now rewrite <- rstrip_lower, lower_idem. }
  assert (Hw : sub_ws_from false u = rstrip (sub_ws_from true (lower s))).
  { unfold u. now rewrite sub_ws_rstrip, <- lstrip_lower, sub_ws_lstrip. }
  assert (Hc : canonical (sub_ws_from false u)).
  { destruct u as [|c u'] eqn:Eu; [left; reflexivity|]. right.
    destruct (sub_ws_tidy _ Hr Hl) as [_ H].
    assert (Ec : isspace c = false).
    { destruct (isspace c) eqn:Ec; [|reflexivity]. exfalso.
      assert (Hls : lstrip (lower (lstrip s)) = lower (lstrip s)).
      { rewrite lstrip_lower. f_equal.
        clear. induction s as [|d s IH]; simpl; [reflexivity|].
        destruct (isspace d) eqn:Ed; [exact IH|]. simpl. now rewrite Ed. }
      unfold u in Eu. destruct (lower (lstrip s)) as [|d t] eqn:Et; [discriminate|].
      simpl in Hls. simpl in Eu.
      assert (d = c) by (destruct (rstrip t); [destruct (isspace d); [discriminate|]|]; congruence).
      subst d. rewrite Ec in Hls.
      assert (Hlen : forall x, String.length (lstrip x) <= String.length x).
      { clear. induction x as [|e x IH]; simpl; [lia|]. destruct (isspace e); simpl; lia. }
      specialize (Hlen t). rewrite Hls in Hlen. simpl in Hlen. lia. }
    cbn [sub_ws_from] in H |- *. rewrite Ec in H |- *.
    cbn [tidy] in H |- *. rewrite Ec in H |- *. exact H. }
  assert (Hn : norm_text s = sub_ws_from false u).
  { unfold norm_text. rewrite Hu. unfold re_sub_ws.
    destruct Hc as [-> | Hc]; [reflexivity|].
    rewrite (tidy_replace _ _ Hc). unfold strip.
    rewrite (tidy_lstrip _ Hc). apply (tidy_rstrip _ _ Hc). }
  rewrite Hn. split; [exact Hw | exact Hc].
Qed.

Lemma norm_text_idem s : norm_text (norm_text s) = norm_text s.
Proof. apply canonical_fixed, norm_text_alt. Qed.

Lemma sub_ws_skip w b : all_space w = true -> sub_ws_from true (w ++ b) = sub_ws_from true b.
Proof.
  induction w as [|c w IH]; intros H; simpl in *; [reflexivity|].
  apply andb_prop in H as [Hc Hw]. rewrite Hc. now apply IH.
Qed.

(** A run of whitespace inside a string counts as one space. *)
Lemma sub_ws_run a w b r :
  all_space w = true -> w <> "" ->
  sub_ws_from r (a ++ w ++ b) = sub_ws_from r (a ++ " " ++ b).
Proof.
  intros Hw Hne. revert r. induction a as [|c a IH]; intros r; simpl.
  - destruct w as [|d w]; [congruence|]. simpl in Hw |- *.
    apply andb_prop in Hw as [Hd Hw]. rewrite Hd.
    destruct r; now rewrite sub_ws_skip.
  - destruct (isspace c); [destruct r|]; now rewrite IH.
Qed.

Lemma rstrip_sub_ws_tail x post b :
  all_space post = true ->
  rstrip (sub_ws_from b (x ++ post)) = rstrip (sub_ws_from b x).
Proof.
  intros Hp. revert b. induction x as [|c x IH]; intros b; simpl.
  - now apply sub_ws_all_space.
  - destruct (isspace c); [destruct b|]; simpl; now rewrite ?IH.
Qed.

End NormFacts.

(** C7: [_norm] is a total function and is idempotent; [None], NaN, the
    empty string and a string of whitespace give the empty token; inputs that
    differ only in case, in surrounding whitespace or in the whitespace
    between their words (newlines included) have the same token, and
    [" Date \n"], ["DATE"] and ["date"] all give ["date"]. *)
Theorem norm_idempotent_insensitive :
  (forall x : cell, _norm (CStr (_norm x)) = _norm x)
  /\ _norm CNone = "" /\ _norm CNaN = ""
  /\ (forall s, PyStr.all_space s = true -> _norm (CStr s) = "")
  /\ (forall a b, PyStr.lower a = PyStr.lower b -> _norm (CStr a) = _norm (CStr b))
  /\ (forall pre s post,
        PyStr.all_space pre = true -> PyStr.all_space post = true ->
        _norm (CStr (pre ++ s ++ post)) = _norm (CStr s))
  /\ (forall a w1 w2 b,
        PyStr.all_space w1 = true -> w1 <> "" ->
        PyStr.all_space w2 = true -> w2 <> "" ->
        _norm (CStr (a ++ w1 ++ b)) = _norm (CStr (a ++ w2 ++ b)))
  /\ _norm (CStr (" Date " ++ String PyStr.LF "")) = "date"
  /\ _norm (CStr "DATE") = "date"
  /\ _norm (CStr "date") = "date".
Proof.
  repeat split; try reflexivity.
  - intros x. destruct x; try reflexivity; apply NormFacts.norm_text_idem.
  - intros s H. simpl. rewrite (proj1 (NormFacts.norm_text_alt s)).
    replace (PyStr.lower s) with (PyStr.lower s ++ "").
    + rewrite NormFacts.sub_ws_skip; [reflexivity|].
      now rewrite NormFacts.all_space_lower.
    + clear. induction (PyStr.lower s) as [|c t IH]; simpl; congruence.
  - intros a b H. simpl.
    rewrite (proj1 (NormFacts.norm_text_alt a)), (proj1 (NormFacts.norm_text_alt b)).
    now rewrite H.
  - intros pre s post Hpre Hpost. simpl.
    rewrite (proj1 (NormFacts.norm_text_alt s)),
            (proj1 (NormFacts.norm_text_alt (pre ++ s ++ post))).
    rewrite !NormFacts.lower_app.
    rewrite NormFacts.sub_ws_skip by now rewrite NormFacts.all_space_lower.
    apply NormFacts.rstrip_sub_ws_tail. now rewrite NormFacts.all_space_lower.
  - intros a w1 w2 b H1 N1 H2 N2. simpl.
    rewrite (proj1 (NormFacts.norm_text_alt (a ++ w1 ++ b))),
            (proj1 (NormFacts.norm_text_alt (a ++ w2 ++ b))).
    rewrite !NormFacts.lower_app.
    rewrite (NormFacts.sub_ws_run (PyStr.lower a) (PyStr.lower w1)),
            (NormFacts.sub_ws_run (PyStr.lower a) (PyStr.lower w2));
      try (now rewrite NormFacts.all_space_lower);
      [reflexivity | destruct w2; [congruence|discriminate]
       | destruct w1; [congruence|discriminate]].
Qed.

(** C7, the clause on missing input: a missing value other than [None]
    and the float NaN does not give the empty token.  [pd.NaT], which a
    cell of a column of dates holds when it is empty, gives ["nat"], and
    [pd.NA] gives ["<na>"]. *)
Lemma norm_missing_not_empty :
  _norm pd_NaT = "nat" /\ _norm pd_NA = "<na>"
  /\ _norm pd_NaT <> "" /\ _norm pd_NA <> "".
Proof. repeat split; try reflexivity; discriminate. Qed.

(** ** The header locator *)

Lemma mem_In x s : mem x s = true <-> In x s.
Proof.
  unfold mem. rewrite existsb_exists. split.
  - intros [y [Hy E]]. apply String.eqb_eq in E. now subst.
  - intros H. exists x. split; [assumption | apply String.eqb_refl].
Qed.

Lemma mem_false x s : mem x s = false <-> ~ In x s.
Proof.
  rewrite <- mem_In. destruct (mem x s); split; congruence.
Qed.

Lemma expected_In h : In h expected <-> In h Config.EXPECTED_HEADERS.
Proof.
  unfold expected. rewrite nodup_In.
  replace (map (fun h0 => _norm (CStr h0)) Config.EXPECTED_HEADERS)
    with Config.EXPECTED_HEADERS by (vm_compute; reflexivity).
  tauto.
Qed.

Lemma In_firstn {A : Type} (n : nat) (l : list A) (x : A) :
  In x (firstn n l) -> In x l.
Proof.
  intros H. rewrite <- (firstn_skipn n l). apply in_or_app. now left.
Qed.

(** The test of the loop is the condition of the specification. *)
Lemma is_header_row_iff row : is_header_row row = true <-> qualifies row.
Proof.
  unfold is_header_row, qualifies, hits.
  set (rs := map _norm row).
  rewrite andb_true_iff, mem_In, Nat.leb_le.
  apply and_iff_compat_l.
  set (fl := filter (fun h => mem h rs) expected).
  assert (Hnd : NoDup fl) by (apply NoDup_filter, NoDup_nodup).
  assert (Hin : forall h, In h fl <-> In h Config.EXPECTED_HEADERS /\ In h rs).
  { intros h. unfold fl. now rewrite filter_In, expected_In, mem_In. }
  split.
  - intros Hlen. exists (firstn 7 fl). repeat split.
    + rewrite <- (firstn_skipn 7 fl) in Hnd. now apply NoDup_app_remove_r in Hnd.
    + rewrite length_firstn. lia.
    + intros h Hh. apply In_firstn, Hin in Hh. tauto.
    + intros h Hh. apply In_firstn, Hin in Hh. tauto.
  - intros [l [Hl [Hlen [He Hr]]]]. rewrite <- Hlen.
    apply NoDup_incl_length; [assumption|].
    intros h Hh. apply Hin. split; [now apply He | now apply Hr].
Qed.

Lemma is_header_row_false row : is_header_row row = false <-> ~ qualifies row.
Proof.
  rewrite <- is_header_row_iff. destruct (is_header_row row); split; congruence.
Qed.

(** The loop returns the index of the first row that passes the test. *)
Lemma scan_chunk_Some chunk i j :
  scan_chunk chunk i = Some j <->
  exists k row,
    j = (i + k)%nat /\ nth_error chunk k = Some row
    /\ is_header_row row = true
    /\ forall k' row', (k' < k)%nat -> nth_error chunk k' = Some row' ->
                       is_header_row row' = false.
Proof.
  revert i j. induction chunk as [|r chunk IH]; intros i j; simpl.
  - split; [discriminate|]. intros [k [row [_ [H _]]]]. now destruct k.
  - destruct (is_header_row r) eqn:Er.
    + split.
      * intros [= <-]. exists 0%nat, r. repeat split; auto with arith.
        intros k' row' Hk. lia.
      * intros [k [row [-> [Hn [Hq Hmin]]]]].
        destruct k as [|k]; [f_equal; lia|].
        specialize (Hmin 0%nat r (Nat.lt_0_succ k) eq_refl). congruence.
    + rewrite IH. split.
      * intros [k [row [-> [Hn [Hq Hmin]]]]]. exists (S k), row.
        repeat split; [lia | assumption | assumption |].
        intros [|k'] row' Hk Hn'; simpl in Hn'; [congruence|].
        apply (Hmin k'); [lia | assumption].
      * intros [k [row [-> [Hn [Hq Hmin]]]]].
        destruct k as [|k]; simpl in Hn; [congruence|].
        exists k, row. repeat split; [lia | assumption | assumption |].
        intros k' row' Hk Hn'. apply (Hmin (S k')); [lia | assumption].
Qed.

Lemma scan_chunk_None chunk i :
  scan_chunk chunk i = None <->
  forall row, In row chunk -> is_header_row row = false.
Proof.
  revert i. induction chunk as [|r chunk IH]; intros i; simpl.
  - split; [intros _ row [] | reflexivity].
  - destruct (is_header_row r) eqn:Er.
    + split; [discriminate|]. intros H. specialize (H r (or_introl eq_refl)). congruence.
    + rewrite IH. split.
      * intros H row [<- | Hin]; auto.
      * intros H row Hin. apply H. now right.
Qed.

(** Row [i] of the block is row [skiprows + i] of the sheet. *)
Lemma nth_error_block wb sheet skiprows nrows i :
  nth_error (read_excel_block wb sheet skiprows nrows) i =
  if (i <? nrows)%nat then nth_error (sheet_rows wb sheet) (skiprows + i)
  else None.
Proof.
  unfold read_excel_block.
  destruct (i <? nrows)%nat eqn:E.
  - apply Nat.ltb_lt in E. rewrite nth_error_firstn.
    apply Nat.ltb_lt in E. rewrite E. apply nth_error_skipn.
  - apply Nat.ltb_ge in E. apply nth_error_None.
    rewrite length_firstn. lia.
Qed.

(** C1: [find_header_row] returns [r] exactly when [r] is the index of the
    first row of the scanned block, rows [start_row] to
    [start_row + max_scan_rows - 1] of the sheet, whose tokens contain
    ["date"] and at least 7 expected names; no earlier row of the block
    that fails the test is returned.  On the synthetic sheet with a decoy
    at offset 5 (6 names, no date) and the header at offset 12 the answer
    is [scan_start + 12]. *)
Theorem find_header_row_first_match :
  (forall wb file_path sheet_name start_row max_scan_rows r,
     find_header_row wb file_path sheet_name start_row max_scan_rows = Ok r
     <->
     (start_row <= r < start_row + max_scan_rows)%nat
     /\ (exists row, nth_error (sheet_rows wb sheet_name) r = Some row
                     /\ qualifies row)
     /\ (forall j row', (start_row <= j < r)%nat ->
           nth_error (sheet_rows wb sheet_name) j = Some row' ->
           ~ qualifies row'))
  /\ ~ qualifies Decoy.decoy_row
  /\ nth_error (sheet_rows Decoy.wb "FirmA") (Decoy.scan_start + 5)
     = Some Decoy.decoy_row
  /\ hits (map _norm Decoy.decoy_row) = 6%nat
  /\ hits (map _norm Decoy.header_row) = 9%nat
  /\ find_header_row Decoy.wb "f.xlsx" "FirmA" Decoy.scan_start 20
     = Ok (Decoy.scan_start + 12)%nat.
Proof.
  split; [|repeat split; try (vm_compute; reflexivity);
           apply is_header_row_false; vm_compute; reflexivity].
  intros wb file_path sheet_name start_row max_scan_rows r.
  unfold find_header_row.
  destruct (scan_chunk _ 0) as [i|] eqn:E.
  - apply scan_chunk_Some in E as [k [row [-> [Hn [Hq Hmin]]]]].
    simpl. rewrite nth_error_block in Hn.
    destruct (k <? max_scan_rows)%nat eqn:Ek; [|discriminate].
    apply Nat.ltb_lt in Ek.
    assert (Hfirst : forall j row', (start_row <= j < start_row + k)%nat ->
              nth_error (sheet_rows wb sheet_name) j = Some row' ->
              ~ qualifies row').
    { intros j row' Hj Hn'. apply is_header_row_false.
      apply (Hmin (j - start_row)%nat); [lia|].
      rewrite nth_error_block.
      replace (j - start_row <? max_scan_rows)%nat with true
        by (symmetry; apply Nat.ltb_lt; lia).
      now replace (start_row + (j - start_row))%nat with j by lia. }
    split.
    + intros [= <-]. split; [lia|]. split; [|assumption].
      exists row. split; [assumption | now apply is_header_row_iff].
    + intros [Hr [[row2 [Hn2 Hq2]] Hmin2]]. f_equal.
      destruct (Nat.lt_trichotomy r (start_row + k)) as [Hlt | [Heq | Hgt]].
      * exfalso. apply (Hfirst r row2); [lia | assumption | assumption].
      * now symmetry.
      * exfalso. apply (Hmin2 (start_row + k)%nat row); [lia | assumption |].
        now apply is_header_row_iff.
  - split; [discriminate|]. intros [Hr [[row [Hn Hq]] _]]. exfalso.
    assert (Hall := proj1 (scan_chunk_None _ _) E).
    assert (Hin : In row (read_excel_block wb sheet_name start_row max_scan_rows)).
    { apply (nth_error_In _ (r - start_row)). rewrite nth_error_block.
      replace (r - start_row <? max_scan_rows)%nat with true
        by (symmetry; apply Nat.ltb_lt; lia).
      now replace (start_row + (r - start_row))%nat with r by lia. }
    apply Hall in Hin. apply is_header_row_false in Hin. contradiction.
Qed.

(** C6: [find_header_row] raises exactly when no row of the scanned block
    passes the test; what it raises is the "header row not found" error,
    whose message names the sheet, the file and the scanned rows
    [start_row] .. [start_row + max_scan_rows - 1]. *)
Theorem find_header_row_not_found :
  (forall wb file_path sheet_name start_row max_scan_rows e,
     find_header_row wb file_path sheet_name start_row max_scan_rows = Raise e
     <->
     e = ValueError
           ("Header row not found in '" ++ sheet_name ++ "' of '" ++ file_path
            ++ "' (scanned rows " ++ PyStr.str_of_int (Z.of_nat start_row)
            ++ ".."
            ++ PyStr.str_of_int (Z.of_nat start_row + Z.of_nat max_scan_rows - 1)
            ++ ").")
     /\ (forall j row, (start_row <= j < start_row + max_scan_rows)%nat ->
           nth_error (sheet_rows wb sheet_name) j = Some row ->
           ~ qualifies row))
  /\ find_header_row Decoy.wb "banks.xlsx" "FirmA"
       Config.HEADER_SCAN_START_ROW Config.HEADER_SCAN_MAX_ROWS
     = Raise (ValueError
         "Header row not found in 'FirmA' of 'banks.xlsx' (scanned rows 2000..4999).").
Proof.
  split; [|vm_compute; reflexivity].
  intros wb file_path sheet_name start_row max_scan_rows e.
  assert (Hmsg :
    header_not_found_msg file_path sheet_name start_row max_scan_rows
    = "Header row not found in '" ++ sheet_name ++ "' of '" ++ file_path
      ++ "' (scanned rows " ++ PyStr.str_of_int (Z.of_nat start_row) ++ ".."
      ++ PyStr.str_of_int (Z.of_nat start_row + Z.of_nat max_scan_rows - 1)
      ++ ").").
  { reflexivity. }
  rewrite <- Hmsg. unfold find_header_row.
  destruct (scan_chunk _ 0) as [i|] eqn:E.
  - split; [discriminate|]. intros [_ Hnone]. exfalso.
    apply scan_chunk_Some in E as [k [row [_ [Hn [Hq _]]]]].
    rewrite nth_error_block in Hn.
    destruct (k <? max_scan_rows)%nat eqn:Ek; [|discriminate].
    apply Nat.ltb_lt in Ek.
    apply (Hnone (start_row + k)%nat row); [lia | assumption |].
    now apply is_header_row_iff.
  - assert (Hall := proj1 (scan_chunk_None _ _) E). split.
    + intros [= <-]. split; [reflexivity|].
      intros j row Hj Hn. apply is_header_row_false, Hall.
      apply (nth_error_In _ (j - start_row)). rewrite nth_error_block.
      replace (j - start_row <? max_scan_rows)%nat with true
        by (symmetry; apply Nat.ltb_lt; lia).
      now replace (start_row + (j - start_row))%nat with j by lia.
    + intros [-> _]. reflexivity.
Qed.

(** ** Frames *)

Module FrameFacts.

Lemma combine_map_r {A B : Type} (g : A -> B) (l : list A) :
  combine l (map g l) = map (fun x => (x, g x)) l.
Proof. induction l as [|a l IH]; simpl; [reflexivity | now rewrite IH]. Qed.

Lemma combine_map_map {A B C : Type} (f : A -> B) (g : A -> C) (l : list A) :
  combine (map f l) (map g l) = map (fun x => (f x, g x)) l.
Proof. induction l as [|a l IH]; simpl; [reflexivity | now rewrite IH]. Qed.

Lemma filter_eqb_repeat k cols :
  filter (String.eqb k) cols = repeat k (label_count k cols).
Proof.
  unfold label_count. induction cols as [|c cols IH]; simpl; [reflexivity|].
  destruct (String.eqb_spec k c) as [<- | Hne]; simpl; [now f_equal | exact IH].
Qed.

Lemma label_count_pos k cols : In k cols <-> (1 <= label_count k cols)%nat.
Proof.
  unfold label_count. induction cols as [|c cols IH]; simpl; [split; [tauto | lia]|].
  destruct (String.eqb_spec k c) as [<- | Hne]; simpl.
  - split; [lia | auto].
  - rewrite <- IH. split; [intros [H | H]; congruence | auto].
Qed.

Lemma label_count_NoDup k cols :
  NoDup cols -> In k cols -> label_count k cols = 1%nat.
Proof.
  unfold label_count. induction 1 as [|c cols Hc Hnd IH]; intros Hin; simpl; [destruct Hin|].
  destruct (String.eqb_spec k c) as [<- | Hne]; simpl.
  - f_equal. apply Nat.le_0_r. apply Nat.lt_succ_r. apply Nat.nle_gt.
    intros H. apply Hc. now apply label_count_pos.
  - destruct Hin as [H | H]; [congruence | now apply IH].
Qed.

Lemma cells_at_gen (f : string -> value) l cols :
  cells_at l cols (map f cols) = map f (filter (fun k => String.eqb k l) cols).
Proof.
  unfold cells_at. rewrite combine_map_r.
  induction cols as [|c cols IH]; simpl; [reflexivity|].
  destruct (String.eqb c l); simpl; now rewrite IH.
Qed.

Lemma filter_eqb_sym l cols :
  filter (fun k => String.eqb k l) cols = filter (String.eqb l) cols.
Proof. apply filter_ext. intros k. apply String.eqb_sym. Qed.

Lemma cell_at_gen (f : string -> value) l cols :
  NoDup cols -> In l cols -> cell_at l cols (map f cols) = f l.
Proof.
  intros Hnd Hin. unfold cell_at.
  rewrite cells_at_gen, filter_eqb_sym, filter_eqb_repeat.
  now rewrite (label_count_NoDup l cols Hnd Hin).
Qed.

Lemma cell_at_absent l cols r : ~ In l cols -> cell_at l cols r = NaN.
Proof.
  intros Hin. unfold cell_at, cells_at.
  replace (filter _ (combine cols r)) with (@nil (string * value)); [reflexivity|].
  symmetry. revert r. induction cols as [|c cols IH]; intros r; [reflexivity|].
  destruct r as [|v r]; [reflexivity|]. simpl.
  destruct (String.eqb_spec c l) as [-> | Hne]; [exfalso; apply Hin; now left|].
  apply IH. intros H. apply Hin. now right.
Qed.

Lemma set_at_gen (f : string -> value) l cols v :
  set_at l cols (map f cols) v
  = map (fun k => if String.eqb k l then v else f k) cols.
Proof.
  unfold set_at. rewrite combine_map_r, map_map. reflexivity.
Qed.

Lemma drop_gen (f : string -> value) (p : string -> bool) cols :
  map snd (filter (fun lx => p (fst lx)) (combine cols (map f cols)))
  = map f (filter p cols).
Proof.
  rewrite combine_map_r.
  induction cols as [|c cols IH]; simpl; [reflexivity|].
  destruct (p c); simpl; now rewrite IH.
Qed.

Lemma find_none {A : Type} (f : A -> bool) (l : list A) :
  (forall x, In x l -> f x = false) -> find f l = None.
Proof.
  induction l as [|a l IH]; intros H; simpl; [reflexivity|].
  rewrite (H a (or_introl eq_refl)). apply IH. intros x Hx. apply H. now right.
Qed.

Lemma length_pad n r : List.length (pad n r) = n.
Proof.
  unfold pad. rewrite length_app, length_firstn, repeat_length. lia.
Qed.

(** A rectangular row is generated by its own cells. *)
Lemma row_as_gen cols r :
  NoDup cols -> List.length r = List.length cols ->
  r = map (fun k => cell_at k cols r) cols.
Proof.
  intros Hnd. revert r. induction cols as [|c cols IH]; intros r Hlen.
  - destruct r; [reflexivity | discriminate].
  - destruct r as [|v r]; [discriminate|]. simpl in Hlen.
    apply NoDup_cons_iff in Hnd as [Hc Hnd]. simpl. f_equal.
    + unfold cell_at, cells_at. simpl. now rewrite String.eqb_refl.
    + rewrite (IH Hnd r) at 1 by lia. apply map_ext_in. intros k Hk.
      unfold cell_at, cells_at. simpl.
      destruct (String.eqb_spec c k) as [-> | Hne]; [contradiction | reflexivity].
Qed.

(** *** Operations on generated frames *)

Section Gen.
Context {X : Type}.
Variables (idx cols : list string) (xs : list X).
Variable key : X -> list value.
Variable val : X -> string -> value.
Hypothesis cols_nodup : NoDup cols.

Lemma gen_frame_ext (val' : X -> string -> value) :
  (forall x k, In x xs -> In k cols -> val x k = val' x k) ->
  gen_frame idx cols xs key val = gen_frame idx cols xs key val'.
Proof.
  intros H. unfold gen_frame. f_equal. apply map_ext_in. intros x Hx.
  f_equal. apply map_ext_in. intros k Hk. now apply H.
Qed.

Lemma column_gen l :
  In l cols ->
  column l (gen_frame idx cols xs key val) = map (fun x => val x l) xs.
Proof.
  intros Hin. unfold column, gen_frame. simpl. rewrite map_map.
  apply map_ext. intros x. simpl. now apply cell_at_gen.
Qed.

Lemma getitem_gen l :
  In l cols ->
  getitem l (gen_frame idx cols xs key val)
  = Ok (Series (map (fun x => val x l) xs)).
Proof.
  intros Hin. unfold getitem.
  change (List.length (filter (String.eqb l) (columns (gen_frame idx cols xs key val))))
    with (label_count l cols).
  rewrite (label_count_NoDup l cols cols_nodup Hin). now rewrite column_gen.
Qed.

Lemma setitem_gen l (h : X -> value) :
  In l cols ->
  setitem l (map h xs) (gen_frame idx cols xs key val)
  = gen_frame idx cols xs key
      (fun x k => if String.eqb k l then h x else val x k).
Proof.
  intros Hin. unfold setitem. simpl.
  rewrite (proj2 (mem_In l cols) Hin). unfold gen_frame. simpl. f_equal.
  rewrite combine_map_map, map_map. apply map_ext. intros x. simpl.
  now rewrite set_at_gen.
Qed.

Lemma setitem_gen_new l (h : X -> value) :
  ~ In l cols ->
  setitem l (map h xs) (gen_frame idx cols xs key val)
  = gen_frame idx (cols ++ [l]) xs key
      (fun x k => if String.eqb k l then h x else val x k).
Proof.
  intros Hin. unfold setitem. simpl.
  rewrite (proj2 (mem_false l cols) Hin). unfold gen_frame. simpl. f_equal.
  rewrite combine_map_map, map_map. apply map_ext. intros x. simpl.
  rewrite map_app. simpl. rewrite String.eqb_refl. f_equal. f_equal.
  apply map_ext_in. intros k Hk.
  destruct (String.eqb_spec k l) as [-> | Hne]; [contradiction | reflexivity].
Qed.

Lemma filter_rows_gen (m : X -> bool) :
  filter_rows (map m xs) (gen_frame idx cols xs key val)
  = gen_frame idx cols (filter m xs) key val.
Proof.
  unfold filter_rows, gen_frame. simpl. f_equal.
  rewrite combine_map_map.
  induction xs as [|x l IH]; simpl; [reflexivity|].
  destruct (m x); simpl; now rewrite IH.
Qed.

Lemma set_index_gen keys :
  incl keys cols ->
  set_index keys (gen_frame idx cols xs key val)
  = Ok (gen_frame keys (filter (fun c => negb (mem c keys)) cols) xs
          (fun x => map (val x) keys) val).
Proof.
  intros Hk. unfold set_index. simpl.
  rewrite find_none.
  2:{ intros k Hin. apply negb_false_iff, mem_In. now apply Hk. }
  unfold gen_frame. f_equal. f_equal. rewrite map_map.
  apply map_ext. intros x. simpl. f_equal.
  - apply map_ext_in. intros k Hin. apply cell_at_gen; [assumption | now apply Hk].
  - apply (drop_gen (val x) (fun c => negb (mem c keys))).
Qed.

Lemma reset_index_gen (kval : X -> string -> value) :
  (forall n, In n idx -> ~ In n cols) ->
  (forall x, In x xs -> key x = map (kval x) idx) ->
  reset_index (gen_frame idx cols xs key val)
  = Ok (gen_frame [] (idx ++ cols) xs (fun _ => [])
          (fun x k => if mem k idx then kval x k else val x k)).
Proof.
  intros Hd Hkey. unfold reset_index. simpl.
  rewrite find_none.
  2:{ intros n Hin. apply mem_false. now apply Hd. }
  unfold gen_frame. f_equal. f_equal. rewrite map_map.
  apply map_ext_in. intros x Hx. simpl. f_equal.
  rewrite map_app, (Hkey x Hx). f_equal.
  - apply map_ext_in. intros k Hin. now rewrite (proj2 (mem_In k idx) Hin).
  - apply map_ext_in. intros k Hin.
    destruct (mem k idx) eqn:E; [|reflexivity].
    apply mem_In in E. exfalso. now apply (Hd k).
Qed.

End Gen.

End FrameFacts.

(** ** Sorting by the index *)

Module SortFacts.

Lemma insert_row_perm (r : list value * list value) l : Permutation (insert_row r l) (r :: l).
Proof.
  induction l as [|h t IH]; simpl; [reflexivity|].
  destruct (key_leb (fst r) (fst h)); [reflexivity|].
  rewrite IH. apply perm_swap.
Qed.

Lemma sort_perm (l : list (list value * list value)) : Permutation (fold_right insert_row [] l) l.
Proof.
  induction l as [|r l IH]; simpl; [reflexivity|].
  rewrite insert_row_perm. now apply perm_skip.
Qed.

Lemma sort_length (l : list (list value * list value)) :
  List.length (fold_right insert_row [] l) = List.length l.
Proof. apply Permutation_length, sort_perm. Qed.

(** Insertion sort on keys of one shape [P], on which the order is total
    and transitive. *)
Section Ordered.

Variable P : list value -> Prop.
Hypothesis total : forall a b, P a -> P b ->
  key_leb a b = false -> key_leb b a = true.
Hypothesis trans : forall a b c, P a -> P b -> P c ->
  key_le a b -> key_le b c -> key_le a c.

Lemma insert_row_sorted (r : list value * list value) l :
  P (fst r) -> Forall (fun x => P (fst x)) l ->
  StronglySorted (fun r1 r2 => key_le (fst r1) (fst r2)) l ->
  StronglySorted (fun r1 r2 => key_le (fst r1) (fst r2)) (insert_row r l).
Proof.
  intros Hr Hl Hs. induction l as [|h t IH]; simpl.
  - constructor; constructor.
  - apply StronglySorted_inv in Hs as [Hst Hh].
    apply Forall_cons_iff in Hl as [Hph Hpt].
    destruct (key_leb (fst r) (fst h)) eqn:E.
    + constructor; [constructor; assumption|].
      constructor; [exact E|].
      apply Forall_forall. intros x Hx.
      apply (trans (fst r) (fst h) (fst x)); auto.
      * apply (proj1 (Forall_forall _ _) Hpt x Hx).
      * apply (proj1 (Forall_forall _ _) Hh x Hx).
    + constructor; [now apply IH|].
      apply (Permutation_Forall (Permutation_sym (insert_row_perm r t))).
      constructor; [|assumption]. now apply total.
Qed.

Lemma sort_sorted (l : list (list value * list value)) :
  Forall (fun x => P (fst x)) l ->
  StronglySorted (fun r1 r2 => key_le (fst r1) (fst r2))
                 (fold_right insert_row [] l).
Proof.
  induction l as [|r l IH]; intros H; simpl; [constructor|].
  apply Forall_cons_iff in H as [Hr Hl].
  apply insert_row_sorted; [assumption | | now apply IH].
  apply (Permutation_Forall (Permutation_sym (sort_perm l))). assumption.
Qed.

End Ordered.

(** *** Date keys *)

Lemma key_leb_date a b : key_leb [VDate a] [VDate b] = Z.leb a b.
Proof. simpl. now destruct (Z.leb a b), (Z.leb b a). Qed.

Lemma date_total a b :
  is_date_key a -> is_date_key b -> key_leb a b = false -> key_leb b a = true.
Proof.
  intros [x ->] [y ->]. rewrite !key_leb_date.
  intros H. apply Z.leb_gt in H. apply Z.leb_le. lia.
Qed.

Lemma date_trans a b c :
  is_date_key a -> is_date_key b -> is_date_key c ->
  key_le a b -> key_le b c -> key_le a c.
Proof.
  intros [x ->] [y ->] [z ->]. unfold key_le. rewrite !key_leb_date.
  intros H1 H2. apply Z.leb_le in H1, H2. apply Z.leb_le. lia.
Qed.

(** *** (firm, date) keys *)

Lemma ascii_compare_refl c : Ascii.compare c c = Eq.
Proof. apply N.compare_refl. Qed.

Lemma str_compare_refl s : String.compare s s = Eq.
Proof.
  induction s as [|c s IH]; simpl; [reflexivity|].
  now rewrite ascii_compare_refl.
Qed.

Lemma str_compare_lt_trans a : forall b c,
  String.compare a b = Lt -> String.compare b c = Lt -> String.compare a c = Lt.
Proof.
  induction a as [|x a IH]; intros [|y b] [|z c]; simpl; try discriminate; auto.
  unfold Ascii.compare.
  destruct (N.compare_spec (N_of_ascii x) (N_of_ascii y)) as [Hxy | Hxy | Hxy];
    try discriminate;
    destruct (N.compare_spec (N_of_ascii y) (N_of_ascii z)) as [Hyz | Hyz | Hyz];
    try discriminate; intros H1 H2.
  - replace (N_of_ascii x ?= N_of_ascii z)%N with Eq
      by (symmetry; apply N.compare_eq_iff; congruence).
    now apply (IH b c).
  - replace (N_of_ascii x ?= N_of_ascii z)%N with Lt
      by (symmetry; apply N.compare_lt_iff; lia).
    reflexivity.
  - replace (N_of_ascii x ?= N_of_ascii z)%N with Lt
      by (symmetry; apply N.compare_lt_iff; lia).
    reflexivity.
  - replace (N_of_ascii x ?= N_of_ascii z)%N with Lt
      by (symmetry; apply N.compare_lt_iff; lia).
    reflexivity.
Qed.

Lemma key_leb_firm_date f1 d1 f2 d2 :
  key_leb [VStr f1; VDate d1] [VStr f2; VDate d2] = true
  <-> firm_date_le (f1, d1) (f2, d2).
Proof.
  unfold firm_date_le. cbn [fst snd].
  change (key_leb [VStr f1; VDate d1] [VStr f2; VDate d2])
    with (if String.leb f1 f2
          then (if String.leb f2 f1 then key_leb [VDate d1] [VDate d2] else true)
          else false).
  rewrite key_leb_date. unfold String.leb, String.ltb.
  rewrite (String.compare_antisym f2 f1).
  destruct (String.compare f1 f2) eqn:E; simpl.
  - apply String.compare_eq_iff in E. subst. rewrite Z.leb_le.
    split; [intros H; right; auto | intros [H | [_ H]]; [discriminate | exact H]].
  - split; auto.
  - split; [discriminate|]. intros [H | [H _]]; [discriminate|].
    subst. rewrite str_compare_refl in E. discriminate.
Qed.

Lemma firm_date_le_total a b : ~ firm_date_le a b -> firm_date_le b a.
Proof.
  destruct a as [f1 d1], b as [f2 d2]. unfold firm_date_le, String.ltb. cbn [fst snd].
  rewrite (String.compare_antisym f2 f1).
  destruct (String.compare f1 f2) eqn:E; simpl; intros H.
  - apply String.compare_eq_iff in E. subst. right. split; [reflexivity|].
    destruct (Z.le_gt_cases d1 d2); [exfalso; apply H; right; auto | lia].
  - exfalso. apply H. now left.
  - now left.
Qed.

Lemma firm_date_le_trans a b c :
  firm_date_le a b -> firm_date_le b c -> firm_date_le a c.
Proof.
  destruct a as [f1 d1], b as [f2 d2], c as [f3 d3].
  unfold firm_date_le, String.ltb. cbn [fst snd].
  intros [H1 | [-> H1]] [H2 | [-> H2]].
  - left. destruct (String.compare f1 f2) eqn:E1; try discriminate.
    destruct (String.compare f2 f3) eqn:E2; try discriminate.
    now rewrite (str_compare_lt_trans f1 f2 f3 E1 E2).
  - now left.
  - now left.
  - right. split; [reflexivity | lia].
Qed.

Lemma firm_date_total a b :
  is_firm_date_key a -> is_firm_date_key b ->
  key_leb a b = false -> key_leb b a = true.
Proof.
  intros [f1 [d1 ->]] [f2 [d2 ->]] H.
  apply key_leb_firm_date, firm_date_le_total.
  rewrite <- key_leb_firm_date. congruence.
Qed.

Lemma firm_date_trans a b c :
  is_firm_date_key a -> is_firm_date_key b -> is_firm_date_key c ->
  key_le a b -> key_le b c -> key_le a c.
Proof.
  intros [f1 [d1 ->]] [f2 [d2 ->]] [f3 [d3 ->]]. unfold key_le.
  rewrite !key_leb_firm_date. apply firm_date_le_trans.
Qed.

(** A sorted list of rows read through a projection of its keys. *)
Lemma sorted_map {K : Type} (P : list value -> Prop) (proj : list value -> K)
    (leK : K -> K -> Prop) (l : list (list value * list value)) :
  (forall a b, P a -> P b -> key_le a b -> leK (proj a) (proj b)) ->
  Forall (fun r => P (fst r)) l ->
  StronglySorted (fun r1 r2 => key_le (fst r1) (fst r2)) l ->
  StronglySorted leK (map (fun r => proj (fst r)) l).
Proof.
  intros Hle Hp Hs. induction Hs as [|r l Hs IH Hr]; simpl; [constructor|].
  apply Forall_cons_iff in Hp as [Hpr Hpl].
  constructor; [now apply IH|].
  rewrite Forall_forall in Hr, Hpl |- *. intros k Hk.
  apply in_map_iff in Hk as [x [<- Hx]].
  apply Hle; [assumption | now apply Hpl | now apply Hr].
Qed.

(** Sorting rows with date keys. *)
Lemma sort_dates (l : list (list value * list value)) :
  Forall (fun r => is_date_key (fst r)) l ->
  let s := fold_right insert_row [] l in
  map fst s = map (fun t => [VDate t]) (map (fun r => date_of_key (fst r)) s)
  /\ StronglySorted Z.le (map (fun r => date_of_key (fst r)) s).
Proof.
  intros Hp s.
  assert (Hps : Forall (fun r => is_date_key (fst r)) s).
  { apply (Permutation_Forall (Permutation_sym (sort_perm l))). assumption. }
  split.
  - rewrite map_map. apply map_ext_in. intros r Hr.
    rewrite Forall_forall in Hps. destruct (Hps r Hr) as [t ->]. reflexivity.
  - apply (sorted_map is_date_key); [| assumption |].
    + intros a b [x ->] [y ->]. unfold key_le. rewrite key_leb_date.
      apply Z.leb_le.
    + apply (sort_sorted is_date_key date_total date_trans). assumption.
Qed.

(** Sorting rows with (firm, date) keys. *)
Lemma sort_firm_dates (l : list (list value * list value)) :
  Forall (fun r => is_firm_date_key (fst r)) l ->
  let s := fold_right insert_row [] l in
  map fst s
  = map (fun k => [VStr (fst k); VDate (snd k)])
        (map (fun r => firm_date_of_key (fst r)) s)
  /\ StronglySorted firm_date_le (map (fun r => firm_date_of_key (fst r)) s).
Proof.
  intros Hp s.
  assert (Hps : Forall (fun r => is_firm_date_key (fst r)) s).
  { apply (Permutation_Forall (Permutation_sym (sort_perm l))). assumption. }
  split.
  - rewrite map_map. apply map_ext_in. intros r Hr.
    rewrite Forall_forall in Hps. destruct (Hps r Hr) as [f [t ->]]. reflexivity.
  - apply (sorted_map is_firm_date_key); [| assumption |].
    + intros a b [f1 [d1 ->]] [f2 [d2 ->]]. unfold key_le.
      apply key_leb_firm_date.
    + apply (sort_sorted is_firm_date_key firm_date_total firm_date_trans).
      assumption.
Qed.

End SortFacts.

(** ** The sheet reader *)

Module ReaderFacts.
Import FrameFacts.

Lemma flat_map_singletons {A B : Type} (f : A -> list B) (g : A -> B)
    (l : list A) :
  (forall k, In k l -> f k = [g k]) -> flat_map f l = map g l.
Proof.
  induction l as [|a l IH]; intros H; simpl; [reflexivity|].
  rewrite (H a (or_introl eq_refl)). simpl. f_equal.
  apply IH. intros k Hk. apply H. now right.
Qed.

Lemma cells_at_length l cols r :
  List.length r = List.length cols ->
  List.length (cells_at l cols r) = label_count l cols.
Proof.
  unfold cells_at, label_count. rewrite length_map.
  revert r. induction cols as [|c cols IH]; intros r Hlen; [reflexivity|].
  destruct r as [|v r]; [discriminate|]. simpl in *.
  rewrite (String.eqb_sym l c).
  destruct (String.eqb c l); simpl; rewrite IH by lia; reflexivity.
Qed.

Lemma cells_at_single l cols r :
  List.length r = List.length cols -> label_count l cols = 1%nat ->
  cells_at l cols r = [cell_at l cols r].
Proof.
  intros Hlen Hc. unfold cell_at.
  pose proof (cells_at_length l cols r Hlen) as H. rewrite Hc in H.
  destruct (cells_at l cols r) as [|v [|w t]]; try discriminate. reflexivity.
Qed.

Lemma expected_nodup : NoDup Config.EXPECTED_HEADERS.
Proof.
  apply (NoDup_count_occ' string_dec). intros x Hx.
  repeat (destruct Hx as [<- | Hx]; [vm_compute; reflexivity|]). destruct Hx.
Qed.

Section Reader.

Variable to_datetime : string -> value -> option Z.
Variable to_numeric : value -> float.

Lemma kept_nodup raw : NoDup (kept_labels raw).
Proof. apply NoDup_filter, expected_nodup. Qed.

Lemma kept_count raw k :
  labels_distinct raw = true -> In k (kept_labels raw) ->
  label_count k (labels raw) = 1%nat.
Proof.
  intros Hd Hk. apply filter_In in Hk as [Hexp Hmem].
  unfold labels_distinct in Hd. rewrite forallb_forall in Hd.
  specialize (Hd k Hexp). apply Nat.leb_le in Hd.
  apply mem_In, label_count_pos in Hmem. lia.
Qed.

(** [df[keep]] on the frame read under the header. *)
Lemma select_kept raw :
  labels_distinct raw = true ->
  getitem_list (kept_labels raw) (normalized_frame raw)
  = Ok (gen_frame [] (kept_labels raw) (raw_rows raw) (fun _ => [])
          (raw_cell raw)).
Proof.
  intros Hd. unfold getitem_list.
  rewrite find_none.
  2:{ intros k Hk. apply filter_In in Hk as [_ Hk]. simpl.
      unfold labels in Hk. now rewrite Hk. }
  unfold gen_frame, normalized_frame. simpl. f_equal. f_equal.
  - rewrite <- (map_id (kept_labels raw)) at 2.
    apply flat_map_singletons. intros k Hk.
    rewrite filter_eqb_repeat.
    change (map _norm (raw_columns raw)) with (labels raw).
    now rewrite (kept_count raw k Hd Hk).
  - rewrite map_map. apply map_ext. intros r. simpl. f_equal.
    apply flat_map_singletons. intros k Hk.
    apply cells_at_single; [now rewrite length_pad|].
    now apply kept_count.
Qed.

(** The coercion loop applies [to_numeric] once under every label of [cs]
    other than the date. *)
Lemma coerce_numeric_gen {X : Type} idx cols (xs : list X) key cs :
  NoDup cols -> NoDup cs -> incl cs cols ->
  forall val,
  coerce_numeric to_numeric cs (gen_frame idx cols xs key val)
  = Ok (gen_frame idx cols xs key
          (fun x k => if mem k cs && negb (String.eqb k "date")
                      then VFloat (to_numeric (val x k)) else val x k)).
Proof.
  intros Hnd. induction cs as [|c cs IH]; intros Hcs Hincl val.
  - reflexivity.
  - apply NoDup_cons_iff in Hcs as [Hc Hcs].
    assert (Hin : In c cols) by (apply Hincl; now left).
    assert (Hincl' : incl cs cols) by (intros k Hk; apply Hincl; now right).
    cbn [coerce_numeric].
    destruct (String.eqb_spec c "date") as [-> | Hne].
    + rewrite (IH Hcs Hincl'). f_equal. apply gen_frame_ext.
      intros x k _ _. unfold mem. simpl.
      destruct (String.eqb_spec k "date") as [-> | Hk]; simpl.
      * now rewrite !andb_false_r.
      * reflexivity.
    + rewrite (getitem_gen idx cols xs key val Hnd c Hin). simpl.
      rewrite map_map.
      rewrite (setitem_gen idx cols xs key val c
                 (fun x => VFloat (to_numeric (val x c))) Hin).
      rewrite (IH Hcs Hincl'). f_equal. apply gen_frame_ext.
      intros x k _ _. unfold mem. simpl.
      destruct (String.eqb_spec k c) as [-> | Hk]; simpl.
      * apply mem_false in Hc. unfold mem in Hc. rewrite Hc. simpl.
        destruct (String.eqb_spec c "date"); [contradiction | reflexivity].
      * reflexivity.
Qed.

Lemma notna_coerce fmt v :
  notna (coerce_datetime to_datetime fmt v)
  = match to_datetime fmt v with Some _ => true | None => false end.
Proof. unfold coerce_datetime. now destruct (to_datetime fmt v). Qed.

(** The frame [read_firm_sheet] returns once the header is found, when the
    labels hold ["date"] and no expected name twice. *)
Lemma read_firm_sheet_ok wb file_path sheet_name start_row max_scan_rows hdr :
  find_header_row wb file_path sheet_name start_row max_scan_rows = Ok hdr ->
  let raw := sheet_frame wb sheet_name hdr in
  In "date" (labels raw) -> labels_distinct raw = true ->
  read_firm_sheet to_datetime to_numeric wb file_path sheet_name
    start_row max_scan_rows
  = Ok {| index_names := ["date"];
          columns := data_labels raw;
          rows := fold_right insert_row []
                    (map (clean_row to_datetime to_numeric raw)
                         (filter (date_parses to_datetime raw) (raw_rows raw))) |}.
Proof.
  intros Hh raw Hdate Hd. unfold read_firm_sheet. rewrite Hh. cbn [bind].
  change (filter (fun c => mem c (columns (normalized_frame (sheet_frame wb sheet_name hdr))))
            Config.EXPECTED_HEADERS) with (kept_labels raw).
  fold raw. rewrite (select_kept raw Hd). cbn [bind].
  assert (Hk : In "date" (kept_labels raw)).
  { apply filter_In. split; [now left | now apply mem_In]. }
  pose proof (kept_nodup raw) as Hnd.
  cbn [columns gen_frame]. rewrite (proj2 (mem_In _ _) Hk). cbn [negb].
  rewrite (getitem_gen _ _ _ _ _ Hnd "date" Hk). cbn [bind pd_to_datetime].
  rewrite map_map.
  rewrite (setitem_gen _ _ _ _ _ "date"
             (fun x => coerce_datetime to_datetime Config.DATE_FORMAT
                         (raw_cell raw x "date")) Hk).
  rewrite (column_gen _ _ _ _ _ Hnd "date" Hk).
  cbn beta. rewrite String.eqb_refl.
  assert (Hmask :
    map notna (map (fun x => coerce_datetime to_datetime Config.DATE_FORMAT
                               (raw_cell raw x "date")) (raw_rows raw))
    = map (date_parses to_datetime raw) (raw_rows raw)).
  { rewrite map_map. apply map_ext. intros x. apply notna_coerce. }
  rewrite Hmask, filter_rows_gen.
  cbn [columns gen_frame].
  rewrite (coerce_numeric_gen _ _ _ _ _ Hnd Hnd (incl_refl _)). cbn [bind].
  rewrite (set_index_gen _ _ _ _ _ Hnd ["date"]).
  2:{ intros k [<- | []]. exact Hk. }
  cbn [bind]. f_equal. unfold sort_index, gen_frame. cbn [index_names columns rows].
  f_equal. f_equal. apply map_ext. intros r. unfold clean_row. f_equal.
  - cbn [map]. change ("date" =? "date") with true. cbn [negb].
    now rewrite andb_false_r.
  - apply map_ext_in. intros k Hin. unfold data_labels in Hin.
    apply filter_In in Hin as [Hin Hnk].
    rewrite (proj2 (mem_In _ _) Hin). cbn [andb].
    unfold mem in Hnk. simpl in Hnk. rewrite orb_false_r in Hnk.
    apply negb_true_iff in Hnk. rewrite Hnk. reflexivity.
Qed.

(** *** Labels carried by several columns *)

Lemma label_count_app k l1 l2 :
  label_count k (l1 ++ l2) = (label_count k l1 + label_count k l2)%nat.
Proof. unfold label_count. now rewrite filter_app, length_app. Qed.

Lemma label_count_repeat k k' n :
  label_count k (repeat k' n) = if String.eqb k k' then n else 0%nat.
Proof.
  unfold label_count. induction n as [|n IH]; simpl.
  - now destruct (String.eqb k k').
  - destruct (String.eqb k k') eqn:E; simpl; now rewrite IH.
Qed.

Lemma label_count_absent k l : ~ In k l -> label_count k l = 0%nat.
Proof.
  intros H. destruct (label_count k l) eqn:E; [reflexivity|].
  exfalso. apply H, label_count_pos. lia.
Qed.

Lemma label_count_select k cols keep :
  NoDup keep -> In k keep ->
  label_count k (flat_map (fun k' => filter (String.eqb k') cols) keep)
  = label_count k cols.
Proof.
  induction 1 as [|a keep Ha Hnd IH]; intros Hin; [destruct Hin|].
  simpl. rewrite label_count_app, filter_eqb_repeat, label_count_repeat.
  destruct (String.eqb_spec k a) as [-> | Hne].
  - rewrite (label_count_absent a (flat_map _ keep)); [lia|].
    intros H. apply in_flat_map in H as [k' [Hk' H]].
    apply filter_In in H as [_ H]. apply String.eqb_eq in H. now subst.
  - destruct Hin as [H | H]; [congruence | now rewrite IH].
Qed.

Lemma columns_setitem_same l vals df :
  In l (columns df) -> columns (setitem l vals df) = columns df.
Proof.
  intros H. unfold setitem. now rewrite (proj2 (mem_In _ _) H).
Qed.

(** The coercion loop stops with an error at a label that two columns
    carry. *)
Lemma coerce_numeric_dup cs : forall df c,
  In c cs -> c <> "date" -> (2 <= label_count c (columns df))%nat ->
  exists e, coerce_numeric to_numeric cs df = Raise e
            /\ ((exists m, e = TypeError m) \/ (exists k, e = KeyError k)).
Proof.
  induction cs as [|c0 cs IH]; intros df c Hin Hne Hc; [destruct Hin|].
  cbn [coerce_numeric].
  destruct (String.eqb_spec c0 "date") as [-> | H0].
  - destruct Hin as [H | H]; [congruence|]. now apply (IH df c).
  - unfold getitem. fold (label_count c0 (columns df)).
    destruct (label_count c0 (columns df)) as [|[|n]] eqn:E0; cbn [bind pd_to_numeric].
    + eexists. split; [reflexivity|]. right. now eexists.
    + assert (c <> c0) by (intros ->; lia).
      destruct Hin as [H' | H']; [congruence|].
      apply (IH _ c H' Hne).
      rewrite columns_setitem_same; [assumption|].
      apply label_count_pos. lia.
    + eexists. split; [reflexivity|]. left. now eexists.
Qed.

Lemma select_kept_any raw :
  getitem_list (kept_labels raw) (normalized_frame raw)
  = Ok {| index_names := [];
          columns := flat_map (fun k => filter (String.eqb k) (labels raw))
                              (kept_labels raw);
          rows := map (fun r =>
                         (fst r,
                          flat_map (fun k => cells_at k (labels raw) (snd r))
                                   (kept_labels raw)))
                      (rows (normalized_frame raw)) |}.
Proof.
  unfold getitem_list. rewrite find_none; [reflexivity|].
  intros k Hk. apply filter_In in Hk as [_ Hk]. simpl.
  unfold labels in Hk. now rewrite Hk.
Qed.

Lemma labels_not_distinct raw :
  labels_distinct raw = false ->
  exists c, In c (kept_labels raw) /\ (2 <= label_count c (labels raw))%nat.
Proof.
  unfold labels_distinct. intros H.
  assert (He : existsb (fun c => negb (label_count c (labels raw) <=? 1)%nat)
                       Config.EXPECTED_HEADERS = true).
  { revert H. induction Config.EXPECTED_HEADERS as [|a l IH]; simpl; [discriminate|].
    destruct (label_count a (labels raw) <=? 1)%nat; simpl; auto. }
  apply existsb_exists in He as [c [Hc Hn]].
  apply negb_true_iff, Nat.leb_gt in Hn.
  exists c. split; [|lia].
  apply filter_In. split; [assumption|].
  apply mem_In, label_count_pos. lia.
Qed.

(** With ["date"] among the labels and an expected name on two columns,
    [read_firm_sheet] raises, and not the missing-date error. *)
Lemma read_firm_sheet_dup wb file_path sheet_name start_row max_scan_rows hdr :
  find_header_row wb file_path sheet_name start_row max_scan_rows = Ok hdr ->
  let raw := sheet_frame wb sheet_name hdr in
  In "date" (labels raw) -> labels_distinct raw = false ->
  exists e,
    read_firm_sheet to_datetime to_numeric wb file_path sheet_name
      start_row max_scan_rows = Raise e
    /\ ((exists m, e = TypeError m) \/ (exists k, e = KeyError k)
        \/ e = ValueError "cannot assemble with duplicate keys").
Proof.
  intros Hh raw Hdate Hd. unfold read_firm_sheet. rewrite Hh. cbn [bind].
  change (filter (fun c => mem c (columns (normalized_frame (sheet_frame wb sheet_name hdr))))
            Config.EXPECTED_HEADERS) with (kept_labels raw).
  fold raw. rewrite (select_kept_any raw). cbn [bind].
  set (df1 := {| index_names := []; columns := _; rows := _ |}).
  assert (Hk : In "date" (kept_labels raw)).
  { apply filter_In. split; [now left | now apply mem_In]. }
  pose proof (kept_nodup raw) as Hnd.
  assert (Hcount : forall k, In k (kept_labels raw) ->
            label_count k (columns df1) = label_count k (labels raw)).
  { intros k Hin. now apply label_count_select. }
  assert (Hd1 : In "date" (columns df1)).
  { apply label_count_pos. rewrite (Hcount _ Hk). now apply label_count_pos. }
  rewrite (proj2 (mem_In _ _) Hd1). cbn [negb].
  unfold getitem at 1. fold (label_count "date" (columns df1)).
  apply label_count_pos in Hd1.
  destruct (label_count "date" (columns df1)) as [|[|n]] eqn:E1; [lia | |].
  - cbn [bind pd_to_datetime].
    set (df2 := setitem "date" _ df1).
    assert (Hc2 : columns df2 = columns df1).
    { apply columns_setitem_same, label_count_pos. lia. }
    destruct (labels_not_distinct raw Hd) as [c [Hc Hc2']].
    assert (Hcd : c <> "date").
    { intros ->. rewrite (Hcount _ Hk) in E1. lia. }
    set (df3 := filter_rows _ df2).
    assert (Hc3 : columns df3 = columns df1) by exact Hc2.
    destruct (coerce_numeric_dup (columns df3) df3 c) as [e [He Hkind]].
    + rewrite Hc3. apply label_count_pos. rewrite (Hcount _ Hc). lia.
    + exact Hcd.
    + rewrite Hc3, (Hcount _ Hc). exact Hc2'.
    + exists e. rewrite He. split; [reflexivity|].
      destruct Hkind as [H | H]; [left | right; left]; exact H.
  - cbn [bind pd_to_datetime]. eexists. split; [reflexivity|]. right. now right.
Qed.

(** Every outcome of [read_firm_sheet]. *)
Lemma read_firm_sheet_cases wb file_path sheet_name start_row max_scan_rows :
  let read := read_firm_sheet to_datetime to_numeric wb file_path sheet_name
                start_row max_scan_rows in
  match find_header_row wb file_path sheet_name start_row max_scan_rows with
  | Raise e => read = Raise e
  | Ok hdr =>
      let raw := sheet_frame wb sheet_name hdr in
      if mem "date" (labels raw)
      then if labels_distinct raw
           then read =
                Ok {| index_names := ["date"];
                      columns := data_labels raw;
                      rows := fold_right insert_row []
                                (map (clean_row to_datetime to_numeric raw)
                                     (filter (date_parses to_datetime raw)
                                             (raw_rows raw))) |}
           else exists e,
                  read = Raise e
                  /\ ((exists m, e = TypeError m) \/ (exists k, e = KeyError k)
                      \/ e = ValueError "cannot assemble with duplicate keys")
      else read = Raise (ValueError (no_date_msg file_path sheet_name))
  end.
Proof.
  intros read.
  destruct (find_header_row _ _ _ _ _) as [hdr | e] eqn:Hh.
  - cbv zeta. destruct (mem "date" _) eqn:Hm.
    + apply mem_In in Hm. destruct (labels_distinct _) eqn:Hd.
      * now apply (read_firm_sheet_ok _ _ _ _ _ hdr).
      * now apply (read_firm_sheet_dup _ _ _ _ _ hdr).
    + unfold read, read_firm_sheet. rewrite Hh. cbn [bind].
      set (raw := sheet_frame wb sheet_name hdr).
      change (filter (fun c => mem c (columns (normalized_frame raw)))
                Config.EXPECTED_HEADERS) with (kept_labels raw).
      rewrite (select_kept_any raw). cbn [bind columns].
      replace (mem "date" (flat_map _ (kept_labels raw))) with false; [reflexivity|].
      symmetry. apply mem_false. intros H.
      apply in_flat_map in H as [k [_ H]]. apply filter_In in H as [H _].
      apply mem_false in Hm. contradiction.
  - unfold read, read_firm_sheet. now rewrite Hh.
Qed.

End Reader.

End ReaderFacts.

(** *** What the reader returns *)

Section ReaderTheorems.

Variable to_datetime : string -> value -> option Z.
Variable to_numeric : value -> float.

Lemma read_firm_sheet_Ok_iff wb file_path sheet_name start_row max_scan_rows df :
  read_firm_sheet to_datetime to_numeric wb file_path sheet_name
    start_row max_scan_rows = Ok df
  <->
  exists hdr,
    find_header_row wb file_path sheet_name start_row max_scan_rows = Ok hdr
    /\ mem "date" (labels (sheet_frame wb sheet_name hdr)) = true
    /\ labels_distinct (sheet_frame wb sheet_name hdr) = true
    /\ df = firm_table to_datetime to_numeric (sheet_frame wb sheet_name hdr).
Proof.
  pose proof (ReaderFacts.read_firm_sheet_cases to_datetime to_numeric
                wb file_path sheet_name start_row max_scan_rows) as H.
  cbv zeta in H.
  destruct (find_header_row _ _ _ _ _) as [hdr | e].
  - destruct (mem "date" _) eqn:Hm; [destruct (labels_distinct _) eqn:Hd|].
    + rewrite H. split.
      * intros [= <-]. exists hdr. repeat split; assumption.
      * intros [h [[= <-] [_ [_ ->]]]]. reflexivity.
    + destruct H as [e [-> _]]. split; [discriminate|].
      intros [h [[= <-] [_ [Hd' _]]]]. congruence.
    + rewrite H. split; [discriminate|].
      intros [h [[= <-] [Hm' _]]]. congruence.
  - rewrite H. split; [discriminate|]. intros [h [Hh _]]. discriminate.
Qed.

Lemma kept_labels_date raw :
  mem "date" (labels raw) = true ->
  kept_labels raw = "date" :: data_labels raw.
Proof.
  intros H. unfold data_labels, kept_labels. cbn [Config.EXPECTED_HEADERS filter].
  rewrite H. cbn [filter]. change (mem "date" ["date"]) with true. cbn [negb].
  f_equal. symmetry. 
  repeat match goal with
  | |- context [mem ?c (labels raw)] =>
      lazymatch c with
      | "date" => fail
      | _ => destruct (mem c (labels raw))
      end
  end; reflexivity.
Qed.


Lemma filter_negb_length {A : Type} (f : A -> bool) (l : list A) :
  (List.length (filter f l) + List.length (filter (fun x => negb (f x)) l)
   = List.length l)%nat.
Proof.
  induction l as [|a l IH]; simpl; [reflexivity|].
  destruct (f a); simpl; lia.
Qed.

(** C2: once the header is found and the labels hold ["date"] and no
    expected name twice, [read_firm_sheet] returns, whatever the data cells
    are, and it returns in no other case.  Its rows are the data rows whose
    date cell parses under the fixed format, each kept once: with the rows
    whose date fails to parse they make up all the data rows.  In a kept
    row every other cell is what [to_numeric] makes of it, NaN when it does
    not parse, so no row is lost to such a cell. *)
Theorem read_firm_sheet_rows :
  forall wb file_path sheet_name start_row max_scan_rows,
  (forall hdr,
     find_header_row wb file_path sheet_name start_row max_scan_rows = Ok hdr ->
     let raw := sheet_frame wb sheet_name hdr in
     mem "date" (labels raw) = true ->
     labels_distinct raw = true ->
     exists df,
       read_firm_sheet to_datetime to_numeric wb file_path sheet_name
         start_row max_scan_rows = Ok df
       /\ Permutation (rows df)
            (map (clean_row to_datetime to_numeric raw)
                 (filter (date_parses to_datetime raw) (raw_rows raw)))
       /\ (List.length (rows df)
           + List.length (filter (fun r => negb (date_parses to_datetime raw r))
                                 (raw_rows raw))
           = List.length (raw_rows raw))%nat
       /\ (forall r, In r (raw_rows raw) ->
             date_parses to_datetime raw r = true ->
             exists row, In row (rows df)
               /\ fst row = [coerce_datetime to_datetime Config.DATE_FORMAT
                               (raw_cell raw r "date")]
               /\ forall c, In c (columns df) ->
                    cell_at c (columns df) (snd row)
                    = VFloat (to_numeric (raw_cell raw r c))))
  /\ (forall df,
        read_firm_sheet to_datetime to_numeric wb file_path sheet_name
          start_row max_scan_rows = Ok df ->
        exists hdr,
          find_header_row wb file_path sheet_name start_row max_scan_rows
          = Ok hdr
          /\ mem "date" (labels (sheet_frame wb sheet_name hdr)) = true
          /\ labels_distinct (sheet_frame wb sheet_name hdr) = true).
Proof.
  intros wb file_path sheet_name start_row max_scan_rows. split.
  2:{ intros df H. apply read_firm_sheet_Ok_iff in H as [hdr [H1 [H2 [H3 _]]]].
      now exists hdr. }
  intros hdr Hh raw Hm Hd.
  exists (firm_table to_datetime to_numeric raw).
  split; [|split; [|split]].
  - apply read_firm_sheet_Ok_iff. exists hdr. repeat split; assumption.
  - apply SortFacts.sort_perm.
  - cbn [rows firm_table]. rewrite SortFacts.sort_length, length_map.
    apply filter_negb_length.
  - intros r Hr Hp. exists (clean_row to_datetime to_numeric raw r).
    split; [|split].
    + cbn [rows firm_table].
      apply (Permutation_in _ (Permutation_sym (SortFacts.sort_perm _))).
      apply in_map, filter_In. now split.
    + reflexivity.
    + intros c Hc. cbn [columns firm_table] in Hc |- *.
      unfold clean_row. cbn [snd].
      apply (FrameFacts.cell_at_gen
               (fun c => VFloat (to_numeric (raw_cell raw r c)))); [|assumption].
      apply NoDup_filter, ReaderFacts.kept_nodup.
Qed.

End ReaderTheorems.

Lemma read_firm_sheet_rows_witness :
  find_header_row Demo.wb "banks.xlsx" "FirmB" 2000 3000 = Ok 2000%nat
  /\ mem "date" (labels (sheet_frame Demo.wb "FirmB" 2000)) = true
  /\ labels_distinct (sheet_frame Demo.wb "FirmB" 2000) = true
  /\ exists df,
       Sample.read_firm_sheet Demo.wb "banks.xlsx" "FirmB" 2000 3000 = Ok df
       /\ (List.length (rows df) + 1 = 3)%nat.
Proof.
  split; [vm_compute; reflexivity|].
  split; [vm_compute; reflexivity|].
  split; [vm_compute; reflexivity|].
  destruct (proj1 (read_firm_sheet_rows Sample.to_datetime Sample.to_numeric
                     Demo.wb "banks.xlsx" "FirmB" 2000 3000) 2000%nat)
    as [df [Hdf [_ [Hlen _]]]]; try (vm_compute; reflexivity).
  exists df. split; [exact Hdf | exact Hlen].
Defined.

(** ** The panel builder *)

Module PanelFacts.
Import FrameFacts.

(** A rectangular frame with distinct labels is generated by its rows. *)
Lemma frame_as_gen df :
  NoDup (columns df) ->
  Forall (fun r => List.length (snd r) = List.length (columns df)) (rows df) ->
  df = gen_frame (index_names df) (columns df) (rows df) fst
         (fun r c => cell_at c (columns df) (snd r)).
Proof.
  intros Hnd Hrect. destruct df as [idx cols rs]. unfold gen_frame.
  cbn [index_names columns rows] in *. f_equal.
  rewrite <- (map_id rs) at 1. apply map_ext_in. intros r Hr.
  rewrite Forall_forall in Hrect. specialize (Hrect r Hr).
  destruct r as [k v]. cbn [fst snd] in *. f_equal.
  now apply row_as_gen.
Qed.

Lemma setitem_scalar_gen_new {X : Type} idx cols (xs : list X) key val l v :
  ~ In l cols ->
  setitem_scalar l v (gen_frame idx cols xs key val)
  = gen_frame idx (cols ++ [l]) xs key
      (fun x k => if String.eqb k l then v else val x k).
Proof.
  intros Hl. unfold setitem_scalar. cbn [rows gen_frame].
  rewrite map_map. now apply (setitem_gen_new idx cols xs key val l (fun _ => v)).
Qed.

Lemma expected_no_tags c :
  In c Config.EXPECTED_HEADERS -> c <> "firm" /\ c <> "sector".
Proof.
  intros H. repeat (destruct H as [<- | H]; [split; discriminate|]). destruct H.
Qed.

Lemma table_no_tags t :
  table_ok t ->
  ~ In "date" (columns t) /\ ~ In "firm" (columns t)
  /\ ~ In "sector" (columns t).
Proof.
  intros [_ [_ [Hexp _]]]. repeat split; intros H; apply Hexp in H as [H Hd];
    [congruence | now apply expected_no_tags in H as [H _]
     | now apply expected_no_tags in H as [_ H]].
Qed.

Lemma in_flat_columns t x :
  In x (flat_columns t)
  <-> x = "date" \/ In x (columns t) \/ x = "firm" \/ x = "sector".
Proof.
  unfold flat_columns. rewrite !in_app_iff. cbn [In].
  split; intros H; intuition auto.
Qed.

Lemma flat_columns_nodup t : table_ok t -> NoDup (flat_columns t).
Proof.
  intros Hok. destruct (table_no_tags t Hok) as [Hd [Hf Hs]].
  destruct Hok as [_ [Hnd _]]. unfold flat_columns.
  apply NoDup_app; [repeat constructor; auto | |].
  - apply NoDup_app; [| repeat constructor; auto |].
    + apply NoDup_app; [assumption | repeat constructor; auto |].
      intros x Hx [<- | []]. contradiction.
    + intros x Hx [<- | []]. apply in_app_iff in Hx as [Hx | [Hx | []]];
        [contradiction | discriminate].
  - intros x [<- | []]. rewrite !in_app_iff. cbn [In].
    intros [[H | [H | []]] | [H | []]];
      [contradiction | discriminate | discriminate].
Qed.

(** The two tags and [reset_index] on a firm table. *)
Lemma flat_frame_ok firm sector_label t :
  table_ok t ->
  reset_index (setitem_scalar "sector" (VStr sector_label)
                 (setitem_scalar "firm" (VStr firm) t))
  = Ok (flat_frame firm sector_label t).
Proof.
  intros Hok. destruct (table_no_tags t Hok) as [Hd [Hf Hs]].
  destruct Hok as [Hidx [Hnd [Hexp Hrows]]].
  rewrite (frame_as_gen t Hnd) at 1.
  2:{ eapply Forall_impl; [|exact Hrows]. now intros r [_ H]. }
  rewrite Hidx.
  rewrite setitem_scalar_gen_new by assumption.
  rewrite setitem_scalar_gen_new.
  2:{ rewrite in_app_iff. intros [H | [H | []]]; [contradiction | discriminate]. }
  rewrite (reset_index_gen _ _ _ _ _ (fun r _ => hd NaN (fst r))).
  - f_equal.
  - intros n [<- | []]. rewrite !in_app_iff. cbn [In].
    intros [[H | [H | []]] | [H | []]];
      [contradiction | discriminate | discriminate].
  - intros r Hr. rewrite Forall_forall in Hrows.
    destruct (Hrows r Hr) as [[d Hk] _]. now rewrite Hk.
Qed.

Lemma dedup_In l x : In x (dedup l) <-> In x l.
Proof.
  induction l as [|a l IH]; simpl; [tauto|].
  rewrite filter_In, IH, negb_true_iff, String.eqb_neq.
  destruct (string_dec a x) as [-> | Hne]; [tauto|].
  split; [intros [H | [H _]]; auto | intros [H | H]; [auto | right; split; congruence]].
Qed.

Lemma dedup_NoDup l : NoDup (dedup l).
Proof.
  induction l as [|a l IH]; simpl; constructor.
  - rewrite filter_In, negb_true_iff, String.eqb_neq. tauto.
  - now apply NoDup_filter.
Qed.

Section Panel.

Variable to_datetime : string -> value -> option Z.
Variable to_numeric : value -> float.

Lemma firm_table_ok raw : table_ok (firm_table to_datetime to_numeric raw).
Proof.
  unfold table_ok, firm_table. cbn [index_names columns rows].
  split; [reflexivity|]. split; [|split].
  - apply NoDup_filter, ReaderFacts.kept_nodup.
  - intros c Hc. unfold data_labels, kept_labels in Hc.
    apply filter_In in Hc as [Hc Hn]. apply filter_In in Hc as [Hc _].
    split; [assumption|]. intros ->. discriminate.
  - apply (Permutation_Forall (Permutation_sym (SortFacts.sort_perm _))).
    apply Forall_forall. intros r Hr. apply in_map_iff in Hr as [x [<- Hx]].
    apply filter_In in Hx as [_ Hx]. unfold date_parses in Hx.
    unfold clean_row, coerce_datetime. cbn [fst snd]. split.
    + destruct (to_datetime _ _) as [d|]; [now exists d | discriminate].
    + apply length_map.
Qed.

Lemma read_ok_table_ok wb file_path sheet_name start_row max_scan_rows t :
  read_firm_sheet to_datetime to_numeric wb file_path sheet_name
    start_row max_scan_rows = Ok t ->
  table_ok t.
Proof.
  intros H. apply read_firm_sheet_Ok_iff in H as [hdr [_ [_ [_ ->]]]].
  apply firm_table_ok.
Qed.

Variables (wb : Workbook) (xlsx_path sector_label : string).

(** The loop over sheets that all read well. *)
Lemma collect_frames_ok (table : string -> DataFrame) firms : forall acc,
  (forall firm, In firm firms ->
     read_with_config to_datetime to_numeric wb xlsx_path firm
     = Ok (table firm)) ->
  collect_frames to_datetime to_numeric wb xlsx_path sector_label firms acc
  = Ok (acc ++ map (fun firm => flat_frame firm sector_label (table firm)) firms)%list.
Proof.
  induction firms as [|firm firms IH]; intros acc Hr; cbn [collect_frames map].
  - now rewrite app_nil_r.
  - pose proof (Hr firm (or_introl eq_refl)) as Hf. unfold read_with_config in Hf.
    rewrite Hf. cbn [bind].
    rewrite (flat_frame_ok firm sector_label (table firm))
      by (eapply read_ok_table_ok; exact Hf).
    cbn [bind]. rewrite IH by (intros f Hin; apply Hr; now right).
    now rewrite <- app_assoc.
Qed.

(** The loop stops at the first sheet that fails to read, with its
    error. *)
Lemma collect_frames_fail before firm after e : forall acc,
  (forall f, In f before ->
     exists t, read_with_config to_datetime to_numeric wb xlsx_path f = Ok t) ->
  read_with_config to_datetime to_numeric wb xlsx_path firm = Raise e ->
  collect_frames to_datetime to_numeric wb xlsx_path sector_label
    (before ++ firm :: after) acc = Raise e.
Proof.
  induction before as [|f before IH]; intros acc Hb He; cbn [collect_frames app].
  - unfold read_with_config in He. now rewrite He.
  - destruct (Hb f (or_introl eq_refl)) as [t Ht]. unfold read_with_config in Ht.
    rewrite Ht. cbn [bind].
    rewrite (flat_frame_ok f sector_label t)
      by (eapply read_ok_table_ok; exact Ht).
    cbn [bind]. apply IH; [|assumption]. intros f' Hin. apply Hb. now right.
Qed.

Lemma map_flat_map {A B C : Type} (g : B -> C) (h : A -> list B) (l : list A) :
  map g (flat_map h l) = flat_map (fun x => map g (h x)) l.
Proof.
  induction l as [|a l IH]; simpl; [reflexivity|]. now rewrite map_app, IH.
Qed.

Lemma flat_map_ext_in {A B : Type} (f g : A -> list B) (l : list A) :
  (forall x, In x l -> f x = g x) -> flat_map f l = flat_map g l.
Proof.
  induction l as [|a l IH]; intros H; simpl; [reflexivity|].
  rewrite (H a (or_introl eq_refl)), IH; [reflexivity|].
  intros x Hx. apply H. now right.
Qed.

(** The rows of the concatenation. *)
Lemma concat_rows (table : string -> DataFrame) cols firms :
  (forall firm, In firm firms -> table_ok (table firm)) ->
  flat_map
    (fun f => map (fun r => ([], map (fun c => cell_at c (columns f) (snd r)) cols))
                  (rows f))
    (map (fun firm => flat_frame firm sector_label (table firm)) firms)
  = map (fun x => (@nil value, map (concat_value sector_label table x) cols))
        (tagged_rows table firms).
Proof.
  induction firms as [|firm firms IH]; intros Hok; [reflexivity|].
  cbn [map flat_map]. unfold tagged_rows. cbn [flat_map].
  rewrite map_app. f_equal.
  - unfold flat_frame. cbn [rows columns gen_frame]. rewrite !map_map.
    apply map_ext. intros r. cbn [snd fst].
    f_equal. apply map_ext. intros c. unfold concat_value. cbn [fst snd].
    destruct (mem c (flat_columns (table firm))) eqn:E.
    + apply cell_at_gen; [|now apply mem_In].
      apply flat_columns_nodup, Hok. now left.
    + apply cell_at_absent. now apply mem_false.
  - apply IH. intros f Hf. apply Hok. now right.
Qed.

Lemma concat_flat (table : string -> DataFrame) firms :
  firms <> [] ->
  (forall firm, In firm firms -> table_ok (table firm)) ->
  pd_concat (map (fun firm => flat_frame firm sector_label (table firm)) firms)
  = Ok (gen_frame [] (dedup (flat_map flat_columns (map table firms)))
          (tagged_rows table firms) (fun _ => [])
          (concat_value sector_label table)).
Proof.
  intros Hne Hok.
  assert (Hcols :
    flat_map columns (map (fun firm => flat_frame firm sector_label (table firm)) firms)
    = flat_map flat_columns (map table firms)).
  { clear. induction firms as [|f l IH]; [reflexivity|].
    cbn [map flat_map]. now rewrite IH. }
  pose proof (concat_rows table
                (dedup (flat_map flat_columns (map table firms))) firms Hok) as Hrows.
  destruct firms as [|firm firms]; [congruence|].
  unfold pd_concat. cbn [map] in *. rewrite Hcols, Hrows. reflexivity.
Qed.

(** The row of the panel made from a row of a firm table. *)
Lemma panel_row_of (table : string -> DataFrame) firms firm r :
  table_ok (table firm) -> In r (rows (table firm)) ->
  let pcols := panel_columns (map table firms) in
  (map (concat_value sector_label table (firm, r)) ["firm"; "date"],
   map (concat_value sector_label table (firm, r)) pcols)
  = panel_row firm sector_label (table firm) pcols r.
Proof.
  intros Hok Hr pcols. destruct (table_no_tags _ Hok) as [Hd [Hf Hs]].
  unfold panel_row. f_equal.
  - destruct Hok as [_ [_ [_ Hrows]]]. rewrite Forall_forall in Hrows.
    destruct (Hrows r Hr) as [[d Hk] _]. rewrite Hk.
    cbn [map]. unfold concat_value. cbn [fst snd].
    rewrite !(proj2 (mem_In _ _)) by (apply in_flat_columns; cbn [In]; auto).
    unfold tagged_value. rewrite Hk. reflexivity.
  - apply map_ext_in. intros c Hc. unfold pcols, panel_columns in Hc.
    apply filter_In in Hc as [_ Hc]. apply negb_true_iff, mem_false in Hc.
    assert (Hcf : c <> "firm") by (intros ->; apply Hc; now left).
    assert (Hcd : c <> "date") by (intros ->; apply Hc; right; now left).
    unfold concat_value, panel_value, tagged_value. cbn [fst snd].
    replace (mem c ["date"]) with false
      by (symmetry; apply mem_false; intros [H | []]; congruence).
    destruct (String.eqb_spec c "sector") as [-> | Hcs].
    + rewrite (proj2 (mem_In _ _)); [reflexivity|].
      apply in_flat_columns. auto.
    + destruct (String.eqb_spec c "firm") as [-> | _]; [congruence|].
      destruct (mem c (columns (table firm))) eqn:Em.
      * rewrite (proj2 (mem_In _ _)); [reflexivity|].
        apply in_flat_columns. apply mem_In in Em. auto.
      * replace (mem c (flat_columns (table firm))) with false; [reflexivity|].
        symmetry. apply mem_false. rewrite in_flat_columns.
        apply mem_false in Em. intuition congruence.
Qed.

(** The panel of a workbook whose firm sheets all read well. *)
Lemma build_panel_ok (table : string -> DataFrame) :
  list_firm_sheets wb <> [] ->
  (forall firm, In firm (list_firm_sheets wb) ->
     read_with_config to_datetime to_numeric wb xlsx_path firm
     = Ok (table firm)) ->
  build_panel to_datetime to_numeric wb xlsx_path sector_label
  = Ok (panel_of sector_label table (list_firm_sheets wb)).
Proof.
  intros Hne Hread. unfold build_panel.
  set (firms := list_firm_sheets wb) in *.
  assert (Hok : forall firm, In firm firms -> table_ok (table firm)).
  { intros firm Hin. eapply read_ok_table_ok. apply (Hread firm Hin). }
  rewrite (collect_frames_ok table firms [] Hread). cbn [bind app].
  rewrite (concat_flat table firms Hne Hok). cbn [bind].
  rewrite set_index_gen.
  - cbn [bind]. unfold sort_index, panel_of, gen_frame.
    cbn [index_names columns rows]. f_equal. f_equal. f_equal.
    unfold tagged_rows. rewrite map_flat_map.
    apply flat_map_ext_in. intros firm Hin. rewrite map_map.
    apply map_ext_in. intros r Hr.
    apply (panel_row_of table firms firm r (Hok firm Hin) Hr).
  - apply dedup_NoDup.
  - destruct firms as [|firm firms']; [congruence|].
    intros k Hk. apply dedup_In. cbn [map flat_map]. apply in_or_app. left.
    apply in_flat_columns. destruct Hk as [<- | [<- | []]]; auto.
Qed.

End Panel.

End PanelFacts.

(** The first sheet that fails to read. *)
Lemma first_failure {A : Type} (f : string -> result A) firms firm e :
  In firm firms -> f firm = Raise e ->
  exists before firm' after e',
    firms = (before ++ firm' :: after)%list
    /\ (forall x, In x before -> exists t, f x = Ok t)
    /\ f firm' = Raise e'.
Proof.
  induction firms as [|a firms IH]; intros Hin He; [destruct Hin|].
  destruct (f a) as [t | e0] eqn:Ea.
  - destruct Hin as [-> | Hin]; [congruence|].
    destruct (IH Hin He) as [before [firm' [after [e' [-> [Hb Hf]]]]]].
    exists (a :: before), firm', after, e'. split; [reflexivity|].
    split; [|assumption]. intros x [<- | Hx]; [now exists t | now apply Hb].
  - exists [], a, firms, e0. split; [reflexivity|]. split; [|assumption].
    intros x [].
Qed.


(** *** Failures of the build *)

Section PanelFailures.

Variable to_datetime : string -> value -> option Z.
Variable to_numeric : value -> float.

(** C4: when reading one of the firm sheets raises, be it the missing
    header or the missing date column, [build_panel] raises and returns no
    panel; what it raises is the error of the first sheet, in workbook
    order, that fails to read. *)
Theorem build_panel_fail_fast :
  forall wb xlsx_path sector_label firm e,
  In firm (list_firm_sheets wb) ->
  read_firm_sheet to_datetime to_numeric wb xlsx_path firm
    Config.HEADER_SCAN_START_ROW Config.HEADER_SCAN_MAX_ROWS = Raise e ->
  exists before firm' after e',
    list_firm_sheets wb = (before ++ firm' :: after)%list
    /\ (forall f, In f before ->
          exists t, read_firm_sheet to_datetime to_numeric wb xlsx_path f
                      Config.HEADER_SCAN_START_ROW Config.HEADER_SCAN_MAX_ROWS
                    = Ok t)
    /\ read_firm_sheet to_datetime to_numeric wb xlsx_path firm'
         Config.HEADER_SCAN_START_ROW Config.HEADER_SCAN_MAX_ROWS = Raise e'
    /\ build_panel to_datetime to_numeric wb xlsx_path sector_label = Raise e'.
Proof.
  intros wb xlsx_path sector_label firm e Hin He.
  destruct (first_failure
              (fun f => read_firm_sheet to_datetime to_numeric wb xlsx_path f
                          Config.HEADER_SCAN_START_ROW Config.HEADER_SCAN_MAX_ROWS)
              _ firm e Hin He)
    as [before [firm' [after [e' [Hsplit [Hb Hf]]]]]].
  exists before, firm', after, e'. repeat split; try assumption.
  unfold build_panel. rewrite Hsplit.
  now rewrite (PanelFacts.collect_frames_fail to_datetime to_numeric
                 wb xlsx_path sector_label before firm' after e' [] Hb Hf).
Qed.

(** C10: in a workbook whose every sheet is the one to skip there is no
    firm sheet, and [build_panel] returns no empty panel: it raises, the
    concatenation of no frame being an error. *)
Theorem build_panel_no_firm_sheet :
  forall wb xlsx_path sector_label,
  (forall s, In s (sheet_names wb) -> s = Config.WORKSHEET_NAME) ->
  list_firm_sheets wb = []
  /\ build_panel to_datetime to_numeric wb xlsx_path sector_label
     = Raise (ValueError "No objects to concatenate").
Proof.
  intros wb xlsx_path sector_label Hall.
  assert (Hnil : list_firm_sheets wb = []).
  { unfold list_firm_sheets.
    induction (sheet_names wb) as [|s l IH]; [reflexivity|]. cbn [filter].
    rewrite (Hall s (or_introl eq_refl)), String.eqb_refl. cbn [negb].
    apply IH. intros x Hx. apply Hall. now right. }
  split; [assumption|]. unfold build_panel. now rewrite Hnil.
Qed.

End PanelFailures.

Lemma build_panel_fail_fast_witness :
  In "FirmC" (list_firm_sheets Demo.wb_broken)
  /\ Sample.read_firm_sheet Demo.wb_broken "banks.xlsx" "FirmC"
       Config.HEADER_SCAN_START_ROW Config.HEADER_SCAN_MAX_ROWS
     = Raise (ValueError
         "Header row not found in 'FirmC' of 'banks.xlsx' (scanned rows 2000..4999).")
  /\ exists e', Sample.build_panel Demo.wb_broken "banks.xlsx" "banks" = Raise e'.
Proof.
  split; [vm_compute; auto|]. split; [vm_compute; reflexivity|].
  destruct (build_panel_fail_fast Sample.to_datetime Sample.to_numeric
              Demo.wb_broken "banks.xlsx" "banks" "FirmC"
              (ValueError
                 "Header row not found in 'FirmC' of 'banks.xlsx' (scanned rows 2000..4999)."))
    as [before [firm' [after [e' [_ [_ [_ Hb]]]]]]].
  - vm_compute. auto.
  - vm_compute. reflexivity.
  - exists e'. exact Hb.
Defined.

Lemma build_panel_no_firm_sheet_witness :
  (forall s, In s (sheet_names Demo.wb_meta_only) -> s = Config.WORKSHEET_NAME)
  /\ Sample.build_panel Demo.wb_meta_only "banks.xlsx" "banks"
     = Raise (ValueError "No objects to concatenate").
Proof.
  assert (H : forall s, In s (sheet_names Demo.wb_meta_only) ->
                        s = Config.WORKSHEET_NAME).
  { intros s Hs. simpl in Hs. destruct Hs as [<- | []]. reflexivity. }
  split; [exact H|].
  exact (proj2 (build_panel_no_firm_sheet Sample.to_datetime Sample.to_numeric
                  Demo.wb_meta_only "banks.xlsx" "banks" H)).
Defined.

(** *** The panel of a workbook that reads well *)

Section PanelRows.

Variable to_datetime : string -> value -> option Z.
Variable to_numeric : value -> float.

(** A panel is returned only when there is a firm sheet and every firm
    sheet reads. *)
Lemma build_panel_Ok_reads wb xlsx_path sector_label panel :
  build_panel to_datetime to_numeric wb xlsx_path sector_label = Ok panel ->
  list_firm_sheets wb <> []
  /\ forall firm, In firm (list_firm_sheets wb) ->
       exists t, read_firm_sheet to_datetime to_numeric wb xlsx_path firm
                   Config.HEADER_SCAN_START_ROW Config.HEADER_SCAN_MAX_ROWS
                 = Ok t.
Proof.
  intros H. split.
  - intros Hnil. unfold build_panel in H. rewrite Hnil in H. discriminate.
  - intros firm Hin.
    destruct (read_firm_sheet to_datetime to_numeric wb xlsx_path firm _ _)
      as [t | e] eqn:E; [now exists t|]. exfalso.
    destruct (first_failure
                (fun f => read_firm_sheet to_datetime to_numeric wb xlsx_path f
                            Config.HEADER_SCAN_START_ROW Config.HEADER_SCAN_MAX_ROWS)
                _ firm e Hin E)
      as [before [firm' [after [e' [Hsplit [Hb Hf]]]]]].
    unfold build_panel in H. rewrite Hsplit in H.
    rewrite (PanelFacts.collect_frames_fail to_datetime to_numeric
               wb xlsx_path sector_label before firm' after e' [] Hb Hf) in H.
    discriminate.
Qed.

(** C5: when the workbook has a firm sheet and every firm sheet reads, and
    only then, [build_panel] returns a panel.  It is indexed by
    (firm, date) and its rows are the rows of all the firm tables, each
    once: the row count is the sum of the table row counts; every row has
    the name of its sheet as firm, the sector label given by the caller as
    sector, and its own values under its own columns; the rows are sorted
    by firm, then date. *)
Theorem build_panel_rows :
  forall wb xlsx_path sector_label,
  (forall panel,
     build_panel to_datetime to_numeric wb xlsx_path sector_label = Ok panel ->
     list_firm_sheets wb <> []
     /\ forall firm, In firm (list_firm_sheets wb) ->
          exists t, read_firm_sheet to_datetime to_numeric wb xlsx_path firm
                      Config.HEADER_SCAN_START_ROW Config.HEADER_SCAN_MAX_ROWS
                    = Ok t)
  /\ forall table : string -> DataFrame,
  list_firm_sheets wb <> [] ->
  (forall firm, In firm (list_firm_sheets wb) ->
     read_firm_sheet to_datetime to_numeric wb xlsx_path firm
       Config.HEADER_SCAN_START_ROW Config.HEADER_SCAN_MAX_ROWS
     = Ok (table firm)) ->
  exists panel,
    build_panel to_datetime to_numeric wb xlsx_path sector_label = Ok panel
    /\ index_names panel = ["firm"; "date"]
    /\ Permutation (rows panel)
         (flat_map (fun firm =>
                      map (panel_row firm sector_label (table firm) (columns panel))
                          (rows (table firm)))
                   (list_firm_sheets wb))
    /\ List.length (rows panel)
       = list_sum (map (fun firm => List.length (rows (table firm)))
                       (list_firm_sheets wb))
    /\ (forall row, In row (rows panel) ->
          cell_at "sector" (columns panel) (snd row) = VStr sector_label
          /\ exists firm d,
               In firm (list_firm_sheets wb) /\ fst row = [VStr firm; VDate d])
    /\ (forall firm r c,
          In firm (list_firm_sheets wb) -> In r (rows (table firm)) ->
          In c (columns (table firm)) ->
          In c (columns panel)
          /\ cell_at c (columns panel)
               (snd (panel_row firm sector_label (table firm) (columns panel) r))
             = cell_at c (columns (table firm)) (snd r))
    /\ exists ks : list (string * Z),
         map fst (rows panel) = map (fun k => [VStr (fst k); VDate (snd k)]) ks
         /\ StronglySorted firm_date_le ks.
Proof.
  intros wb xlsx_path sector_label.
  split; [intros panel; apply build_panel_Ok_reads|].
  intros table Hne Hread.
  set (firms := list_firm_sheets wb) in *.
  exists (panel_of sector_label table firms).
  assert (Hok : forall firm, In firm firms -> table_ok (table firm)).
  { intros firm Hin. eapply PanelFacts.read_ok_table_ok. apply (Hread firm Hin). }
  set (pcols := panel_columns (map table firms)).
  assert (Hnd : NoDup pcols).
  { apply NoDup_filter, PanelFacts.dedup_NoDup. }
  assert (Hin_p : forall firm c, In firm firms ->
            In c (flat_columns (table firm)) -> c <> "firm" -> c <> "date" ->
            In c pcols).
  { intros firm c Hf Hc H1 H2. apply filter_In. split.
    - apply PanelFacts.dedup_In, in_flat_map. exists (table firm).
      split; [now apply in_map | assumption].
    - apply negb_true_iff, mem_false. intros [H | [H | []]]; congruence. }
  set (all_rows := flat_map (fun firm =>
                     map (panel_row firm sector_label (table firm) pcols)
                         (rows (table firm))) firms).
  assert (Hperm : Permutation (rows (panel_of sector_label table firms)) all_rows)
    by apply SortFacts.sort_perm.
  assert (Hrow : forall row, In row all_rows ->
            exists firm r, In firm firms /\ In r (rows (table firm))
              /\ row = panel_row firm sector_label (table firm) pcols r).
  { intros row Hr. apply in_flat_map in Hr as [firm [Hf Hr]].
    apply in_map_iff in Hr as [r [<- Hr]]. now exists firm, r. }
  assert (Hkey : forall row, In row all_rows ->
            exists firm d, In firm firms /\ fst row = [VStr firm; VDate d]).
  { intros row Hr. destruct (Hrow row Hr) as [firm [r [Hf [Hr' ->]]]].
    destruct (Hok firm Hf) as [_ [_ [_ Hrows]]]. rewrite Forall_forall in Hrows.
    destruct (Hrows r Hr') as [[d Hd] _].
    exists firm, d. split; [assumption|]. cbn [fst panel_row]. now rewrite Hd. }
  repeat split.
  - now apply PanelFacts.build_panel_ok.
  - exact Hperm.
  - rewrite (Permutation_length Hperm). unfold all_rows.
    rewrite length_flat_map. f_equal. apply map_ext. intros firm.
    apply length_map.
  - apply (Permutation_in _ Hperm) in H.
    destruct (Hrow row H) as [firm [r [Hf [Hr' ->]]]].
    cbn [columns panel_of snd panel_row]. fold firms. fold pcols.
    rewrite (FrameFacts.cell_at_gen (panel_value sector_label (table firm) r)
               "sector" pcols Hnd).
    + reflexivity.
    + apply (Hin_p firm); [assumption | | discriminate | discriminate].
      apply PanelFacts.in_flat_columns. auto.
  - apply (Permutation_in _ Hperm) in H. now apply Hkey.
  - destruct (PanelFacts.table_no_tags _ (Hok firm H)) as [Hd [Hf Hs]].
    apply (Hin_p firm); [assumption | | congruence | congruence].
    apply PanelFacts.in_flat_columns. auto.
  - destruct (PanelFacts.table_no_tags _ (Hok firm H)) as [Hd [Hf Hs]].
    cbn [columns panel_of snd panel_row]. fold firms. fold pcols.
    rewrite (FrameFacts.cell_at_gen (panel_value sector_label (table firm) r)
               c pcols Hnd).
    + unfold panel_value.
      destruct (String.eqb_spec c "sector") as [-> | _]; [contradiction|].
      now rewrite (proj2 (mem_In _ _) H1).
    + apply (Hin_p firm); [assumption | | congruence | congruence].
      apply PanelFacts.in_flat_columns. auto.
  - eexists. apply SortFacts.sort_firm_dates.
    apply Forall_forall. intros row Hr.
    destruct (Hkey row Hr) as [firm [d [_ Hk]]]. now exists firm, d.
Qed.

End PanelRows.

Lemma build_panel_rows_witness :
  list_firm_sheets Demo.wb <> []
  /\ (forall firm, In firm (list_firm_sheets Demo.wb) ->
        Sample.read_firm_sheet Demo.wb "banks.xlsx" firm
          Config.HEADER_SCAN_START_ROW Config.HEADER_SCAN_MAX_ROWS
        = Ok (Demo.table firm))
  /\ exists panel,
       Sample.build_panel Demo.wb "banks.xlsx" "banks" = Ok panel
       /\ List.length (rows panel)
          = list_sum (map (fun firm => List.length (rows (Demo.table firm)))
                          (list_firm_sheets Demo.wb)).
Proof.
  assert (H1 : list_firm_sheets Demo.wb <> []) by (vm_compute; discriminate).
  assert (H2 : forall firm, In firm (list_firm_sheets Demo.wb) ->
                 Sample.read_firm_sheet Demo.wb "banks.xlsx" firm
                   Config.HEADER_SCAN_START_ROW Config.HEADER_SCAN_MAX_ROWS
                 = Ok (Demo.table firm)).
  { intros firm Hin. vm_compute in Hin.
    destruct Hin as [<- | [<- | []]]; vm_compute; reflexivity. }
  split; [exact H1|]. split; [exact H2|].
  destruct (proj2 (build_panel_rows Sample.to_datetime Sample.to_numeric
                     Demo.wb "banks.xlsx" "banks") Demo.table H1 H2)
    as [panel [Hb [_ [_ [Hlen _]]]]].
  exists panel. split; [exact Hb | exact Hlen].
Defined.

(** ** The group-wise standardiser *)

Module ZFacts.
Import FrameFacts.

Lemma str_length_app a b :
  String.length (a ++ b) = (String.length a + String.length b)%nat.
Proof. induction a as [|c a IH]; simpl; [reflexivity | now rewrite IH]. Qed.

Lemma str_app_inv_tail a : forall b s, a ++ s = b ++ s -> a = b.
Proof.
  induction a as [|c a IH]; intros [|d b] s H; simpl in H.
  - reflexivity.
  - apply (f_equal String.length) in H. simpl in H.
    rewrite str_length_app in H. lia.
  - apply (f_equal String.length) in H. simpl in H.
    rewrite str_length_app in H. lia.
  - injection H as -> H. f_equal. now apply (IH b s).
Qed.

Lemma z_name_inj a b : z_name a = z_name b -> a = b.
Proof. apply str_app_inv_tail. Qed.

Lemma bind_Ok {A B : Type} (r : result A) (k : A -> result B) b :
  bind r k = Ok b -> exists a, r = Ok a /\ k a = Ok b.
Proof. destruct r as [a | e]; simpl; [now exists a | discriminate]. Qed.

Lemma mapM_total {A B : Type} (f : A -> result B) l :
  (forall a, In a l -> exists b, f a = Ok b) -> exists bs, mapM f l = Ok bs.
Proof.
  induction l as [|a l IH]; intros H; simpl; [now eexists|].
  destruct (H a (or_introl eq_refl)) as [b ->].
  destruct IH as [bs ->]; [intros x Hx; apply H; now right|].
  simpl. now eexists.
Qed.

Lemma scatter_length keys : forall outs,
  List.length (scatter keys outs) = List.length keys.
Proof.
  induction keys as [|k keys IH]; intros outs; simpl; [reflexivity|].
  destruct (if notna k then take_output k outs else None) as [[z outs']|];
    simpl; now rewrite IH.
Qed.

Lemma group_keys_length g df keys :
  group_keys g df = Ok keys -> List.length keys = List.length (rows df).
Proof.
  unfold group_keys, column.
  destruct (List.length (filter (String.eqb g) (columns df))) as [|[|n]];
    destruct (List.length (filter (String.eqb g) (index_names df))) as [|m];
    intros H; try discriminate; injection H as <-; apply length_map.
Qed.

Lemma groupby_transform_length f keys x z :
  groupby_transform f keys x = Ok z -> List.length z = List.length keys.
Proof.
  unfold groupby_transform. intros H. apply bind_Ok in H as [outs [_ H]].
  injection H as <-. apply scatter_length.
Qed.

Lemma extends_trans n m (r r1 r2 : list value * list value) :
  extends n r r1 -> extends m r1 r2 -> extends (n + m) r r2.
Proof.
  intros [Hk1 [z1 [Hl1 Hv1]]] [Hk2 [z2 [Hl2 Hv2]]]. split; [congruence|].
  exists (z1 ++ z2)%list. split; [rewrite length_app; lia|].
  now rewrite Hv2, Hv1, <- app_assoc.
Qed.

Lemma Forall2_extends_trans n m (l l1 l2 : list (list value * list value)) :
  Forall2 (extends n) l l1 -> Forall2 (extends m) l1 l2 ->
  Forall2 (extends (n + m)) l l2.
Proof.
  intros H. revert l2. induction H as [|r r1 l l1 Hr Hl IH]; intros l2 H2.
  - inversion H2. constructor.
  - inversion H2 as [|? r2 ? l2' Hr2 Hl2]; subst. constructor.
    + now apply (extends_trans n m r r1 r2).
    + now apply IH.
Qed.

(** Assigning to a new label appends one value to every row. *)
Lemma setitem_fresh l vals df :
  ~ In l (columns df) -> List.length vals = List.length (rows df) ->
  index_names (setitem l vals df) = index_names df
  /\ columns (setitem l vals df) = (columns df ++ [l])%list
  /\ Forall2 (extends 1) (rows df) (rows (setitem l vals df)).
Proof.
  intros Hl Hlen. unfold setitem. rewrite (proj2 (mem_false _ _) Hl).
  cbn [index_names columns rows]. repeat split.
  revert vals Hlen. induction (rows df) as [|r rs IH]; intros vals Hlen.
  - constructor.
  - destruct vals as [|v vals]; [discriminate|]. cbn [combine map].
    constructor; [|apply IH; simpl in Hlen; lia].
    split; [reflexivity|]. exists [v]. split; reflexivity.
Qed.

(** Reading by label in a row extended on the right. *)
Lemma cell_at_extended l cols new (r z : list value) :
  In l cols -> List.length r = List.length cols ->
  cell_at l (cols ++ new) (r ++ z) = cell_at l cols r.
Proof.
  intros Hin Hlen. unfold cell_at, cells_at.
  assert (Hc : combine (cols ++ new) (r ++ z)
               = (combine cols r ++ combine new z)%list).
  { clear Hin. revert r Hlen. induction cols as [|c cols IH]; intros r Hlen.
    - destruct r; [reflexivity | discriminate].
    - destruct r as [|v r]; [discriminate|]. simpl. f_equal. apply IH.
      simpl in Hlen. lia. }
  rewrite Hc, filter_app, map_app.
  pose proof (ReaderFacts.cells_at_length l cols r Hlen) as Hn.
  unfold cells_at in Hn. apply label_count_pos in Hin.
  destruct (map snd (filter _ (combine cols r))) as [|v t]; [simpl in Hn; lia|].
  reflexivity.
Qed.

Lemma column_extended n df df' l :
  frame_wf df -> In l (columns df) ->
  (exists new, columns df' = (columns df ++ new)%list) ->
  Forall2 (extends n) (rows df) (rows df') ->
  column l df' = column l df.
Proof.
  intros Hwf Hin [new Hcols] H. unfold column. rewrite Hcols.
  unfold frame_wf in Hwf.
  induction H as [|r r' rs rs' Hr Hrs IH]; [reflexivity|].
  apply Forall_cons_iff in Hwf as [Hlen Hwf]. cbn [map]. f_equal.
  - destruct Hr as [_ [z [_ ->]]]. now apply cell_at_extended.
  - now apply IH.
Qed.

Lemma frame_wf_extended df df' new :
  frame_wf df -> columns df' = (columns df ++ new)%list ->
  Forall2 (extends (List.length new)) (rows df) (rows df') ->
  frame_wf df'.
Proof.
  unfold frame_wf. intros Hwf Hcols H. rewrite Hcols.
  induction H as [|r r' rs rs' Hr Hrs IH]; [constructor|].
  apply Forall_cons_iff in Hwf as [Hlen Hwf]. constructor; [|now apply IH].
  destruct Hr as [_ [z [Hz ->]]]. rewrite !length_app. lia.
Qed.

Section Standardiser.

Variable series_mean : list value -> result value.
Variable series_std : list value -> result value.
Variable val_sub : value -> value -> result value.
Variable val_div : value -> value -> result value.

(** One turn of the loop that goes through. *)
Lemma loop_step col rest g df df' :
  add_esg_zscores_loop series_mean series_std val_sub val_div
    (col :: rest) g df = Ok df' ->
  exists keys x z,
    group_keys g df = Ok keys
    /\ getitem col df = Ok (Series x)
    /\ groupby_transform (zscore series_mean series_std val_sub val_div)
         keys x = Ok z
    /\ List.length z = List.length (rows df)
    /\ add_esg_zscores_loop series_mean series_std val_sub val_div
         rest g (setitem (z_name col) z df) = Ok df'.
Proof.
  cbn [add_esg_zscores_loop]. intros H.
  apply bind_Ok in H as [keys [Hk H]].
  apply bind_Ok in H as [sel [Hs H]].
  apply bind_Ok in H as [z [Hz H]].
  destruct sel as [x | w]; [|discriminate].
  exists keys, x, z. repeat split; try assumption.
  rewrite (groupby_transform_length _ _ _ _ Hz).
  now apply group_keys_length with (g := g).
Qed.

(** What the loop makes of a frame none of whose labels is the z-score
    name of a target. *)
Lemma loop_frame esg : forall g df df',
  NoDup esg ->
  (forall c, In c esg -> ~ In (z_name c) (columns df)) ->
  add_esg_zscores_loop series_mean series_std val_sub val_div esg g df
  = Ok df' ->
  index_names df' = index_names df
  /\ columns df' = (columns df ++ map z_name esg)%list
  /\ Forall2 (extends (List.length esg)) (rows df) (rows df').
Proof.
  induction esg as [|col rest IH]; intros g df df' Hnd Hfresh H.
  - injection H as <-. rewrite app_nil_r. repeat split.
    induction (rows df) as [|r rs IHr]; constructor; [|assumption].
    split; [reflexivity|]. exists []. now rewrite app_nil_r.
  - apply NoDup_cons_iff in Hnd as [Hcol Hnd].
    apply loop_step in H as [keys [x [z [_ [_ [_ [Hlen H]]]]]]].
    destruct (setitem_fresh (z_name col) z df) as [Hi [Hc Hr]];
      [apply Hfresh; now left | assumption |].
    apply IH in H; [|assumption|].
    + destruct H as [Hi' [Hc' Hr']]. repeat split.
      * congruence.
      * rewrite Hc', Hc, <- app_assoc. reflexivity.
      * apply (Forall2_extends_trans 1 (List.length rest) _ _ _ Hr Hr').
    + intros c Hin. rewrite Hc, in_app_iff. intros [Hc0 | [Hc0 | []]].
      * apply (Hfresh c); [now right | assumption].
      * apply z_name_inj in Hc0. subst. contradiction.
Qed.

Lemma label_count_In l cols : label_count l cols = 1%nat -> In l cols.
Proof. intros H. apply label_count_pos. lia. Qed.

Lemma label_count_snoc l cols z :
  z <> l -> label_count l (cols ++ [z]) = label_count l cols.
Proof.
  intros Hne. rewrite ReaderFacts.label_count_app.
  unfold label_count at 2. cbn [filter].
  destruct (String.eqb_spec l z) as [-> | _]; [congruence|]. simpl. lia.
Qed.

Lemma groupby_transform_total keys x :
  (forall k, In k (distinct_keys (filter notna keys)) ->
     exists z, zscore series_mean series_std val_sub val_div
                 (group_values k keys x) = Ok z) ->
  exists z, groupby_transform (zscore series_mean series_std val_sub val_div)
              keys x = Ok z.
Proof.
  intros H. unfold groupby_transform.
  destruct (mapM_total
              (fun k =>
                 z <- zscore series_mean series_std val_sub val_div
                        (group_values k keys x) ;;
                 Ok (k, z))
              (distinct_keys (filter notna keys))) as [outs ->].
  - intros k Hk. destruct (H k Hk) as [z ->]. simpl. now eexists.
  - simpl. now eexists.
Qed.

(** The loop goes through on a rectangular frame where the group label
    and every target label one column each, no label is the z-score name of
    a target, and every group can be standardised. *)
Lemma loop_total esg : forall g df,
  frame_wf df ->
  label_count g (columns df) = 1%nat ->
  label_count g (index_names df) = 0%nat ->
  (forall c, In c esg -> label_count c (columns df) = 1%nat) ->
  NoDup esg ->
  (forall c, In c esg -> ~ In (z_name c) (columns df)) ->
  zscores_defined series_mean series_std val_sub val_div df esg g ->
  exists df',
    add_esg_zscores_loop series_mean series_std val_sub val_div esg g df
    = Ok df'.
Proof.
  induction esg as [|col rest IH]; intros g df Hwf Hg Hgi Hone Hnd Hfresh Hdef.
  - now eexists.
  - apply NoDup_cons_iff in Hnd as [Hcol Hnd].
    cbn [add_esg_zscores_loop].
    unfold group_keys. fold (label_count g (columns df)).
    fold (label_count g (index_names df)). rewrite Hg, Hgi. cbn [bind].
    unfold getitem. fold (label_count col (columns df)).
    rewrite (Hone col (or_introl eq_refl)). cbn [bind].
    destruct (groupby_transform_total (column g df) (column col df))
      as [z Hz].
    { intros k Hk. apply (Hdef col k); [now left | assumption]. }
    rewrite Hz. cbn [bind]. fold (z_name col).
    assert (Hlen : List.length z = List.length (rows df)).
    { rewrite (groupby_transform_length _ _ _ _ Hz). apply length_map. }
    destruct (setitem_fresh (z_name col) z df) as [Hi [Hc Hr]];
      [apply Hfresh; now left | assumption |].
    assert (Hzc : forall l, In l (columns df) -> z_name col <> l).
    { intros l Hl Heq. subst l. apply (Hfresh col); [now left | assumption]. }
    assert (Hcolumn : forall l, In l (columns df) ->
              column l (setitem (z_name col) z df) = column l df).
    { intros l Hl. apply (column_extended 1); try assumption.
      eexists. exact Hc. }
    apply IH.
    + apply (frame_wf_extended df _ [z_name col]); assumption.
    + rewrite Hc, label_count_snoc; [assumption|].
      now apply Hzc, label_count_In.
    + now rewrite Hi.
    + intros c Hin. rewrite Hc, label_count_snoc.
      * apply Hone. now right.
      * apply Hzc, label_count_In, Hone. now right.
    + assumption.
    + intros c Hin. rewrite Hc, in_app_iff. intros [Hc0 | [Hc0 | []]].
      * apply (Hfresh c); [now right | assumption].
      * apply z_name_inj in Hc0. subst. contradiction.
    + intros c k Hin Hk.
      rewrite (Hcolumn g) in * by now apply label_count_In.
      rewrite (Hcolumn c) by (apply label_count_In, Hone; now right).
      apply (Hdef c k); [now right | assumption].
Qed.

End Standardiser.

End ZFacts.

Section StandardiserTheorems.

Variable series_mean : list value -> result value.
Variable series_std : list value -> result value.
Variable val_sub : value -> value -> result value.
Variable val_div : value -> value -> result value.

(** X22: on any frame, when the targets are distinct and no column of the
    input is already named by a target name followed by [_z], the table
    [add_esg_zscores] returns has the index of the input, the columns of
    the input followed by one new column per target, named target then
    [_z], and rows that are the input rows with the new values appended:
    no original value is changed or removed.  It does return when the
    frame is rectangular, the group label and each target label one column
    and every group can be standardised. *)
Theorem add_esg_zscores_appends :
  forall df esg_cols group_col,
  NoDup esg_cols ->
  (forall c, In c esg_cols -> ~ In (c ++ "_z") (columns df)) ->
  (forall df',
     add_esg_zscores series_mean series_std val_sub val_div
       df esg_cols group_col = Ok df' ->
     index_names df' = index_names df
     /\ columns df'
        = (columns df ++ map (fun c => (c ++ "_z")%string) esg_cols)%list
     /\ Forall2 (extends (List.length esg_cols)) (rows df) (rows df')
     /\ (frame_wf df ->
         forall l, In l (columns df) -> column l df' = column l df))
  /\ (frame_wf df ->
      label_count group_col (columns df) = 1%nat ->
      label_count group_col (index_names df) = 0%nat ->
      (forall c, In c esg_cols -> label_count c (columns df) = 1%nat) ->
      zscores_defined series_mean series_std val_sub val_div
        df esg_cols group_col ->
      exists df',
        add_esg_zscores series_mean series_std val_sub val_div
          df esg_cols group_col = Ok df').
Proof.
  intros df esg_cols group_col Hnd Hfresh. split.
  - intros df' H.
    destruct (ZFacts.loop_frame series_mean series_std val_sub val_div
                esg_cols group_col df df' Hnd Hfresh H) as [Hi [Hc Hr]].
    repeat split; try assumption.
    intros Hwf l Hl.
    apply (ZFacts.column_extended (List.length esg_cols)); try assumption.
    eexists. exact Hc.
  - intros Hwf Hg Hgi Hone Hdef.
    now apply ZFacts.loop_total.
Qed.

End StandardiserTheorems.

(** A frame that has the column [bloomberg_esg_z] already, which no panel
    of [build_panel] has: standardising [bloomberg_esg] again, within the
    sector, adds no column and writes over the values of that column. *)
Lemma add_esg_zscores_overwrites :
  In "bloomberg_esg_z" (columns Rerun.df)
  /\ exists df',
       Sample.add_esg_zscores Rerun.df ["bloomberg_esg"] "sector" = Ok df'
       /\ columns df' = columns Rerun.df
       /\ column "bloomberg_esg_z" df' <> column "bloomberg_esg_z" Rerun.df.
Proof.
  split; [vm_compute; auto|].
  eexists. split; [vm_compute; reflexivity|].
  split; [reflexivity|].
  intros H.
  apply (f_equal (fun l => match l with
                           | VFloat x :: _ => PrimFloat.ltb x (-1)%float
                           | _ => false
                           end)) in H.
  vm_compute in H. discriminate.
Qed.

Lemma add_esg_zscores_appends_witness :
  NoDup ["bloomberg_esg"]
  /\ (forall c, In c ["bloomberg_esg"] -> ~ In (c ++ "_z") (columns Rerun.df0))
  /\ exists df',
       Sample.add_esg_zscores Rerun.df0 ["bloomberg_esg"] "sector" = Ok df'
       /\ columns df' = ["bloomberg_esg"; "sector"; "bloomberg_esg_z"]
       /\ column "bloomberg_esg" df' = column "bloomberg_esg" Rerun.df0
       /\ column "sector" df' = column "sector" Rerun.df0.
Proof.
  assert (H1 : NoDup ["bloomberg_esg"]).
  { constructor; [intros [] | constructor]. }
  assert (H2 : forall c, In c ["bloomberg_esg"] ->
                 ~ In (c ++ "_z") (columns Rerun.df0)).
  { intros c [<- | []]. vm_compute. intros [H | [H | []]]; discriminate. }
  assert (Hwf : frame_wf Rerun.df0) by (repeat constructor).
  split; [exact H1|]. split; [exact H2|].
  destruct (add_esg_zscores_appends Sample.series_mean Sample.series_std
              Sample.val_sub Sample.val_div Rerun.df0 ["bloomberg_esg"] "sector"
              H1 H2) as [Hframe Htotal].
  destruct Htotal as [df' Hdf']; try (vm_compute; reflexivity); try exact Hwf.
  - intros c [<- | []]. vm_compute. reflexivity.
  - intros c k [<- | []] Hk. vm_compute in Hk. destruct Hk as [<- | []].
    vm_compute. eexists. reflexivity.
  - exists df'. split; [exact Hdf'|].
    destruct (Hframe df' Hdf') as [_ [Hc [_ Hcol]]].
    split; [exact Hc|]. split; apply (Hcol Hwf); vm_compute; auto.
Defined.

(** * Further properties *)

(** ** Tokens of [_norm] *)

Module TokenFacts.
Import PyStr NormShape.

Lemma tidy_suffix a : forall f s,
  tidy f (a ++ s) = true -> exists f', tidy f' s = true.
Proof.
  induction a as [|c a IH]; intros f s H; [now exists f|].
  simpl in H. destruct (isspace c).
  - apply andb_prop in H as [_ H]. now apply (IH true).
  - apply andb_prop in H as [_ H]. now apply (IH false).
Qed.

Lemma tidy_head f c s :
  tidy f (String c s) = true ->
  lower_char c = c /\ (isspace c = true -> c = " "%char)
  /\ (isspace c = true -> f = false /\ tidy true s = true)
  /\ (f = true -> isspace c = false).
Proof.
  simpl. destruct (isspace c) eqn:Ec; intros H.
  - apply andb_prop in H as [H1 H3]. apply andb_prop in H1 as [H1 H2].
    apply Ascii.eqb_eq in H2. subst c. apply negb_true_iff in H1.
    repeat split; auto. intros Hf. congruence.
  - apply andb_prop in H as [H1 _]. apply Ascii.eqb_eq in H1.
    repeat split; auto; discriminate.
Qed.

Lemma norm_text_empty_iff s : norm_text s = "" <-> all_space s = true.
Proof.
  rewrite (proj1 (NormFacts.norm_text_alt s)), NormFacts.rstrip_empty_iff.
  rewrite <- (NormFacts.all_space_lower s).
  destruct (all_space (lower s)) eqn:E.
  - split; [reflexivity|]. intros _.
    apply NormFacts.rstrip_empty_iff. now apply NormFacts.sub_ws_all_space.
  - rewrite (NormFacts.sub_ws_not_all_space true _ E). tauto.
Qed.

End TokenFacts.

(** X1: a token of [_norm] is in lower case, has no whitespace but the
    space character, neither begins nor ends with a space, and has no two
    spaces in a row (so no newline, no tab, no run of blanks survives). *)
Theorem norm_token_shape :
  forall x : cell,
  (forall a c b, _norm x = a ++ String c b ->
     PyStr.lower_char c = c /\ (PyStr.isspace c = true -> c = " "%char))
  /\ (forall c b, _norm x = String c b -> PyStr.isspace c = false)
  /\ (forall a c, _norm x = a ++ String c "" -> PyStr.isspace c = false)
  /\ (forall a c d b, _norm x = a ++ String c (String d b) ->
        PyStr.isspace c = true -> PyStr.isspace d = false).
Proof.
  intros x.
  assert (Hc : NormShape.canonical (_norm x)).
  { destruct x; try (left; reflexivity); apply NormFacts.norm_text_alt. }
  destruct Hc as [He | Ht].
  - rewrite He. repeat split; intros;
      match goal with
      | H : "" = ?a ++ _ |- _ => destruct a; discriminate
      | H : "" = String _ _ |- _ => discriminate
      end.
  - repeat split.
    + rewrite H in Ht. apply TokenFacts.tidy_suffix in Ht as [f Hf].
      now apply TokenFacts.tidy_head in Hf.
    + rewrite H in Ht. apply TokenFacts.tidy_suffix in Ht as [f Hf].
      now apply TokenFacts.tidy_head in Hf.
    + intros c b H. rewrite H in Ht.
      apply TokenFacts.tidy_head in Ht as [_ [_ [_ Ht]]]. now apply Ht.
    + intros a c H. rewrite H in Ht.
      apply TokenFacts.tidy_suffix in Ht as [f Hf].
      destruct (PyStr.isspace c) eqn:Ec; [|reflexivity].
      apply TokenFacts.tidy_head in Hf as [_ [_ [Hf _]]].
      destruct (Hf Ec) as [_ Hf']. discriminate.
    + intros a c d b H Hc. rewrite H in Ht.
      apply TokenFacts.tidy_suffix in Ht as [f Hf].
      apply TokenFacts.tidy_head in Hf as [_ [_ [Hf _]]].
      destruct (Hf Hc) as [_ Hf'].
      apply TokenFacts.tidy_head in Hf' as [_ [_ [_ Hf']]]. now apply Hf'.
Qed.

(** X2: the token is empty exactly for [None], the float NaN and a value
    whose text is empty or all whitespace: any other value, a missing
    timestamp or [pd.NA] among them, has a token that is not empty. *)
Theorem norm_empty_iff :
  forall x : cell,
  _norm x = "" <->
  x = CNone \/ x = CNaN \/ PyStr.all_space (py_str x) = true.
Proof.
  intros x.
  destruct x; simpl _norm;
    try (split; [auto | reflexivity]);
    rewrite TokenFacts.norm_text_empty_iff; simpl py_str;
    (split; [auto | intros [H | [H | H]]; [discriminate | discriminate | exact H]]).
Qed.

(** ** The window of the header locator *)

Module WindowFacts.

Lemma mem_ext x s s' :
  (forall t, In t s <-> In t s') -> mem x s = mem x s'.
Proof.
  intros H. destruct (mem x s') eqn:E.
  - apply mem_In. apply H. now apply mem_In.
  - apply mem_false. intros Hin. apply H in Hin.
    apply mem_In in Hin. congruence.
Qed.

Lemma is_header_row_equiv row row' :
  token_equiv row row' -> is_header_row row = is_header_row row'.
Proof.
  intros H. unfold is_header_row, hits. f_equal.
  - now apply mem_ext.
  - f_equal. f_equal. apply filter_ext. intros h. now apply mem_ext.
Qed.

Lemma scan_chunk_equiv chunk chunk' :
  Forall2 token_equiv chunk chunk' ->
  forall i, scan_chunk chunk i = scan_chunk chunk' i.
Proof.
  induction 1 as [|r r' l l' Hr Hl IH]; intros i; [reflexivity|].
  simpl. rewrite (is_header_row_equiv r r' Hr). now rewrite IH.
Qed.

Lemma Forall2_skipn {A B : Type} (R : A -> B -> Prop) n : forall l l',
  Forall2 R l l' -> Forall2 R (skipn n l) (skipn n l').
Proof.
  induction n as [|n IH]; intros l l' H; [assumption|].
  destruct H; [constructor | simpl; now apply IH].
Qed.

Lemma Forall2_firstn {A B : Type} (R : A -> B -> Prop) n : forall l l',
  Forall2 R l l' -> Forall2 R (firstn n l) (firstn n l').
Proof.
  induction n as [|n IH]; intros l l' H; [constructor|].
  destruct H; [constructor | simpl; constructor; [assumption | now apply IH]].
Qed.

End WindowFacts.

(** X3: an empty window has no header: when [max_scan_rows] is 0, or the
    sheet has no row at or below [start_row], [find_header_row] raises the
    "header row not found" error. *)
Theorem find_header_row_empty_window :
  forall wb file_path sheet_name start_row max_scan_rows,
  max_scan_rows = 0%nat
  \/ (List.length (sheet_rows wb sheet_name) <= start_row)%nat ->
  find_header_row wb file_path sheet_name start_row max_scan_rows
  = Raise (ValueError
             (header_not_found_msg file_path sheet_name start_row max_scan_rows)).
Proof.
  intros wb file_path sheet_name start_row max_scan_rows H.
  unfold find_header_row, read_excel_block.
  replace (firstn max_scan_rows (skipn start_row (sheet_rows wb sheet_name)))
    with (@nil (list cell)); [reflexivity|].
  destruct H as [-> | H]; [reflexivity|].
  now rewrite skipn_all2, firstn_nil.
Qed.

Lemma find_header_row_empty_window_witness :
  (3000 = 0%nat
   \/ (List.length (sheet_rows Demo.wb "Worksheet") <= 2000)%nat)
  /\ find_header_row Demo.wb "banks.xlsx" "Worksheet" 2000 3000
     = Raise (ValueError
         "Header row not found in 'Worksheet' of 'banks.xlsx' (scanned rows 2000..4999).").
Proof.
  assert (H : 3000 = 0%nat
              \/ (List.length (sheet_rows Demo.wb "Worksheet") <= 2000)%nat).
  { right. vm_compute. repeat constructor. }
  split; [exact H|].
  exact (find_header_row_empty_window Demo.wb "banks.xlsx" "Worksheet"
           2000 3000 H).
Defined.

(** X4: the locator looks at the set of tokens of each row and at nothing
    else: two sheets whose rows have, one by one, the same tokens (the same
    header names in another order, in another case, with other spacing, or
    repeated) give the same answer, be it a row index or the error. *)
Theorem find_header_row_tokens_only :
  forall wb wb' file_path sheet_name start_row max_scan_rows,
  Forall2 token_equiv (sheet_rows wb sheet_name) (sheet_rows wb' sheet_name) ->
  find_header_row wb file_path sheet_name start_row max_scan_rows
  = find_header_row wb' file_path sheet_name start_row max_scan_rows.
Proof.
  intros wb wb' file_path sheet_name start_row max_scan_rows H.
  unfold find_header_row, read_excel_block.
  rewrite (WindowFacts.scan_chunk_equiv
             (firstn max_scan_rows (skipn start_row (sheet_rows wb sheet_name)))
             (firstn max_scan_rows (skipn start_row (sheet_rows wb' sheet_name)))).
  - reflexivity.
  - now apply WindowFacts.Forall2_firstn, WindowFacts.Forall2_skipn.
Qed.

Lemma find_header_row_tokens_only_witness :
  Forall2 token_equiv (sheet_rows Shuffled.wb1 "FirmA")
                      (sheet_rows Shuffled.wb2 "FirmA")
  /\ find_header_row Shuffled.wb1 "f.xlsx" "FirmA" 0 3
     = find_header_row Shuffled.wb2 "f.xlsx" "FirmA" 0 3.
Proof.
  assert (H : Forall2 token_equiv (sheet_rows Shuffled.wb1 "FirmA")
                                  (sheet_rows Shuffled.wb2 "FirmA")).
  { change (sheet_rows Shuffled.wb1 "FirmA")
      with [ [CStr "legend"]; Decoy.header_row; [CStr "01/31/2020"] ].
    unfold Shuffled.wb2, Sample.workbook_of, sheet_rows, Sample.grid_of.
    cbn [find fst snd]. change ("FirmA" =? "FirmA") with true. cbv iota.
    repeat (apply Forall2_cons; [intros t; vm_compute; tauto|]).
    apply Forall2_nil. }
  split; [exact H|].
  exact (find_header_row_tokens_only Shuffled.wb1 Shuffled.wb2 "f.xlsx" "FirmA"
           0 3 H).
Defined.

(** X5: the row returned as the header has at least 7 cells, 7 of them
    with different tokens: a narrower row is never taken for the header. *)
Theorem find_header_row_width :
  forall wb file_path sheet_name start_row max_scan_rows r,
  find_header_row wb file_path sheet_name start_row max_scan_rows = Ok r ->
  exists row,
    nth_error (sheet_rows wb sheet_name) r = Some row
    /\ (7 <= List.length (nodup string_dec (map _norm row)))%nat
    /\ (7 <= List.length row)%nat.
Proof.
  intros wb file_path sheet_name start_row max_scan_rows r H.
  unfold find_header_row in H.
  destruct (scan_chunk _ 0) as [i|] eqn:E; [|discriminate].
  injection H as <-.
  apply scan_chunk_Some in E as [k [row [-> [Hn [Hq _]]]]].
  rewrite nth_error_block in Hn.
  destruct (k <? max_scan_rows)%nat; [|discriminate].
  exists row. split; [assumption|].
  apply is_header_row_iff in Hq as [_ [l [Hnd [Hlen [_ Hincl]]]]].
  assert (H7 : (7 <= List.length (nodup string_dec (map _norm row)))%nat).
  { rewrite <- Hlen. apply NoDup_incl_length; [assumption|].
    intros t Ht. apply nodup_In. now apply Hincl. }
  split; [assumption|].
  rewrite <- (length_map _norm row).
  eapply Nat.le_trans; [exact H7|].
  apply NoDup_incl_length; [apply NoDup_nodup|].
  intros t Ht. now apply nodup_In in Ht.
Qed.

Lemma find_header_row_width_witness :
  find_header_row Decoy.wb "f.xlsx" "FirmA" Decoy.scan_start 20
  = Ok (Decoy.scan_start + 12)%nat
  /\ exists row,
       nth_error (sheet_rows Decoy.wb "FirmA") (Decoy.scan_start + 12) = Some row
       /\ (7 <= List.length row)%nat.
Proof.
  assert (H : find_header_row Decoy.wb "f.xlsx" "FirmA" Decoy.scan_start 20
              = Ok (Decoy.scan_start + 12)%nat) by (vm_compute; reflexivity).
  split; [exact H|].
  destruct (find_header_row_width Decoy.wb "f.xlsx" "FirmA" Decoy.scan_start 20
              _ H) as [row [Hn [_ Hlen]]].
  exists row. split; [exact Hn | exact Hlen].
Defined.

(** ** Outcomes of the sheet reader *)

Module OutcomeFacts.
Import FrameFacts ReaderFacts.

Section Outcome.

Variable to_datetime : string -> value -> option Z.
Variable to_numeric : value -> float.

(** The coercion loop over labels that are all present stops with the
    error of [pd.to_numeric] at the first label that two columns carry. *)
Lemma coerce_numeric_dup_exact cs : forall df,
  (forall c, In c cs -> c <> "date" -> In c (columns df)) ->
  (exists c, In c cs /\ c <> "date"
             /\ (2 <= label_count c (columns df))%nat) ->
  coerce_numeric to_numeric cs df = Raise dup_column_error.
Proof.
  induction cs as [|c0 cs IH]; intros df Hall [c [Hin [Hne Hc]]];
    [destruct Hin|].
  cbn [coerce_numeric].
  destruct (String.eqb_spec c0 "date") as [-> | H0].
  - destruct Hin as [H | H]; [congruence|].
    apply IH; [intros x Hx; apply Hall; now right | now exists c].
  - unfold getitem. fold (label_count c0 (columns df)).
    assert (H1 : (1 <= label_count c0 (columns df))%nat).
    { apply label_count_pos, Hall; [now left | assumption]. }
    destruct (label_count c0 (columns df)) as [|[|n]] eqn:E0; [lia | |].
    + cbn [bind pd_to_numeric].
      assert (Hcols : columns (setitem c0
                (map (fun v => VFloat (to_numeric v)) (column c0 df)) df)
              = columns df).
      { apply columns_setitem_same, label_count_pos. lia. }
      apply IH.
      * intros x Hx Hxd. rewrite Hcols. apply Hall; [now right | assumption].
      * exists c. rewrite Hcols. repeat split; try assumption.
        destruct Hin as [H' | H']; [|assumption]. subst. lia.
    + reflexivity.
Qed.

(** [read_firm_sheet] is the locator followed by [read_outcome]. *)
Lemma read_firm_sheet_eq wb file_path sheet_name start_row max_scan_rows :
  read_firm_sheet to_datetime to_numeric wb file_path sheet_name
    start_row max_scan_rows
  = (hdr <- find_header_row wb file_path sheet_name start_row max_scan_rows ;;
     read_outcome to_datetime to_numeric file_path sheet_name
       (sheet_frame wb sheet_name hdr)).
Proof.
  pose proof (read_firm_sheet_cases to_datetime to_numeric
                wb file_path sheet_name start_row max_scan_rows) as Hc.
  cbv zeta in Hc.
  destruct (find_header_row _ _ _ _ _) as [hdr | e] eqn:Hh;
    [|exact Hc].
  cbn [bind]. unfold read_outcome.
  set (raw := sheet_frame wb sheet_name hdr) in *.
  destruct (mem "date" (labels raw)) eqn:Hm; [|exact Hc]. cbn [negb].
  destruct (labels_distinct raw) eqn:Hd.
  - replace (2 <=? label_count "date" (labels raw))%nat with false;
      [exact Hc|].
    symmetry. apply Nat.leb_gt. unfold labels_distinct in Hd.
    rewrite forallb_forall in Hd.
    specialize (Hd "date" (or_introl eq_refl)). apply Nat.leb_le in Hd. lia.
  - clear Hc. unfold read_firm_sheet. rewrite Hh. cbn [bind].
    change (filter (fun c => mem c (columns (normalized_frame (sheet_frame wb sheet_name hdr))))
              Config.EXPECTED_HEADERS) with (kept_labels raw).
    fold raw. rewrite (select_kept_any raw). cbn [bind].
    set (df1 := {| index_names := []; columns := _; rows := _ |}).
    assert (Hk : In "date" (kept_labels raw)).
    { apply filter_In. split; [now left | assumption]. }
    pose proof (kept_nodup raw) as Hnd.
    assert (Hcount : forall k, In k (kept_labels raw) ->
              label_count k (columns df1) = label_count k (labels raw)).
    { intros k Hin. now apply label_count_select. }
    assert (Hd1 : In "date" (columns df1)).
    { apply label_count_pos. rewrite (Hcount _ Hk).
      now apply label_count_pos, mem_In. }
    rewrite (proj2 (mem_In _ _) Hd1). cbn [negb].
    unfold getitem at 1. fold (label_count "date" (columns df1)).
    rewrite (Hcount _ Hk).
    apply label_count_pos in Hd1. rewrite (Hcount _ Hk) in Hd1.
    destruct (label_count "date" (labels raw)) as [|[|n]] eqn:E1; [lia | |].
    + cbn [bind pd_to_datetime Nat.leb].
      set (df2 := setitem "date" _ df1).
      assert (Hc2 : columns df2 = columns df1).
      { apply columns_setitem_same, label_count_pos.
        rewrite (Hcount _ Hk). lia. }
      destruct (labels_not_distinct raw Hd) as [c [Hc Hc2']].
      assert (Hcd : c <> "date") by (intros ->; lia).
      set (df3 := filter_rows _ df2).
      assert (Hc3 : columns df3 = columns df1) by exact Hc2.
      rewrite (coerce_numeric_dup_exact (columns df3) df3); [reflexivity | |].
      * intros x Hx _. exact Hx.
      * exists c. rewrite Hc3, (Hcount _ Hc). repeat split; try assumption.
        apply label_count_pos. rewrite (Hcount _ Hc). lia.
    + reflexivity.
Qed.

End Outcome.

End OutcomeFacts.

Section ReaderExtras.

Variable to_datetime : string -> value -> option Z.
Variable to_numeric : value -> float.

(** X6: a table [read_firm_sheet] returns is indexed by ["date"]; its
    column labels are distinct expected names, none of them ["date"]; every
    row has a timestamp as key (never NaT) and one value per column. *)
Theorem read_firm_sheet_table_shape :
  forall wb file_path sheet_name start_row max_scan_rows t,
  read_firm_sheet to_datetime to_numeric wb file_path sheet_name
    start_row max_scan_rows = Ok t ->
  index_names t = ["date"]
  /\ NoDup (columns t)
  /\ (forall c, In c (columns t) ->
        In c Config.EXPECTED_HEADERS /\ c <> "date")
  /\ (forall row, In row (rows t) ->
        (exists d, fst row = [VDate d])
        /\ List.length (snd row) = List.length (columns t)).
Proof.
  intros wb file_path sheet_name start_row max_scan_rows t H.
  pose proof (PanelFacts.read_ok_table_ok _ _ _ _ _ _ _ _ H)
    as [Hi [Hnd [Hexp Hrows]]].
  repeat split; try assumption; try (now apply Hexp).
  - rewrite Forall_forall in Hrows. now apply Hrows.
  - rewrite Forall_forall in Hrows. now apply Hrows.
Qed.

(** X7: when two column labels normalise to the same expected name the
    sheet is not read: with ["date"] on two columns [pd.to_datetime]
    refuses the frame it is given, and with ["date"] on one column and
    another expected name on two, [pd.to_numeric] does.  Neither error is
    the missing-date error. *)
Theorem read_firm_sheet_duplicate_labels :
  forall wb file_path sheet_name start_row max_scan_rows hdr,
  find_header_row wb file_path sheet_name start_row max_scan_rows = Ok hdr ->
  let raw := sheet_frame wb sheet_name hdr in
  let read := read_firm_sheet to_datetime to_numeric wb file_path sheet_name
                start_row max_scan_rows in
  ((2 <= label_count "date" (labels raw))%nat ->
   read = Raise (ValueError "cannot assemble with duplicate keys"))
  /\ (label_count "date" (labels raw) = 1%nat ->
      (exists c, In c Config.EXPECTED_HEADERS
                 /\ (2 <= label_count c (labels raw))%nat) ->
      read = Raise (TypeError "arg must be a list, tuple, 1-d array, or Series")).
Proof.
  intros wb file_path sheet_name start_row max_scan_rows hdr Hh raw read.
  unfold read. rewrite OutcomeFacts.read_firm_sheet_eq, Hh. cbn [bind].
  fold raw. unfold read_outcome. split.
  - intros H2.
    rewrite (proj2 (mem_In _ _)) by (apply FrameFacts.label_count_pos; lia).
    cbn [negb]. now rewrite (proj2 (Nat.leb_le _ _) H2).
  - intros H1 [c [Hc H2]].
    rewrite (proj2 (mem_In _ _)) by (apply FrameFacts.label_count_pos; lia).
    cbn [negb]. rewrite H1. cbn [Nat.leb].
    replace (labels_distinct raw) with false; [reflexivity|].
    symmetry. apply not_true_is_false. intros Hd.
    unfold labels_distinct in Hd. rewrite forallb_forall in Hd.
    specialize (Hd c Hc). apply Nat.leb_le in Hd. lia.
Qed.

Lemma map_filter_extended {A : Type} (f f' : list cell -> A)
    (p p' : list cell -> bool) (rs : list (list cell)) : forall cells,
  List.length cells = List.length rs ->
  (forall r x, In r rs -> f' (r ++ [x])%list = f r) ->
  (forall r x, In r rs -> p' (r ++ [x])%list = p r) ->
  map f' (filter p' (map (fun rc => (fst rc ++ [snd rc])%list) (combine rs cells)))
  = map f (filter p rs).
Proof.
  induction rs as [|r rs IH]; intros cells Hlen Hf Hp; [reflexivity|].
  destruct cells as [|x cells]; [discriminate|]. cbn [combine map filter fst snd].
  rewrite (Hp r x (or_introl eq_refl)).
  assert (Hrec : map f' (filter p' (map (fun rc => (fst rc ++ [snd rc])%list)
                                        (combine rs cells)))
                 = map f (filter p rs)).
  { apply IH; [simpl in Hlen; lia | |]; intros r' x' Hr';
      [apply Hf | apply Hp]; now right. }
  destruct (p r); cbn [map]; [rewrite (Hf r x (or_introl eq_refl))|];
    now rewrite Hrec.
Qed.

Lemma forallb_agree {A : Type} (f g : A -> bool) (l : list A) :
  (forall x, In x l -> f x = g x) -> forallb f l = forallb g l.
Proof.
  induction l as [|a l IH]; intros H; simpl; [reflexivity|].
  rewrite (H a (or_introl eq_refl)), IH; [reflexivity|].
  intros x Hx. apply H. now right.
Qed.

Lemma label_count_unexpected c l cols :
  c <> l -> label_count c (cols ++ [l]) = label_count c cols.
Proof. intros H. apply ZFacts.label_count_snoc. congruence. Qed.

(** A column whose label is no expected name changes nothing in what the
    reader makes of the frame. *)
Lemma read_outcome_with_column file_path sheet_name raw label cells :
  raw_rectangular raw ->
  List.length cells = List.length (raw_rows raw) ->
  ~ In (_norm label) Config.EXPECTED_HEADERS ->
  read_outcome to_datetime to_numeric file_path sheet_name
    (with_column raw label cells)
  = read_outcome to_datetime to_numeric file_path sheet_name raw.
Proof.
  intros Hrect Hlen Hun.
  set (raw' := with_column raw label cells).
  assert (Hlab : labels raw' = (labels raw ++ [_norm label])%list).
  { unfold labels, raw', with_column. cbn [raw_columns].
    now rewrite map_app. }
  assert (Hcnt : forall c, In c Config.EXPECTED_HEADERS ->
            label_count c (labels raw') = label_count c (labels raw)).
  { intros c Hc. rewrite Hlab. apply label_count_unexpected.
    intros ->. contradiction. }
  assert (Hmem : forall c, In c Config.EXPECTED_HEADERS ->
            mem c (labels raw') = mem c (labels raw)).
  { intros c Hc. destruct (mem c (labels raw)) eqn:E.
    - apply mem_In, FrameFacts.label_count_pos. rewrite (Hcnt c Hc).
      now apply FrameFacts.label_count_pos, mem_In.
    - apply mem_false. intros H. apply FrameFacts.label_count_pos in H.
      rewrite (Hcnt c Hc) in H. apply FrameFacts.label_count_pos in H.
      apply mem_In in H. congruence. }
  assert (Hkept : kept_labels raw' = kept_labels raw).
  { unfold kept_labels. apply filter_ext_in. intros c Hc. now apply Hmem. }
  assert (Hdata : data_labels raw' = data_labels raw).
  { unfold data_labels. now rewrite Hkept. }
  assert (Hdist : labels_distinct raw' = labels_distinct raw).
  { unfold labels_distinct. apply forallb_agree.
    intros c Hc. now rewrite (Hcnt c Hc). }
  assert (Hcell : forall r x c, In r (raw_rows raw) -> In c (labels raw) ->
            raw_cell raw' (r ++ [x]) c = raw_cell raw r c).
  { intros r x c Hr Hc. unfold raw_cell. rewrite Hlab.
    unfold raw_rectangular in Hrect. rewrite Forall_forall in Hrect.
    specialize (Hrect r Hr).
    assert (Hn : List.length (labels raw) = List.length r).
    { unfold labels. now rewrite length_map. }
    assert (Hp1 : pad (List.length (labels raw ++ [_norm label]))
                      (map VCell (r ++ [x]))
                  = (map VCell r ++ [VCell x])%list).
    { unfold pad. rewrite length_app, !length_map, length_app. cbn [List.length].
      rewrite Hn, Nat.sub_diag. cbn [repeat]. rewrite app_nil_r.
      rewrite map_app. apply firstn_all2.
      rewrite length_app, length_map. cbn [map List.length]. lia. }
    assert (Hp2 : pad (List.length (labels raw)) (map VCell r) = map VCell r).
    { unfold pad. rewrite length_map, Hn, Nat.sub_diag. cbn [repeat].
      rewrite app_nil_r. apply firstn_all2. rewrite length_map. lia. }
    rewrite Hp1, Hp2. apply ZFacts.cell_at_extended; [assumption|].
    now rewrite length_map. }
  unfold read_outcome.
  rewrite (Hmem "date") by now left.
  rewrite (Hcnt "date") by now left. rewrite Hdist.
  destruct (mem "date" (labels raw)) eqn:Hm; [|reflexivity]. cbn [negb].
  destruct (2 <=? label_count "date" (labels raw))%nat; [reflexivity|].
  destruct (labels_distinct raw); [|reflexivity].
  f_equal. unfold firm_table. rewrite Hdata. f_equal. f_equal.
  apply mem_In in Hm.
  apply map_filter_extended; [assumption | |].
  - intros r x Hr. unfold clean_row. rewrite Hdata. f_equal.
    + now rewrite Hcell.
    + apply map_ext_in. intros c Hc. rewrite Hcell; [reflexivity | assumption|].
      unfold data_labels, kept_labels in Hc.
      apply filter_In in Hc as [Hc _]. apply filter_In in Hc as [_ Hc].
      now apply mem_In.
  - intros r x Hr. unfold date_parses. now rewrite Hcell.
Qed.

(** X8: a column the schema does not expect, a column of notes say, is
    ignored: two workbooks whose headers are found at the same row and
    whose frames under it differ by one such column on the right read to
    the same table, or to the same error. *)
Theorem read_firm_sheet_ignores_unexpected :
  forall wb wb' file_path sheet_name start_row max_scan_rows hdr label cells,
  find_header_row wb file_path sheet_name start_row max_scan_rows = Ok hdr ->
  find_header_row wb' file_path sheet_name start_row max_scan_rows = Ok hdr ->
  raw_rectangular (sheet_frame wb sheet_name hdr) ->
  List.length cells = List.length (raw_rows (sheet_frame wb sheet_name hdr)) ->
  ~ In (_norm label) Config.EXPECTED_HEADERS ->
  sheet_frame wb' sheet_name hdr
  = with_column (sheet_frame wb sheet_name hdr) label cells ->
  read_firm_sheet to_datetime to_numeric wb' file_path sheet_name
    start_row max_scan_rows
  = read_firm_sheet to_datetime to_numeric wb file_path sheet_name
      start_row max_scan_rows.
Proof.
  intros wb wb' file_path sheet_name start_row max_scan_rows hdr label cells
         Hh Hh' Hrect Hlen Hun Hframe.
  rewrite !OutcomeFacts.read_firm_sheet_eq, Hh, Hh'. cbn [bind].
  rewrite Hframe. now apply read_outcome_with_column.
Qed.

End ReaderExtras.

Lemma read_firm_sheet_table_shape_witness :
  Sample.read_firm_sheet Demo.wb "banks.xlsx" "FirmB" 2000 3000
  = Ok (Demo.table "FirmB")
  /\ NoDup (columns (Demo.table "FirmB"))
  /\ forall row, In row (rows (Demo.table "FirmB")) ->
       List.length (snd row) = List.length (columns (Demo.table "FirmB")).
Proof.
  assert (H : read_firm_sheet Sample.to_datetime Sample.to_numeric
                Demo.wb "banks.xlsx" "FirmB" 2000 3000
              = Ok (Demo.table "FirmB")) by (vm_compute; reflexivity).
  split; [exact H|].
  destruct (read_firm_sheet_table_shape Sample.to_datetime Sample.to_numeric
              Demo.wb "banks.xlsx" "FirmB" 2000 3000 _ H)
    as [_ [Hnd [_ Hrows]]].
  split; [exact Hnd|]. intros row Hr. now apply Hrows.
Defined.

Lemma read_firm_sheet_duplicate_labels_witness :
  find_header_row Dup.wb "banks.xlsx" "TwoDates" 0 2 = Ok 0%nat
  /\ (2 <= label_count "date" (labels (sheet_frame Dup.wb "TwoDates" 0)))%nat
  /\ Sample.read_firm_sheet Dup.wb "banks.xlsx" "TwoDates" 0 2
     = Raise (ValueError "cannot assemble with duplicate keys").
Proof.
  assert (H : find_header_row Dup.wb "banks.xlsx" "TwoDates" 0 2 = Ok 0%nat)
    by (vm_compute; reflexivity).
  assert (H2 : (2 <= label_count "date"
                      (labels (sheet_frame Dup.wb "TwoDates" 0)))%nat)
    by (vm_compute; repeat constructor).
  split; [exact H|]. split; [exact H2|].
  exact (proj1 (read_firm_sheet_duplicate_labels Sample.to_datetime
                  Sample.to_numeric Dup.wb "banks.xlsx" "TwoDates" 0 2 0 H) H2).
Defined.

Lemma read_firm_sheet_ignores_unexpected_witness :
  find_header_row Demo.wb_plain "banks.xlsx" "FirmA" 2000 3000 = Ok 2000%nat
  /\ find_header_row Demo.wb "banks.xlsx" "FirmA" 2000 3000 = Ok 2000%nat
  /\ sheet_frame Demo.wb "FirmA" 2000
     = with_column (sheet_frame Demo.wb_plain "FirmA" 2000)
         (CStr "Notes") [CStr "ok"; CNaN]
  /\ Sample.read_firm_sheet Demo.wb "banks.xlsx" "FirmA" 2000 3000
     = Sample.read_firm_sheet Demo.wb_plain "banks.xlsx" "FirmA" 2000 3000.
Proof.
  assert (H1 : find_header_row Demo.wb_plain "banks.xlsx" "FirmA" 2000 3000
               = Ok 2000%nat) by (vm_compute; reflexivity).
  assert (H2 : find_header_row Demo.wb "banks.xlsx" "FirmA" 2000 3000
               = Ok 2000%nat) by (vm_compute; reflexivity).
  assert (H3 : sheet_frame Demo.wb "FirmA" 2000
               = with_column (sheet_frame Demo.wb_plain "FirmA" 2000)
                   (CStr "Notes") [CStr "ok"; CNaN])
    by (vm_compute; reflexivity).
  split; [exact H1|]. split; [exact H2|]. split; [exact H3|].
  apply (read_firm_sheet_ignores_unexpected Sample.to_datetime Sample.to_numeric
           Demo.wb_plain Demo.wb "banks.xlsx" "FirmA" 2000 3000 2000
           (CStr "Notes") [CStr "ok"; CNaN] H1 H2).
  - vm_compute. repeat constructor.
  - vm_compute. reflexivity.
  - vm_compute. intuition discriminate.
  - exact H3.
Defined.

(** ** The panel *)

Module PanelShape.
Import FrameFacts PanelFacts.

Lemma in_panel_columns ts c :
  In c (panel_columns ts)
  <-> (exists t, In t ts /\ In c (flat_columns t))
      /\ c <> "firm" /\ c <> "date".
Proof.
  unfold panel_columns. rewrite filter_In, dedup_In, in_flat_map.
  rewrite negb_true_iff, mem_false. cbn [In]. intuition congruence.
Qed.

Section Shape.

Variable to_datetime : string -> value -> option Z.
Variable to_numeric : value -> float.

(** A returned panel is the panel of the tables of its firm sheets. *)
Lemma build_panel_Ok_panel_of wb xlsx_path sector_label panel :
  build_panel to_datetime to_numeric wb xlsx_path sector_label = Ok panel ->
  list_firm_sheets wb <> []
  /\ (forall firm, In firm (list_firm_sheets wb) ->
        read_with_config to_datetime to_numeric wb xlsx_path firm
        = Ok (table_of to_datetime to_numeric wb xlsx_path firm))
  /\ panel = panel_of sector_label
               (table_of to_datetime to_numeric wb xlsx_path)
               (list_firm_sheets wb).
Proof.
  intros H.
  destruct (build_panel_Ok_reads to_datetime to_numeric _ _ _ _ H)
    as [Hne Hall].
  assert (Hread : forall firm, In firm (list_firm_sheets wb) ->
            read_with_config to_datetime to_numeric wb xlsx_path firm
            = Ok (table_of to_datetime to_numeric wb xlsx_path firm)).
  { intros firm Hin. destruct (Hall firm Hin) as [t Ht].
    unfold table_of, read_with_config. now rewrite Ht. }
  repeat split; try assumption.
  rewrite (build_panel_ok to_datetime to_numeric wb xlsx_path sector_label
             _ Hne Hread) in H.
  now injection H.
Qed.


(** The shape of a returned panel. *)
Lemma panel_invariant :
  forall wb xlsx_path sector_label panel,
  build_panel to_datetime to_numeric wb xlsx_path sector_label = Ok panel ->
  index_names panel = ["firm"; "date"]
  /\ NoDup (columns panel)
  /\ In "sector" (columns panel)
  /\ (forall c, In c (columns panel) ->
        c = "sector"
        \/ (In c Config.EXPECTED_HEADERS /\ c <> "date"
            /\ exists firm t,
                 In firm (list_firm_sheets wb)
                 /\ read_firm_sheet to_datetime to_numeric wb xlsx_path firm
                      Config.HEADER_SCAN_START_ROW Config.HEADER_SCAN_MAX_ROWS
                    = Ok t
                 /\ In c (columns t)))
  /\ (forall row, In row (rows panel) ->
        List.length (snd row) = List.length (columns panel)).
Proof.
  intros wb xlsx_path sector_label panel H.
  apply build_panel_Ok_panel_of in H as [Hne [Hread ->]].
  set (table := table_of to_datetime to_numeric wb xlsx_path) in *.
  set (firms := list_firm_sheets wb) in *.
  assert (Hok : forall firm, In firm firms -> table_ok (table firm)).
  { intros firm Hin. eapply PanelFacts.read_ok_table_ok. apply (Hread firm Hin). }
  cbn [index_names columns rows panel_of].
  split; [reflexivity|]. split; [|split; [|split]].
  - apply NoDup_filter, PanelFacts.dedup_NoDup.
  - apply in_panel_columns. split; [|split; discriminate].
    destruct firms as [|firm firms']; [congruence|].
    exists (table firm). split; [now left|].
    apply PanelFacts.in_flat_columns. auto.
  - intros c Hc. apply in_panel_columns in Hc
      as [[t [Ht Hc]] [Hcf Hcd]].
    apply in_map_iff in Ht as [firm [<- Hfirm]].
    apply PanelFacts.in_flat_columns in Hc
      as [Hc | [Hc | [Hc | Hc]]]; try congruence; [|now left].
    right. destruct (Hok firm Hfirm) as [_ [_ [Hexp _]]].
    destruct (Hexp c Hc) as [H1 H2]. repeat split; try assumption.
    exists firm, (table firm). repeat split; try assumption.
    apply (Hread firm Hfirm).
  - intros row Hr.
    apply (Permutation_in _ (SortFacts.sort_perm _)) in Hr.
    apply in_flat_map in Hr as [firm [_ Hr]].
    apply in_map_iff in Hr as [r [<- _]]. cbn [snd panel_row].
    apply length_map.
Qed.

Lemma panel_labels wb xlsx_path sector_label panel :
  build_panel to_datetime to_numeric wb xlsx_path sector_label = Ok panel ->
  forall c, In c (columns panel) ->
    c = "sector" \/ (In c Config.EXPECTED_HEADERS /\ c <> "date").
Proof.
  intros H c Hc.
  destruct (panel_invariant _ _ _ _ H) as [_ [_ [_ [Hcols _]]]].
  destruct (Hcols c Hc) as [E | [H1 [H2 _]]]; [now left | now right].
Qed.

(** Every row of a returned panel has the sector label under
    ["sector"]. *)
Lemma panel_sector wb xlsx_path sector_label panel :
  build_panel to_datetime to_numeric wb xlsx_path sector_label = Ok panel ->
  forall row, In row (rows panel) ->
    cell_at "sector" (columns panel) (snd row) = VStr sector_label.
Proof.
  intros H row Hr.
  apply build_panel_Ok_panel_of in H as [Hne [Hread ->]].
  cbn [columns rows panel_of] in *.
  apply (Permutation_in _ (SortFacts.sort_perm _)) in Hr.
  apply in_flat_map in Hr as [firm [Hf Hr]].
  apply in_map_iff in Hr as [r [<- Hr]]. cbn [snd panel_row].
  rewrite (cell_at_gen (panel_value sector_label _ r) "sector" _).
  - reflexivity.
  - apply NoDup_filter, dedup_NoDup.
  - apply in_panel_columns. split; [| split; discriminate].
    exists (table_of to_datetime to_numeric wb xlsx_path firm).
    split; [now apply in_map|]. apply in_flat_columns. auto.
Qed.

End Shape.

End PanelShape.

Section PanelExtras.

Variable to_datetime : string -> value -> option Z.
Variable to_numeric : value -> float.

(** X9: the sheet of the excluded name is never read: two workbooks with
    the same sheet names and the same firm sheets give the same panel, or
    the same error, whatever that sheet holds. *)
Theorem build_panel_skips_worksheet :
  forall wb wb' xlsx_path sector_label,
  same_firm_sheets wb wb' ->
  build_panel to_datetime to_numeric wb xlsx_path sector_label
  = build_panel to_datetime to_numeric wb' xlsx_path sector_label.
Proof.
  intros wb wb' xlsx_path sector_label [Hnames Hsheets].
  assert (Hfirms : list_firm_sheets wb = list_firm_sheets wb').
  { unfold list_firm_sheets. now rewrite Hnames. }
  assert (Hread : forall firm, In firm (list_firm_sheets wb) ->
            read_firm_sheet to_datetime to_numeric wb xlsx_path firm
              Config.HEADER_SCAN_START_ROW Config.HEADER_SCAN_MAX_ROWS
            = read_firm_sheet to_datetime to_numeric wb' xlsx_path firm
                Config.HEADER_SCAN_START_ROW Config.HEADER_SCAN_MAX_ROWS).
  { intros firm Hin. unfold list_firm_sheets in Hin.
    apply filter_In in Hin as [_ Hne].
    apply negb_true_iff, String.eqb_neq in Hne.
    destruct (Hsheets firm Hne) as [Hrows Hframe].
    unfold read_firm_sheet, find_header_row, read_excel_block.
    rewrite Hrows. destruct (scan_chunk _ 0) as [i|]; [|reflexivity].
    cbn [bind]. now rewrite Hframe. }
  unfold build_panel. rewrite <- Hfirms.
  assert (Hcollect : forall firms acc,
            (forall firm, In firm firms -> In firm (list_firm_sheets wb)) ->
            collect_frames to_datetime to_numeric wb xlsx_path sector_label
              firms acc
            = collect_frames to_datetime to_numeric wb' xlsx_path sector_label
                firms acc).
  { induction firms as [|firm firms IH]; intros acc Hin; [reflexivity|].
    cbn [collect_frames]. rewrite (Hread firm) by (apply Hin; now left).
    destruct (read_firm_sheet _ _ wb' _ _ _ _) as [t | e]; [|reflexivity].
    cbn [bind]. destruct (reset_index _) as [f | e]; [|reflexivity].
    cbn [bind]. apply IH. intros x Hx. apply Hin. now right. }
  now rewrite Hcollect.
Qed.



(** X10: a panel [build_panel] returns is indexed by (firm, date); its
    column labels are distinct, ["sector"] is one of them, and every other
    one is an expected name, not ["date"], that labels a column of some
    firm sheet's table; every row has one value per column. *)
Theorem build_panel_shape :
  forall wb xlsx_path sector_label panel,
  build_panel to_datetime to_numeric wb xlsx_path sector_label = Ok panel ->
  index_names panel = ["firm"; "date"]
  /\ NoDup (columns panel)
  /\ In "sector" (columns panel)
  /\ (forall c, In c (columns panel) ->
        c = "sector"
        \/ (In c Config.EXPECTED_HEADERS /\ c <> "date"
            /\ exists firm t,
                 In firm (list_firm_sheets wb)
                 /\ read_firm_sheet to_datetime to_numeric wb xlsx_path firm
                      Config.HEADER_SCAN_START_ROW Config.HEADER_SCAN_MAX_ROWS
                    = Ok t
                 /\ In c (columns t)))
  /\ (forall row, In row (rows panel) ->
        List.length (snd row) = List.length (columns panel)).
Proof.
  exact (PanelShape.panel_invariant to_datetime to_numeric).
Qed.

(** X11: a firm whose sheet lacks a column of the panel has NaN under it
    in every one of its rows. *)
Theorem build_panel_fills_missing :
  forall wb xlsx_path sector_label panel firm t c,
  build_panel to_datetime to_numeric wb xlsx_path sector_label = Ok panel ->
  read_firm_sheet to_datetime to_numeric wb xlsx_path firm
    Config.HEADER_SCAN_START_ROW Config.HEADER_SCAN_MAX_ROWS = Ok t ->
  In c (columns panel) -> c <> "sector" -> ~ In c (columns t) ->
  forall row d,
    In row (rows panel) -> fst row = [VStr firm; d] ->
    cell_at c (columns panel) (snd row) = NaN.
Proof.
  intros wb xlsx_path sector_label panel firm t c H Ht Hc Hcs Hct row d Hr Hk.
  apply PanelShape.build_panel_Ok_panel_of in H as [Hne [Hread ->]].
  set (table := table_of to_datetime to_numeric wb xlsx_path) in *.
  cbn [columns rows panel_of] in *.
  apply (Permutation_in _ (SortFacts.sort_perm _)) in Hr.
  apply in_flat_map in Hr as [firm' [Hf Hr]].
  apply in_map_iff in Hr as [r [<- Hr]].
  cbn [fst snd panel_row] in *. injection Hk as -> _.
  assert (Htab : table firm = t).
  { unfold table, table_of, read_with_config. now rewrite Ht. }
  rewrite (FrameFacts.cell_at_gen (panel_value sector_label (table firm) r)
             c _); [| apply NoDup_filter, PanelFacts.dedup_NoDup | assumption].
  unfold panel_value.
  destruct (String.eqb_spec c "sector") as [-> | _]; [congruence|].
  rewrite Htab. now rewrite (proj2 (mem_false _ _) Hct).
Qed.

End PanelExtras.

Lemma build_panel_skips_worksheet_witness :
  same_firm_sheets Demo.wb Meta.wb
  /\ Sample.build_panel Demo.wb "banks.xlsx" "banks"
     = Sample.build_panel Meta.wb "banks.xlsx" "banks".
Proof.
  assert (H : same_firm_sheets Demo.wb Meta.wb).
  { split; [reflexivity|]. intros s Hs.
    unfold Demo.wb, Meta.wb, Sample.workbook_of, sheet_rows, sheet_frame,
      Sample.grid_of.
    cbn [find fst snd].
    destruct (String.eqb_spec "FirmB" s) as [_ | _]; [now split|].
    destruct (String.eqb_spec "Worksheet" s) as [E | _];
      [symmetry in E; contradiction|].
    now split. }
  split; [exact H|].
  exact (build_panel_skips_worksheet Sample.to_datetime Sample.to_numeric
           Demo.wb Meta.wb "banks.xlsx" "banks" H).
Defined.

Lemma build_panel_shape_witness :
  Sample.build_panel Demo.wb "banks.xlsx" "banks" = Ok DemoPanel.panel
  /\ index_names DemoPanel.panel = ["firm"; "date"]
  /\ NoDup (columns DemoPanel.panel)
  /\ In "sector" (columns DemoPanel.panel).
Proof.
  assert (H : build_panel Sample.to_datetime Sample.to_numeric
                Demo.wb "banks.xlsx" "banks" = Ok DemoPanel.panel)
    by (vm_compute; reflexivity).
  split; [exact H|].
  destruct (build_panel_shape Sample.to_datetime Sample.to_numeric
              Demo.wb "banks.xlsx" "banks" DemoPanel.panel H)
    as [Hi [Hnd [Hs _]]].
  split; [exact Hi|]. split; [exact Hnd | exact Hs].
Defined.

Lemma build_panel_fills_missing_witness :
  Sample.build_panel Demo.wb "banks.xlsx" "banks" = Ok DemoPanel.panel
  /\ Sample.read_firm_sheet Demo.wb "banks.xlsx" "FirmB"
       Config.HEADER_SCAN_START_ROW Config.HEADER_SCAN_MAX_ROWS
     = Ok (Demo.table "FirmB")
  /\ In "refinitiv_esg" (columns DemoPanel.panel)
  /\ ~ In "refinitiv_esg" (columns (Demo.table "FirmB"))
  /\ forall row d,
       In row (rows DemoPanel.panel) -> fst row = [VStr "FirmB"; d] ->
       cell_at "refinitiv_esg" (columns DemoPanel.panel) (snd row) = NaN.
Proof.
  assert (H : build_panel Sample.to_datetime Sample.to_numeric
                Demo.wb "banks.xlsx" "banks" = Ok DemoPanel.panel)
    by (vm_compute; reflexivity).
  assert (Ht : read_firm_sheet Sample.to_datetime Sample.to_numeric
                 Demo.wb "banks.xlsx" "FirmB"
                 Config.HEADER_SCAN_START_ROW Config.HEADER_SCAN_MAX_ROWS
               = Ok (Demo.table "FirmB")) by (vm_compute; reflexivity).
  assert (Hc : In "refinitiv_esg" (columns DemoPanel.panel))
    by (vm_compute; tauto).
  assert (Hn : ~ In "refinitiv_esg" (columns (Demo.table "FirmB")))
    by (vm_compute; intuition discriminate).
  split; [exact H|]. split; [exact Ht|]. split; [exact Hc|].
  split; [exact Hn|].
  apply (build_panel_fills_missing Sample.to_datetime Sample.to_numeric
           Demo.wb "banks.xlsx" "banks" DemoPanel.panel "FirmB"
           (Demo.table "FirmB") "refinitiv_esg" H Ht Hc).
  - discriminate.
  - exact Hn.
Defined.

(** ** The standardiser without its freshness condition *)

Module OverwriteFacts.
Import FrameFacts ReaderFacts ZFacts.

Lemma cells_at_set_at l l' cols : forall (r : list value) v,
  l' <> l -> cells_at l' cols (set_at l cols r v) = cells_at l' cols r.
Proof.
  unfold cells_at, set_at.
  induction cols as [|c cols IH]; intros r v Hne; [reflexivity|].
  destruct r as [|x r]; [reflexivity|]. cbn [combine map filter fst snd].
  destruct (String.eqb_spec c l') as [-> | Hc]; cbn [map snd].
  - destruct (String.eqb_spec l' l) as [E | _]; [contradiction|].
    f_equal. now apply IH.
  - now apply IH.
Qed.

Lemma length_set_at l cols (r : list value) v :
  List.length r = List.length cols ->
  List.length (set_at l cols r v) = List.length cols.
Proof.
  intros H. unfold set_at. rewrite length_map, length_combine. lia.
Qed.

Lemma setitem_overwrites l vals df :
  In l (columns df) -> List.length vals = List.length (rows df) ->
  index_names (setitem l vals df) = index_names df
  /\ columns (setitem l vals df) = columns df
  /\ Forall2 (overwritten l (columns df)) (rows df) (rows (setitem l vals df)).
Proof.
  intros Hin Hlen. unfold setitem. rewrite (proj2 (mem_In _ _) Hin).
  cbn [index_names columns rows]. repeat split.
  revert vals Hlen. induction (rows df) as [|r rs IH]; intros vals Hlen.
  - constructor.
  - destruct vals as [|v vals]; [discriminate|]. cbn [combine map].
    constructor; [| apply IH; now injection Hlen].
    split; [reflexivity | now exists v].
Qed.

Lemma overwritten_keys l cols rs rs' :
  Forall2 (overwritten l cols) rs rs' -> map fst rs' = map fst rs.
Proof.
  induction 1 as [|r r' rs rs' [Hk _] _ IH]; [reflexivity|].
  cbn [map]. now rewrite Hk, IH.
Qed.

Lemma overwritten_cells l l' cols rs rs' :
  l' <> l -> Forall2 (overwritten l cols) rs rs' ->
  map (fun r => cell_at l' cols (snd r)) rs'
  = map (fun r => cell_at l' cols (snd r)) rs.
Proof.
  intros Hne. induction 1 as [|r r' rs rs' [_ [v Hv]] _ IH]; [reflexivity|].
  cbn [map]. rewrite IH. f_equal. unfold cell_at.
  now rewrite Hv, cells_at_set_at.
Qed.

Lemma overwritten_wf l cols rs rs' :
  Forall (fun r => List.length (snd r) = List.length cols) rs ->
  Forall2 (overwritten l cols) rs rs' ->
  Forall (fun r => List.length (snd r) = List.length cols) rs'.
Proof.
  intros Hwf H. induction H as [|r r' rs rs' [_ [v Hv]] _ IH]; [constructor|].
  inversion Hwf as [|? ? Hr Hrs]; subst.
  constructor; [| now apply IH]. rewrite Hv. now apply length_set_at.
Qed.

Lemma extends_keys n rs rs' :
  Forall2 (extends n) rs rs' -> map fst rs' = map fst rs.
Proof.
  induction 1 as [|r r' rs rs' [Hk _] _ IH]; [reflexivity|].
  cbn [map]. now rewrite Hk, IH.
Qed.

(** [df[l] = vals] on a rectangular frame, whether [l] is new or not. *)
Lemma setitem_any l vals df :
  frame_wf df -> List.length vals = List.length (rows df) ->
  index_names (setitem l vals df) = index_names df
  /\ map fst (rows (setitem l vals df)) = map fst (rows df)
  /\ frame_wf (setitem l vals df)
  /\ (forall l', In l' (columns (setitem l vals df))
                 <-> In l' (columns df) \/ l' = l)
  /\ (forall l', In l' (columns df) -> l' <> l ->
        column l' (setitem l vals df) = column l' df).
Proof.
  intros Hwf Hlen. destruct (in_dec string_dec l (columns df)) as [Hin | Hnin].
  - destruct (setitem_overwrites l vals df Hin Hlen) as [Hi [Hc Hr]].
    split; [exact Hi|]. split; [now apply overwritten_keys in Hr|].
    split; [|split].
    + unfold frame_wf. rewrite Hc. now apply (overwritten_wf l _ (rows df)).
    + intros l'. rewrite Hc. split; [auto|]. intros [H | ->]; assumption.
    + intros l' _ Hne. unfold column. rewrite Hc.
      now apply (overwritten_cells l).
  - destruct (setitem_fresh l vals df Hnin Hlen) as [Hi [Hc Hr]].
    split; [exact Hi|]. split; [now apply extends_keys in Hr|].
    split; [|split].
    + now apply (frame_wf_extended df _ [l]).
    + intros l'. rewrite Hc, in_app_iff. cbn [In]. intuition congruence.
    + intros l' Hl' _. apply (column_extended 1 df); try assumption.
      now exists [l].
Qed.

Section Loop.

Variable series_mean : list value -> result value.
Variable series_std : list value -> result value.
Variable val_sub : value -> value -> result value.
Variable val_div : value -> value -> result value.

Lemma loop_preserves esg : forall g df df',
  frame_wf df ->
  add_esg_zscores_loop series_mean series_std val_sub val_div esg g df
  = Ok df' ->
  index_names df' = index_names df
  /\ map fst (rows df') = map fst (rows df)
  /\ frame_wf df'
  /\ (forall l, In l (columns df')
                <-> In l (columns df) \/ In l (map z_name esg))
  /\ (forall l, In l (columns df) -> ~ In l (map z_name esg) ->
        column l df' = column l df).
Proof.
  induction esg as [|col rest IH]; intros g df df' Hwf H.
  - injection H as <-. cbn [map In]. repeat split; tauto.
  - apply loop_step in H as [keys [x [z [_ [_ [_ [Hlen Hrest]]]]]]].
    destruct (setitem_any (z_name col) z df Hwf Hlen)
      as [Hi [Hk [Hwf1 [Hc Hv]]]].
    destruct (IH _ _ _ Hwf1 Hrest) as [Hi' [Hk' [Hwf' [Hc' Hv']]]].
    split; [congruence|]. split; [congruence|]. split; [assumption|].
    cbn [map In]. split.
    + intros l. rewrite Hc', Hc. intuition congruence.
    + intros l Hl Hn. rewrite Hv'.
      * apply Hv; [assumption|]. intros ->. apply Hn. now left.
      * apply Hc. now left.
      * intros H. apply Hn. now right.
Qed.

(** A target that is no column, and is not made one on the way, stops the
    loop. *)
Lemma loop_missing_target esg : forall g df c,
  In c esg -> ~ In c (columns df) -> ~ In c (map z_name esg) ->
  exists e,
    add_esg_zscores_loop series_mean series_std val_sub val_div esg g df
    = Raise e.
Proof.
  induction esg as [|col rest IH]; intros g df c Hin Hnc Hnz; [destruct Hin|].
  destruct (add_esg_zscores_loop _ _ _ _ (col :: rest) g df) as [df' | e] eqn:E;
    [| now exists e].
  exfalso.
  apply loop_step in E as [keys [x [z [_ [Hget [_ [Hlen Hrest]]]]]]].
  assert (Hcol : In col (columns df)).
  { apply label_count_pos. unfold getitem in Hget. unfold label_count.
    destruct (List.length (filter (String.eqb col) (columns df)));
      [discriminate | lia]. }
  assert (Hne : c <> col) by (intros ->; contradiction).
  destruct Hin as [Hin | Hin]; [congruence|].
  destruct (IH g (setitem (z_name col) z df) c Hin) as [e He].
  - unfold setitem. destruct (mem (z_name col) (columns df));
      cbn [columns]; [assumption|].
    rewrite in_app_iff. cbn [In]. intros [H | [H | []]]; [contradiction|].
    apply Hnz. left. exact H.
  - intros H. apply Hnz. now right.
  - congruence.
Qed.

End Loop.

End OverwriteFacts.

Section StandardiserExtras.

Variable series_mean : list value -> result value.
Variable series_std : list value -> result value.
Variable val_sub : value -> value -> result value.
Variable val_div : value -> value -> result value.

(** X12: when [group_col] names neither a column nor an index level,
    [add_esg_zscores] raises [KeyError group_col] as soon as there is a
    target, whatever the targets are; with no target the frame comes back
    as it is and the group column is not looked for. *)
Theorem add_esg_zscores_missing_group :
  forall df esg_cols group_col,
  label_count group_col (columns df) = 0%nat ->
  label_count group_col (index_names df) = 0%nat ->
  add_esg_zscores series_mean series_std val_sub val_div df esg_cols group_col
  = match esg_cols with
    | [] => Ok df
    | _ :: _ => Raise (KeyError group_col)
    end.
Proof.
  intros df esg_cols group_col Hc Hi. unfold add_esg_zscores.
  destruct esg_cols as [|col rest]; [reflexivity|].
  cbn [add_esg_zscores_loop]. unfold group_keys.
  unfold label_count in Hc, Hi. now rewrite Hc, Hi.
Qed.

(** X13: a target that is not a column of the frame, and is not the
    z-score name of another target, makes [add_esg_zscores] raise; when
    it is the first target and the grouping itself goes through, the
    exception is a [KeyError]. *)
Theorem add_esg_zscores_missing_target :
  forall df esg_cols group_col col,
  In col esg_cols -> ~ In col (columns df) ->
  (forall c, In c esg_cols -> col <> c ++ "_z") ->
  (exists e,
     add_esg_zscores series_mean series_std val_sub val_div
       df esg_cols group_col = Raise e)
  /\ (forall keys,
        hd_error esg_cols = Some col ->
        group_keys group_col df = Ok keys ->
        exists msg,
          add_esg_zscores series_mean series_std val_sub val_div
            df esg_cols group_col = Raise (KeyError msg)).
Proof.
  intros df esg_cols group_col col Hin Hnc Hnz. split.
  - apply (OverwriteFacts.loop_missing_target _ _ _ _ esg_cols group_col df col);
      try assumption.
    intros H. apply in_map_iff in H as [c [Hc Hcin]].
    apply (Hnz c Hcin). now rewrite <- Hc.
  - intros keys Hhd Hk. destruct esg_cols as [|c rest]; [discriminate|].
    injection Hhd as ->. unfold add_esg_zscores.
    cbn [add_esg_zscores_loop]. rewrite Hk. cbn [bind].
    unfold getitem.
    rewrite (ReaderFacts.label_count_absent col (columns df) Hnc
             : List.length (filter (String.eqb col) (columns df)) = 0%nat).
    now exists col.
Qed.

(** X14: on a rectangular frame [add_esg_zscores] keeps the index names,
    the row keys in their order and the rectangular shape; the labels of
    the result are those of the frame and the z-score names of the
    targets; and every column that is not named as a z-score of a target
    keeps its values, also when other columns are overwritten. *)
Theorem add_esg_zscores_preserves :
  forall df esg_cols group_col df',
  frame_wf df ->
  add_esg_zscores series_mean series_std val_sub val_div df esg_cols group_col
  = Ok df' ->
  index_names df' = index_names df
  /\ map fst (rows df') = map fst (rows df)
  /\ frame_wf df'
  /\ (forall l, In l (columns df')
                <-> In l (columns df)
                    \/ exists c, In c esg_cols /\ l = c ++ "_z")
  /\ (forall l, In l (columns df) ->
        (forall c, In c esg_cols -> l <> c ++ "_z") ->
        column l df' = column l df).
Proof.
  intros df esg_cols group_col df' Hwf H.
  destruct (OverwriteFacts.loop_preserves _ _ _ _ esg_cols group_col df df'
              Hwf H) as [Hi [Hk [Hwf' [Hc Hv]]]].
  assert (Hz : forall l, In l (map z_name esg_cols)
                         <-> exists c, In c esg_cols /\ l = c ++ "_z").
  { intros l. rewrite in_map_iff. unfold z_name.
    split; intros [c [H1 H2]]; exists c; now split. }
  repeat split; try assumption.
  - intros Hl. apply Hc in Hl. now rewrite <- Hz.
  - intros Hl. apply Hc. now rewrite Hz.
  - intros l Hl Hn. apply Hv; [assumption|].
    intros Hm. apply Hz in Hm as [c [Hcin ->]]. now apply (Hn c).
Qed.

End StandardiserExtras.

Module RerunFacts.
Import FrameFacts ReaderFacts ZFacts OverwriteFacts.

Lemma NoDup_z_names esg : NoDup esg -> NoDup (map z_name esg).
Proof.
  induction 1 as [|c esg Hc _ IH]; cbn [map]; constructor; [| assumption].
  intros H. apply in_map_iff in H as [c' [E Hc']].
  apply z_name_inj in E. now subst.
Qed.

Lemma set_at_absent l cols : forall (r : list value) v,
  ~ In l cols -> List.length r = List.length cols -> set_at l cols r v = r.
Proof.
  unfold set_at. induction cols as [|c cols IH]; intros r v Hn Hlen.
  - destruct r; [reflexivity | discriminate].
  - destruct r as [|x r]; [discriminate|]. cbn [combine map fst snd].
    destruct (String.eqb_spec c l) as [-> | _]; [exfalso; apply Hn; now left|].
    f_equal. apply IH; [| now injection Hlen].
    intros H. apply Hn. now right.
Qed.

Lemma set_at_same l cols : forall (r : list value),
  label_count l cols = 1%nat -> List.length r = List.length cols ->
  set_at l cols r (cell_at l cols r) = r.
Proof.
  induction cols as [|c cols IH]; intros r Hc Hlen; [discriminate|].
  destruct r as [|x r]; [discriminate|]. injection Hlen as Hlen.
  unfold label_count in Hc. cbn [filter] in Hc.
  unfold cell_at, cells_at, set_at. cbn [combine map filter fst snd].
  rewrite (String.eqb_sym c l).
  destruct (String.eqb_spec l c) as [-> | Hne].
  - cbn [map hd snd]. f_equal. apply set_at_absent; [| assumption].
    intros H. apply label_count_pos in H. unfold label_count in H.
    cbn [List.length] in Hc. lia.
  - f_equal. apply (IH r); assumption.
Qed.

(** Writing a column back over itself changes nothing. *)
Lemma setitem_same l df :
  label_count l (columns df) = 1%nat -> frame_wf df ->
  setitem l (column l df) df = df.
Proof.
  intros Hc Hwf. unfold setitem.
  rewrite (proj2 (mem_In _ _) (label_count_In _ _ Hc)).
  destruct df as [idx cols rs]. unfold column, frame_wf in *.
  cbn [index_names columns rows] in *. f_equal.
  induction rs as [|r rs IH]; [reflexivity|].
  inversion Hwf as [|? ? Hr Hrs]; subst. cbn [map combine fst snd].
  rewrite (IH Hrs), (set_at_same l cols (snd r) Hc Hr).
  now destruct r.
Qed.

Lemma cell_at_last l cols : forall (r : list value) v,
  ~ In l cols -> List.length r = List.length cols ->
  cell_at l (cols ++ [l]) (r ++ [v]) = v.
Proof.
  unfold cell_at, cells_at.
  induction cols as [|c cols IH]; intros r v Hn Hlen.
  - destruct r; [| discriminate]. cbn. now rewrite String.eqb_refl.
  - destruct r as [|x r]; [discriminate|]. cbn [app combine filter fst].
    destruct (String.eqb_spec c l) as [-> | _]; [exfalso; apply Hn; now left|].
    apply IH; [| now injection Hlen]. intros H. apply Hn. now right.
Qed.

(** A new column holds the values it was given. *)
Lemma column_setitem_fresh l vals df :
  ~ In l (columns df) -> frame_wf df ->
  List.length vals = List.length (rows df) ->
  column l (setitem l vals df) = vals.
Proof.
  intros Hn Hwf Hlen. unfold setitem, column.
  rewrite (proj2 (mem_false _ _) Hn). cbn [columns rows].
  unfold frame_wf in Hwf. revert vals Hlen.
  induction (rows df) as [|r rs IH]; intros vals Hlen.
  - destruct vals; [reflexivity | discriminate].
  - destruct vals as [|v vals]; [discriminate|].
    inversion Hwf as [|? ? Hr Hrs]; subst. cbn [combine map fst snd].
    rewrite (IH Hrs vals) by now injection Hlen.
    now rewrite cell_at_last.
Qed.

Lemma extends_key_map {B : Type} (f : list value -> B) n rs rs' :
  Forall2 (extends n) rs rs' ->
  map (fun r => f (fst r)) rs' = map (fun r => f (fst r)) rs.
Proof.
  intros H. apply extends_keys in H.
  rewrite <- (map_map fst f rs'), <- (map_map fst f rs). now rewrite H.
Qed.

(** The keys of a grouping that goes through on a frame and on an
    extension of it are the same. *)
Lemma group_keys_extended g d d1 n keys keys1 :
  frame_wf d -> index_names d1 = index_names d ->
  (exists new, columns d1 = (columns d ++ new)%list) ->
  Forall2 (extends n) (rows d) (rows d1) ->
  group_keys g d = Ok keys -> group_keys g d1 = Ok keys1 -> keys1 = keys.
Proof.
  intros Hwf Hi [new Hc] Hr H H1. unfold group_keys in H, H1.
  rewrite Hi, Hc, filter_app, length_app in H1.
  destruct (List.length (filter (String.eqb g) (columns d))) as [|[|a]] eqn:Ea;
    destruct (List.length (filter (String.eqb g) (index_names d))) as [|i];
    try discriminate.
  - cbn [Nat.add] in H1.
    destruct (List.length (filter (String.eqb g) new)) as [|[|b]];
      cbv iota in H1; try discriminate H1.
    injection H as <-. injection H1 as <-.
    now apply (extends_key_map (cell_at g (index_names d)) n).
  - cbn [Nat.add] in H1.
    destruct (List.length (filter (String.eqb g) new)) as [|[|b]];
      cbv iota in H1; try discriminate H1.
    injection H as <-. injection H1 as <-.
    apply (column_extended n d); try assumption.
    + apply label_count_pos. unfold label_count. lia.
    + now exists new.
Qed.

(** A grouping is not touched by new columns of other names. *)
Lemma group_keys_same g d d1 n new :
  frame_wf d -> index_names d1 = index_names d ->
  columns d1 = (columns d ++ new)%list -> ~ In g new ->
  Forall2 (extends n) (rows d) (rows d1) ->
  group_keys g d1 = group_keys g d.
Proof.
  intros Hwf Hi Hc Hn Hr. unfold group_keys.
  rewrite Hi, Hc, filter_app, length_app.
  rewrite (label_count_absent g new Hn
           : List.length (filter (String.eqb g) new) = 0%nat), Nat.add_0_r.
  destruct (List.length (filter (String.eqb g) (columns d))) as [|[|a]] eqn:Ea;
    destruct (List.length (filter (String.eqb g) (index_names d))) as [|i];
    try reflexivity.
  - f_equal. now apply (extends_key_map (cell_at g (index_names d)) n).
  - f_equal. apply (column_extended n d); try assumption.
    + apply label_count_pos. unfold label_count. lia.
    + now exists new.
Qed.

Section Loop.

Variable series_mean : list value -> result value.
Variable series_std : list value -> result value.
Variable val_sub : value -> value -> result value.
Variable val_div : value -> value -> result value.

Lemma fresh_rest col rest d z :
  NoDup (col :: rest) ->
  (forall c, In c (col :: rest) -> ~ In (z_name c) (columns d)) ->
  List.length z = List.length (rows d) ->
  NoDup rest
  /\ (forall c, In c rest ->
        ~ In (z_name c) (columns (setitem (z_name col) z d))).
Proof.
  intros Hnd Hf Hlen. inversion Hnd as [|? ? Hcol Hrest]; subst.
  split; [assumption|]. intros c Hc.
  destruct (setitem_fresh (z_name col) z d (Hf col (or_introl eq_refl)) Hlen)
    as [_ [-> _]].
  rewrite in_app_iff. cbn [In]. intros [H | [H | []]].
  - apply (Hf c); [now right | assumption].
  - apply z_name_inj in H. congruence.
Qed.

(** Every z-score column of the result is the group-wise transform of
    its target column as the result has it. *)
Lemma loop_values esg : forall g d df',
  frame_wf d -> NoDup esg ->
  (forall c, In c esg -> ~ In (z_name c) (columns d)) ->
  add_esg_zscores_loop series_mean series_std val_sub val_div esg g d
  = Ok df' ->
  forall c, In c esg ->
    label_count c (columns df') = 1%nat
    /\ exists keys,
         group_keys g d = Ok keys
         /\ groupby_transform (zscore series_mean series_std val_sub val_div)
              keys (column c df') = Ok (column (z_name c) df').
Proof.
  induction esg as [|col rest IH]; intros g d df' Hwf Hnd Hf H c Hc;
    [destruct Hc|].
  pose proof H as Hloop.
  apply loop_step in H as [keys [x [z [Hk [Hget [Hz [Hlen Hrest]]]]]]].
  destruct (fresh_rest col rest d z Hnd Hf Hlen) as [Hnd' Hf'].
  assert (Hfc : ~ In (z_name col) (columns d)) by (apply Hf; now left).
  destruct (setitem_fresh (z_name col) z d Hfc Hlen) as [Hi1 [Hc1 Hr1]].
  assert (Hwf1 : frame_wf (setitem (z_name col) z d))
    by now apply (frame_wf_extended d _ [z_name col]).
  destruct (loop_frame _ _ _ _ rest g _ df' Hnd' Hf' Hrest) as [Hi2 [Hc2 Hr2]].
  assert (Hcount : label_count col (columns d) = 1%nat).
  { unfold getitem in Hget. unfold label_count.
    destruct (List.length (filter (String.eqb col) (columns d))) as [|[|k]];
      [discriminate | reflexivity | discriminate]. }
  assert (Hx : x = column col d).
  { unfold getitem in Hget. unfold label_count in Hcount.
    rewrite Hcount in Hget. now injection Hget. }
  destruct Hc as [<- | Hc].
  - split.
    + rewrite Hc2, Hc1, !label_count_app, Hcount.
      assert (Hzc : col <> z_name col).
      { intros E. apply (f_equal String.length) in E.
        unfold z_name in E. rewrite str_length_app in E. cbn in E. lia. }
      assert (Hn : ~ In col (map z_name rest)).
      { intros Hm. apply in_map_iff in Hm as [c' [E Hc']].
        apply (Hf c'); [now right|]. rewrite E.
        now apply label_count_In. }
      rewrite (label_count_absent col (map z_name rest) Hn).
      unfold label_count. cbn [filter].
      destruct (String.eqb_spec col (z_name col)); [contradiction|].
      reflexivity.
    + exists keys. split; [assumption|].
      assert (E1 : column col df' = x).
      { rewrite Hx.
        rewrite (column_extended (List.length rest) _ df' col Hwf1);
          try assumption.
        - apply (column_extended 1 d); try assumption.
          + now apply label_count_In.
          + now exists [z_name col].
        - rewrite Hc1, in_app_iff. left. now apply label_count_In.
        - now exists (map z_name rest). }
      assert (E2 : column (z_name col) df' = z).
      { rewrite (column_extended (List.length rest) _ df' (z_name col) Hwf1);
          try assumption.
        - now apply column_setitem_fresh.
        - rewrite Hc1, in_app_iff. right. now left.
        - now exists (map z_name rest). }
      now rewrite E1, E2.
  - destruct (IH g _ df' Hwf1 Hnd' Hf' Hrest c Hc) as [Hcnt [keys1 [Hk1 Ht]]].
    split; [assumption|]. exists keys. split; [assumption|].
    rewrite <- (group_keys_extended g d _ 1 keys keys1 Hwf Hi1
                  (ex_intro _ [z_name col] Hc1) Hr1 Hk Hk1).
    exact Ht.
Qed.

(** The loop over targets whose z-score columns the frame has already,
    with the values the loop would compute, leaves the frame as it is. *)
Lemma loop_fixed g df keys : forall rest,
  frame_wf df -> group_keys g df = Ok keys ->
  (forall c, In c rest ->
     label_count c (columns df) = 1%nat
     /\ label_count (z_name c) (columns df) = 1%nat
     /\ groupby_transform (zscore series_mean series_std val_sub val_div)
          keys (column c df) = Ok (column (z_name c) df)) ->
  add_esg_zscores_loop series_mean series_std val_sub val_div rest g df
  = Ok df.
Proof.
  induction rest as [|col rest IH]; intros Hwf Hk Hall; [reflexivity|].
  destruct (Hall col (or_introl eq_refl)) as [Hc [Hzc Ht]].
  cbn [add_esg_zscores_loop]. rewrite Hk. cbn [bind]. unfold getitem.
  unfold label_count in Hc. rewrite Hc. cbn [bind]. rewrite Ht. cbn [bind].
  fold (z_name col). rewrite (setitem_same _ _ Hzc Hwf).
  apply IH; try assumption. intros c Hin. apply Hall. now right.
Qed.

End Loop.

End RerunFacts.

Section RerunExtras.

Variable series_mean : list value -> result value.
Variable series_std : list value -> result value.
Variable val_sub : value -> value -> result value.
Variable val_div : value -> value -> result value.

(** X15: with distinct targets whose z-score names are new to a
    rectangular frame, every z-score column of the result holds the
    group-wise transform, by the keys of the frame given, of its target
    column as the result has it: no target is standardised from values
    the loop changed. *)
Theorem add_esg_zscores_values :
  forall df esg_cols group_col df',
  frame_wf df -> NoDup esg_cols ->
  (forall c, In c esg_cols -> ~ In (c ++ "_z") (columns df)) ->
  add_esg_zscores series_mean series_std val_sub val_div df esg_cols group_col
  = Ok df' ->
  forall c, In c esg_cols ->
    exists keys,
      group_keys group_col df = Ok keys
      /\ groupby_transform (zscore series_mean series_std val_sub val_div)
           keys (column c df') = Ok (column (c ++ "_z") df').
Proof.
  intros df esg_cols group_col df' Hwf Hnd Hf H c Hc.
  now destruct (RerunFacts.loop_values _ _ _ _ esg_cols group_col df df'
                  Hwf Hnd Hf H c Hc) as [_ Hv].
Qed.

(** X16: standardising the result of a standardisation again, with the
    same targets and group column, gives that result back: under the
    conditions of X15, and with a group column that is not the z-score
    name of a target, the second call returns its argument. *)
Theorem add_esg_zscores_idempotent :
  forall df esg_cols group_col df',
  frame_wf df -> NoDup esg_cols ->
  (forall c, In c esg_cols -> ~ In (c ++ "_z") (columns df)) ->
  (forall c, In c esg_cols -> group_col <> c ++ "_z") ->
  add_esg_zscores series_mean series_std val_sub val_div df esg_cols group_col
  = Ok df' ->
  add_esg_zscores series_mean series_std val_sub val_div df' esg_cols group_col
  = Ok df'.
Proof.
  intros df esg_cols group_col df' Hwf Hnd Hf Hg H.
  assert (Hcase : esg_cols = [] \/ exists col, In col esg_cols).
  { destruct esg_cols as [|col rest]; [now left|]. right. exists col. now left. }
  destruct Hcase as [-> | [col Hin]]; [reflexivity|].
  destruct (ZFacts.loop_frame _ _ _ _ esg_cols group_col df df' Hnd Hf H)
    as [Hi [Hc Hr]].
  assert (Hwf' : frame_wf df').
  { apply (ZFacts.frame_wf_extended df df' (map z_name esg_cols));
      try assumption. now rewrite length_map. }
  destruct (RerunFacts.loop_values _ _ _ _ esg_cols group_col df df'
              Hwf Hnd Hf H col Hin) as [_ [keys [Hk _]]].
  assert (Hk' : group_keys group_col df' = Ok keys).
  { rewrite <- Hk.
    apply (RerunFacts.group_keys_same group_col df df'
             (List.length esg_cols) (map z_name esg_cols)); try assumption.
    intros Hm. apply in_map_iff in Hm as [c [E Hcin]].
    apply (Hg c Hcin). now rewrite <- E. }
  apply (RerunFacts.loop_fixed _ _ _ _ group_col df' keys esg_cols Hwf' Hk').
  intros c Hcin.
  destruct (RerunFacts.loop_values _ _ _ _ esg_cols group_col df df'
              Hwf Hnd Hf H c Hcin) as [Hcnt [keys1 [Hk1 Ht]]].
  split; [assumption|]. split.
  - rewrite Hc, ReaderFacts.label_count_app.
    rewrite (ReaderFacts.label_count_absent (z_name c) _ (Hf c Hcin)).
    apply FrameFacts.label_count_NoDup.
    + now apply RerunFacts.NoDup_z_names.
    + now apply in_map.
  - assert (keys1 = keys) by congruence. now subst.
Qed.

End RerunExtras.

Lemma add_esg_zscores_missing_group_witness :
  label_count "industry" (columns Rerun.df0) = 0%nat
  /\ label_count "industry" (index_names Rerun.df0) = 0%nat
  /\ Sample.add_esg_zscores Rerun.df0 ["bloomberg_esg"] "industry"
     = Raise (KeyError "industry").
Proof.
  split; [reflexivity|]. split; [reflexivity|].
  exact (add_esg_zscores_missing_group Sample.series_mean Sample.series_std
           Sample.val_sub Sample.val_div Rerun.df0 ["bloomberg_esg"]
           "industry" eq_refl eq_refl).
Defined.

Lemma add_esg_zscores_missing_target_witness :
  ~ In "refinitiv_esg" (columns Rerun.df0)
  /\ (exists e,
        Sample.add_esg_zscores Rerun.df0 ["bloomberg_esg"; "refinitiv_esg"]
          "sector" = Raise e)
  /\ exists msg,
       Sample.add_esg_zscores Rerun.df0 ["refinitiv_esg"; "bloomberg_esg"]
         "sector" = Raise (KeyError msg).
Proof.
  assert (Hn : ~ In "refinitiv_esg" (columns Rerun.df0))
    by (vm_compute; intuition discriminate).
  assert (Hz : forall c, In c ["bloomberg_esg"; "refinitiv_esg"] ->
                 "refinitiv_esg" <> c ++ "_z")
    by (intros c [<- | [<- | []]]; discriminate).
  assert (Hz' : forall c, In c ["refinitiv_esg"; "bloomberg_esg"] ->
                  "refinitiv_esg" <> c ++ "_z")
    by (intros c [<- | [<- | []]]; discriminate).
  split; [exact Hn|]. split.
  - exact (proj1 (add_esg_zscores_missing_target Sample.series_mean
                    Sample.series_std Sample.val_sub Sample.val_div Rerun.df0
                    ["bloomberg_esg"; "refinitiv_esg"] "sector" "refinitiv_esg"
                    (or_intror (or_introl eq_refl)) Hn Hz)).
  - exact (proj2 (add_esg_zscores_missing_target Sample.series_mean
                    Sample.series_std Sample.val_sub Sample.val_div Rerun.df0
                    ["refinitiv_esg"; "bloomberg_esg"] "sector" "refinitiv_esg"
                    (or_introl eq_refl) Hn Hz')
             (column "sector" Rerun.df0) eq_refl eq_refl).
Defined.

Lemma add_esg_zscores_preserves_witness :
  frame_wf Rerun.df
  /\ exists df',
       Sample.add_esg_zscores Rerun.df ["bloomberg_esg"] "sector" = Ok df'
       /\ index_names df' = index_names Rerun.df
       /\ map fst (rows df') = map fst (rows Rerun.df)
       /\ column "bloomberg_esg" df' = column "bloomberg_esg" Rerun.df
       /\ column "sector" df' = column "sector" Rerun.df.
Proof.
  assert (Hwf : frame_wf Rerun.df) by (vm_compute; repeat constructor).
  split; [exact Hwf|].
  destruct (add_esg_zscores Sample.series_mean Sample.series_std
              Sample.val_sub Sample.val_div Rerun.df ["bloomberg_esg"]
              "sector") as [df' | e] eqn:E; [| vm_compute in E; discriminate E].
  exists df'. split; [exact E|].
  destruct (add_esg_zscores_preserves Sample.series_mean Sample.series_std
              Sample.val_sub Sample.val_div Rerun.df ["bloomberg_esg"]
              "sector" df' Hwf E) as [Hi [Hk [_ [_ Hv]]]].
  split; [exact Hi|]. split; [exact Hk|].
  assert (Hz : forall l, l = "bloomberg_esg" \/ l = "sector" ->
                 forall c, In c ["bloomberg_esg"] -> l <> c ++ "_z").
  { intros l Hl c [<- | []]. destruct Hl as [-> | ->]; discriminate. }
  split; apply Hv; try (vm_compute; tauto); apply Hz; tauto.
Defined.

Lemma add_esg_zscores_values_witness :
  frame_wf Rerun.df0
  /\ NoDup ["bloomberg_esg"]
  /\ (forall c, In c ["bloomberg_esg"] -> ~ In (c ++ "_z") (columns Rerun.df0))
  /\ Sample.add_esg_zscores Rerun.df0 ["bloomberg_esg"] "firm" = Ok Rerun.df
  /\ exists keys,
       group_keys "firm" Rerun.df0 = Ok keys
       /\ groupby_transform
            (zscore Sample.series_mean Sample.series_std
               Sample.val_sub Sample.val_div)
            keys (column "bloomberg_esg" Rerun.df)
          = Ok (column "bloomberg_esg_z" Rerun.df).
Proof.
  assert (Hwf : frame_wf Rerun.df0) by (vm_compute; repeat constructor).
  assert (Hnd : NoDup ["bloomberg_esg"]) by (repeat constructor; intros []).
  assert (Hf : forall c, In c ["bloomberg_esg"] ->
                 ~ In (c ++ "_z") (columns Rerun.df0)).
  { intros c [<- | []]. vm_compute. intuition discriminate. }
  assert (H : add_esg_zscores Sample.series_mean Sample.series_std
                Sample.val_sub Sample.val_div Rerun.df0 ["bloomberg_esg"]
                "firm" = Ok Rerun.df) by (vm_compute; reflexivity).
  split; [exact Hwf|]. split; [exact Hnd|]. split; [exact Hf|].
  split; [exact H|].
  exact (add_esg_zscores_values Sample.series_mean Sample.series_std
           Sample.val_sub Sample.val_div Rerun.df0 ["bloomberg_esg"] "firm"
           Rerun.df Hwf Hnd Hf H "bloomberg_esg" (or_introl eq_refl)).
Defined.

Lemma add_esg_zscores_idempotent_witness :
  Sample.add_esg_zscores Rerun.df0 ["bloomberg_esg"] "firm" = Ok Rerun.df
  /\ Sample.add_esg_zscores Rerun.df ["bloomberg_esg"] "firm" = Ok Rerun.df.
Proof.
  assert (Hwf : frame_wf Rerun.df0) by (vm_compute; repeat constructor).
  assert (Hnd : NoDup ["bloomberg_esg"]) by (repeat constructor; intros []).
  assert (Hf : forall c, In c ["bloomberg_esg"] ->
                 ~ In (c ++ "_z") (columns Rerun.df0)).
  { intros c [<- | []]. vm_compute. intuition discriminate. }
  assert (Hg : forall c, In c ["bloomberg_esg"] -> "firm" <> c ++ "_z").
  { intros c [<- | []]. discriminate. }
  assert (H : add_esg_zscores Sample.series_mean Sample.series_std
                Sample.val_sub Sample.val_div Rerun.df0 ["bloomberg_esg"]
                "firm" = Ok Rerun.df) by (vm_compute; reflexivity).
  split; [exact H|].
  exact (add_esg_zscores_idempotent Sample.series_mean Sample.series_std
           Sample.val_sub Sample.val_div Rerun.df0 ["bloomberg_esg"] "firm"
           Rerun.df Hwf Hnd Hf Hg H).
Defined.

Module GroupFacts.
Import FrameFacts ReaderFacts ZFacts.

Lemma mapM_length {A B : Type} (f : A -> result B) l : forall bs,
  mapM f l = Ok bs -> List.length bs = List.length l.
Proof.
  induction l as [|a l IH]; intros bs H.
  - now injection H as <-.
  - cbn [mapM] in H. apply bind_Ok in H as [b [_ H]].
    apply bind_Ok in H as [bs' [Hbs H]]. injection H as <-.
    cbn [List.length]. f_equal. now apply IH.
Qed.

Lemma filter_notna_str s n :
  filter notna (repeat (VStr s) n) = repeat (VStr s) n.
Proof. induction n as [|n IH]; [reflexivity|]. cbn. now rewrite IH. Qed.

Lemma distinct_keys_str s n :
  distinct_keys (repeat (VStr s) (S n)) = [VStr s].
Proof.
  induction n as [|n IH]; [reflexivity|].
  change (repeat (VStr s) (S (S n))) with (VStr s :: repeat (VStr s) (S n)).
  cbn [distinct_keys] in *. rewrite IH. cbn [filter value_eqb].
  now rewrite String.eqb_refl.
Qed.

Lemma group_values_str s n : forall x : list value,
  List.length x = n -> group_values (VStr s) (repeat (VStr s) n) x = x.
Proof.
  unfold group_values. induction n as [|n IH]; intros x Hlen.
  - destruct x; [reflexivity | discriminate].
  - destruct x as [|v x]; [discriminate|].
    cbn [repeat combine filter fst value_eqb]. rewrite String.eqb_refl.
    cbn [map snd]. f_equal. apply IH. now injection Hlen.
Qed.

Lemma scatter_str s n : forall zs : list value,
  List.length zs = n -> scatter (repeat (VStr s) n) [(VStr s, zs)] = zs.
Proof.
  induction n as [|n IH]; intros zs Hlen.
  - destruct zs; [reflexivity | discriminate].
  - destruct zs as [|z zs]; [discriminate|].
    cbn [repeat scatter notna take_output value_eqb].
    rewrite String.eqb_refl. f_equal. apply IH. now injection Hlen.
Qed.

(** With one key on every row the transform is applied to the whole
    column. *)
Lemma groupby_transform_str (f : list value -> result (list value)) s n x :
  (forall zs, f x = Ok zs -> List.length zs = List.length x) ->
  List.length x = S n ->
  groupby_transform f (repeat (VStr s) (S n)) x = f x.
Proof.
  intros Hf Hlen. unfold groupby_transform.
  rewrite filter_notna_str, distinct_keys_str. cbn [mapM].
  rewrite (group_values_str s (S n) x Hlen).
  destruct (f x) as [zs | e] eqn:E; [| reflexivity]. cbn [bind].
  rewrite scatter_str; [reflexivity|]. rewrite (Hf zs eq_refl). exact Hlen.
Qed.

Lemma extends_length n rs rs' :
  Forall2 (extends n) rs rs' -> List.length rs' = List.length rs.
Proof. induction 1; cbn [List.length]; congruence. Qed.

Section Loop.

Variable series_mean : list value -> result value.
Variable series_std : list value -> result value.
Variable val_sub : value -> value -> result value.
Variable val_div : value -> value -> result value.

Lemma zscore_length x zs :
  zscore series_mean series_std val_sub val_div x = Ok zs ->
  List.length zs = List.length x.
Proof.
  unfold zscore. intros H.
  apply bind_Ok in H as [m [_ H]]. apply bind_Ok in H as [d [Hd H]].
  apply bind_Ok in H as [sd [_ H]].
  apply mapM_length in H. apply mapM_length in Hd. congruence.
Qed.

Lemma loop_single_group esg g df df' s :
  frame_wf df -> NoDup esg ->
  (forall c, In c esg -> ~ In (z_name c) (columns df)) ->
  rows df <> [] ->
  group_keys g df = Ok (repeat (VStr s) (List.length (rows df))) ->
  add_esg_zscores_loop series_mean series_std val_sub val_div esg g df
  = Ok df' ->
  forall c, In c esg ->
    zscore series_mean series_std val_sub val_div (column c df')
    = Ok (column (z_name c) df').
Proof.
  intros Hwf Hnd Hf Hne Hk H c Hc.
  destruct (RerunFacts.loop_values _ _ _ _ esg g df df' Hwf Hnd Hf H c Hc)
    as [_ [keys [Hk' Ht]]].
  assert (keys = repeat (VStr s) (List.length (rows df))) by congruence.
  subst keys.
  destruct (loop_frame _ _ _ _ esg g df df' Hnd Hf H) as [_ [_ Hr]].
  apply extends_length in Hr.
  destruct (List.length (rows df)) as [|n] eqn:En.
  - destruct (rows df); [congruence | discriminate].
  - rewrite groupby_transform_str in Ht; [exact Ht | |].
    + intros zs. apply zscore_length.
    + unfold column. now rewrite length_map.
Qed.

End Loop.

End GroupFacts.

Section GroupExtras.

Variable series_mean : list value -> result value.
Variable series_std : list value -> result value.
Variable val_sub : value -> value -> result value.
Variable val_div : value -> value -> result value.

(** X20: when every row of the frame has the same string as its group
    key there is one group, and every z-score column of the result is
    [(x - x.mean()) / x.std()] of its whole target column. *)
Theorem add_esg_zscores_single_group :
  forall df esg_cols group_col df' s,
  frame_wf df -> NoDup esg_cols ->
  (forall c, In c esg_cols -> ~ In (c ++ "_z") (columns df)) ->
  rows df <> [] ->
  group_keys group_col df = Ok (repeat (VStr s) (List.length (rows df))) ->
  add_esg_zscores series_mean series_std val_sub val_div df esg_cols group_col
  = Ok df' ->
  forall c, In c esg_cols ->
    zscore series_mean series_std val_sub val_div (column c df')
    = Ok (column (c ++ "_z") df').
Proof.
  intros df esg_cols group_col df' s Hwf Hnd Hf Hne Hk H c Hc.
  exact (GroupFacts.loop_single_group _ _ _ _ esg_cols group_col df df' s
           Hwf Hnd Hf Hne Hk H c Hc).
Qed.

End GroupExtras.

Lemma add_esg_zscores_single_group_witness :
  exists df',
    Sample.add_esg_zscores Rerun.df0 ["bloomberg_esg"] "sector" = Ok df'
    /\ group_keys "sector" Rerun.df0
       = Ok (repeat (VStr "banks") (List.length (rows Rerun.df0)))
    /\ zscore Sample.series_mean Sample.series_std Sample.val_sub
         Sample.val_div (column "bloomberg_esg" df')
       = Ok (column "bloomberg_esg_z" df').
Proof.
  assert (Hwf : frame_wf Rerun.df0) by (vm_compute; repeat constructor).
  assert (Hnd : NoDup ["bloomberg_esg"]) by (repeat constructor; intros []).
  assert (Hf : forall c, In c ["bloomberg_esg"] ->
                 ~ In (c ++ "_z") (columns Rerun.df0)).
  { intros c [<- | []]. vm_compute. intuition discriminate. }
  assert (Hne : rows Rerun.df0 <> []) by discriminate.
  assert (Hk : group_keys "sector" Rerun.df0
               = Ok (repeat (VStr "banks") (List.length (rows Rerun.df0))))
    by reflexivity.
  destruct (add_esg_zscores Sample.series_mean Sample.series_std
              Sample.val_sub Sample.val_div Rerun.df0 ["bloomberg_esg"]
              "sector") as [df' | e] eqn:E; [| vm_compute in E; discriminate E].
  exists df'. split; [exact E|]. split; [exact Hk|].
  exact (add_esg_zscores_single_group Sample.series_mean Sample.series_std
           Sample.val_sub Sample.val_div Rerun.df0 ["bloomberg_esg"] "sector"
           df' "banks" Hwf Hnd Hf Hne Hk E "bloomberg_esg" (or_introl eq_refl)).
Defined.

(** ** The driver *)

Module DriverFacts.
Import FrameFacts ReaderFacts ZFacts.

Lemma esg_z_fresh cols :
  (forall c, In c cols ->
     c = "sector" \/ (In c Config.EXPECTED_HEADERS /\ c <> "date")) ->
  forall c, In c ["bloomberg_esg"; "refinitiv_esg"] -> ~ In (z_name c) cols.
Proof.
  intros H c Hc Hin. apply H in Hin as [Hin | [Hin _]].
  - destruct Hc as [<- | [<- | []]]; discriminate.
  - destruct Hc as [<- | [<- | []]]; vm_compute in Hin;
      intuition discriminate.
Qed.

Lemma esg_nodup : NoDup ["bloomberg_esg"; "refinitiv_esg"].
Proof.
  constructor; [| constructor; [| constructor]]; cbn [In];
    intuition discriminate.
Qed.

Lemma reset_flat b :
  index_names b = ["firm"; "date"] ->
  ~ In "firm" (columns b) -> ~ In "date" (columns b) ->
  reset_index b = Ok (flattened b).
Proof.
  intros Hi Hf Hd. unfold reset_index, flattened. rewrite Hi. cbn [find].
  now rewrite (proj2 (mem_false _ _) Hf), (proj2 (mem_false _ _) Hd).
Qed.

Lemma extended_rows n rs rs' (row' : list value * list value) :
  Forall2 (extends n) rs rs' -> In row' rs' ->
  exists row z, In row rs /\ snd row' = (snd row ++ z)%list.
Proof.
  induction 1 as [|r r' rs rs' [_ [z [_ Hz]]] _ IH]; intros Hin; [destruct Hin|].
  destruct Hin as [<- | Hin].
  - exists r, z. split; [now left | assumption].
  - destruct (IH Hin) as [row [z' [H1 H2]]]. exists row, z'.
    split; [now right | assumption].
Qed.

Section Driver.

Variable to_datetime : string -> value -> option Z.
Variable to_numeric : value -> float.
Variable series_mean : list value -> result value.
Variable series_std : list value -> result value.
Variable val_sub : value -> value -> result value.
Variable val_div : value -> value -> result value.

(** A panel of [build_panel] after the standardisation of [main]. *)
Lemma standardised_panel wb xlsx_path label p b :
  build_panel to_datetime to_numeric wb xlsx_path label = Ok p ->
  add_esg_zscores series_mean series_std val_sub val_div
    p ["bloomberg_esg"; "refinitiv_esg"] "sector" = Ok b ->
  esg_standardised label p b.
Proof.
  intros Hp Hb.
  destruct (PanelShape.panel_invariant to_datetime to_numeric _ _ _ _ Hp)
    as [Hi [Hnd [Hs [Hcols Hlen]]]].
  assert (Hf : forall c, In c ["bloomberg_esg"; "refinitiv_esg"] ->
                 ~ In (z_name c) (columns p))
    by (apply esg_z_fresh;
        exact (PanelShape.panel_labels to_datetime to_numeric _ _ _ _ Hp)).
  assert (Hwf : frame_wf p) by (apply Forall_forall; exact Hlen).
  destruct (loop_frame _ _ _ _ _ _ _ _ esg_nodup Hf Hb) as [Hi' [Hc' Hr']].
  assert (Htarget : forall c, In c ["bloomberg_esg"; "refinitiv_esg"] ->
                      In c (columns p)).
  { intros c Hc.
    destruct (RerunFacts.loop_values _ _ _ _ _ _ _ _ Hwf esg_nodup Hf Hb c Hc)
      as [Hcnt _].
    apply label_count_In in Hcnt. rewrite Hc', in_app_iff in Hcnt.
    destruct Hcnt as [H | H]; [assumption|]. exfalso.
    destruct Hc as [<- | [<- | []]]; cbn in H; intuition discriminate. }
  unfold esg_standardised.
  split; [congruence|]. split; [exact Hc'|]. split; [exact Hr'|].
  split; [apply Htarget; now left|].
  split; [apply Htarget; right; now left|].
  intros row' Hin.
  destruct (extended_rows _ _ _ _ Hr' Hin) as [row [z [Hrow Hz]]].
  rewrite Hc', Hz, cell_at_extended; try assumption.
  - apply (PanelShape.panel_sector to_datetime to_numeric _ _ _ _ Hp row Hrow).
  - now apply Hlen.
Qed.

(** The sector column is the one group key of a built panel. *)
Lemma panel_group_keys wb xlsx_path label p :
  build_panel to_datetime to_numeric wb xlsx_path label = Ok p ->
  group_keys "sector" p = Ok (repeat (VStr label) (List.length (rows p))).
Proof.
  intros Hp.
  destruct (PanelShape.panel_invariant to_datetime to_numeric _ _ _ _ Hp)
    as [Hi [Hnd [Hs _]]].
  unfold group_keys. rewrite Hi.
  rewrite (label_count_NoDup "sector" (columns p) Hnd Hs
           : List.length (filter (String.eqb "sector") (columns p)) = 1%nat).
  cbn [filter String.eqb Ascii.eqb Bool.eqb List.length]. f_equal.
  unfold column.
  pose proof (PanelShape.panel_sector to_datetime to_numeric _ _ _ _ Hp)
    as Hsec.
  induction (rows p) as [|r rs IH]; [reflexivity|].
  cbn [map List.length repeat]. rewrite (Hsec r (or_introl eq_refl)).
  f_equal. apply IH. intros row Hrow. apply Hsec. now right.
Qed.

(** The z-score columns of [main] are standardised over the whole
    panel. *)
Lemma standardised_whole wb xlsx_path label p b :
  build_panel to_datetime to_numeric wb xlsx_path label = Ok p ->
  add_esg_zscores series_mean series_std val_sub val_div
    p ["bloomberg_esg"; "refinitiv_esg"] "sector" = Ok b ->
  rows p <> [] ->
  forall c, In c ["bloomberg_esg"; "refinitiv_esg"] ->
    zscore series_mean series_std val_sub val_div (column c p)
    = Ok (column (c ++ "_z") b).
Proof.
  intros Hp Hb Hne c Hc.
  destruct (PanelShape.panel_invariant to_datetime to_numeric _ _ _ _ Hp)
    as [_ [_ [_ [_ Hlen]]]].
  assert (Hwf : frame_wf p) by (apply Forall_forall; exact Hlen).
  assert (Hf : forall c, In c ["bloomberg_esg"; "refinitiv_esg"] ->
                 ~ In (z_name c) (columns p))
    by (apply esg_z_fresh;
        exact (PanelShape.panel_labels to_datetime to_numeric _ _ _ _ Hp)).
  destruct (standardised_panel _ _ _ _ _ Hp Hb)
    as [_ [Hcols [Hrows [Hb1 [Hb2 _]]]]].
  assert (Hin : In c (columns p)) by (destruct Hc as [<- | [<- | []]]; assumption).
  rewrite <- (column_extended 2 p b c Hwf Hin (ex_intro _ _ Hcols) Hrows).
  exact (GroupFacts.loop_single_group _ _ _ _ _ "sector" p b label
           Hwf esg_nodup Hf Hne (panel_group_keys _ _ _ _ Hp) Hb c Hc).
Qed.

Lemma standardised_flat label p b :
  esg_standardised label p b ->
  (forall c, In c (columns p) ->
     c = "sector" \/ (In c Config.EXPECTED_HEADERS /\ c <> "date")) ->
  reset_index b = Ok (flattened b).
Proof.
  intros [Hi [Hc _]] Hcols. apply reset_flat; [assumption | |];
    rewrite Hc, in_app_iff; cbn [In];
    (intros [H | H]; [| intuition discriminate]);
    apply Hcols in H as [H | [H Hne]]; try discriminate H;
    try (now apply Hne); vm_compute in H; intuition discriminate.
Qed.

(** What a pair returned by [main_panels] comes from. *)
Lemma main_panels_Ok ROOT bank_wb oil_wb b o :
  main_panels to_datetime to_numeric series_mean series_std val_sub val_div
    ROOT bank_wb oil_wb = Ok (b, o) ->
  exists pb po,
    build_panel to_datetime to_numeric bank_wb (Paths.BANK_FILE ROOT)
      Config.SECTOR_BANKS = Ok pb
    /\ build_panel to_datetime to_numeric oil_wb (Paths.OIL_FILE ROOT)
         Config.SECTOR_OILGAS = Ok po
    /\ add_esg_zscores series_mean series_std val_sub val_div
         pb ["bloomberg_esg"; "refinitiv_esg"] "sector" = Ok b
    /\ add_esg_zscores series_mean series_std val_sub val_div
         po ["bloomberg_esg"; "refinitiv_esg"] "sector" = Ok o.
Proof.
  unfold main_panels. intros H.
  apply bind_Ok in H as [pb [Hpb H]]. apply bind_Ok in H as [po [Hpo H]].
  apply bind_Ok in H as [b' [Hb H]]. apply bind_Ok in H as [o' [Ho H]].
  injection H as -> ->. now exists pb, po.
Qed.

Lemma main_panels_flat ROOT bank_wb oil_wb b o :
  main_panels to_datetime to_numeric series_mean series_std val_sub val_div
    ROOT bank_wb oil_wb = Ok (b, o) ->
  reset_index b = Ok (flattened b) /\ reset_index o = Ok (flattened o).
Proof.
  intros H. apply main_panels_Ok in H as [pb [po [Hpb [Hpo [Hb Ho]]]]].
  split.
  - apply (standardised_flat Config.SECTOR_BANKS pb).
    + now apply (standardised_panel bank_wb (Paths.BANK_FILE ROOT)).
    + exact (PanelShape.panel_labels to_datetime to_numeric _ _ _ _ Hpb).
  - apply (standardised_flat Config.SECTOR_OILGAS po).
    + now apply (standardised_panel oil_wb (Paths.OIL_FILE ROOT)).
    + exact (PanelShape.panel_labels to_datetime to_numeric _ _ _ _ Hpo).
Qed.

(** A pair returned by [main] is the pair of [main_panels]. *)
Lemma main_outcome_Ok ROOT bank_wb oil_wb save b o :
  outcome (main to_datetime to_numeric series_mean series_std val_sub val_div
             ROOT bank_wb oil_wb save) = Ok (b, o) ->
  main_panels to_datetime to_numeric series_mean series_std val_sub val_div
    ROOT bank_wb oil_wb = Ok (b, o).
Proof.
  intros H. unfold main in H.
  destruct (main_panels _ _ _ _ _ _ ROOT bank_wb oil_wb)
    as [[b' o'] | e] eqn:E; [| discriminate H].
  destruct save; [| exact H].
  destruct (main_panels_flat _ _ _ _ _ E) as [Hb Ho].
  rewrite Hb, Ho in H. exact H.
Qed.

End Driver.

End DriverFacts.

Section DriverExtras.

Variable to_datetime : string -> value -> option Z.
Variable to_numeric : value -> float.
Variable series_mean : list value -> result value.
Variable series_std : list value -> result value.
Variable val_sub : value -> value -> result value.
Variable val_div : value -> value -> result value.

(** X17: [main] returns or raises what building and standardising the
    two panels gives, whether it saves or not: flattening a standardised
    panel for saving cannot fail.  It writes nothing unless both panels
    are there and [save] is set, and then exactly two files, the bank
    panel at [BANK_PANEL_PARQUET] and then the oil panel at
    [OIL_PANEL_PARQUET], each flattened with ["firm"] and ["date"] as its
    first columns. *)
Theorem main_saves :
  forall ROOT bank_wb oil_wb save,
  outcome (main to_datetime to_numeric series_mean series_std val_sub val_div
             ROOT bank_wb oil_wb save)
  = main_panels to_datetime to_numeric series_mean series_std val_sub val_div
      ROOT bank_wb oil_wb
  /\ written (main to_datetime to_numeric series_mean series_std val_sub
                val_div ROOT bank_wb oil_wb save)
     = match main_panels to_datetime to_numeric series_mean series_std
               val_sub val_div ROOT bank_wb oil_wb, save with
       | Ok (b, o), true =>
           [(Paths.BANK_PANEL_PARQUET ROOT, flattened b);
            (Paths.OIL_PANEL_PARQUET ROOT, flattened o)]
       | _, _ => []
       end.
Proof.
  intros ROOT bank_wb oil_wb save. unfold main.
  destruct (main_panels _ _ _ _ _ _ ROOT bank_wb oil_wb) as [[b o] | e] eqn:E;
    [| now split].
  destruct save; [| now split].
  destruct (DriverFacts.main_panels_flat _ _ _ _ _ _ _ _ _ _ _ E) as [-> ->].
  now split.
Qed.

(** X18: the panels [main] returns are the panels of [build_panel] for
    the two workbooks, each with ["bloomberg_esg_z"] and
    ["refinitiv_esg_z"] as two more columns after its own, its rows and
    their values kept; both ESG columns are columns of each built panel,
    and every row of the first has ["banks"], of the second ["oil_gas"],
    under ["sector"]. *)
Theorem main_result :
  forall ROOT bank_wb oil_wb save b o,
  outcome (main to_datetime to_numeric series_mean series_std val_sub val_div
             ROOT bank_wb oil_wb save) = Ok (b, o) ->
  exists pb po,
    build_panel to_datetime to_numeric bank_wb (Paths.BANK_FILE ROOT) "banks"
    = Ok pb
    /\ build_panel to_datetime to_numeric oil_wb (Paths.OIL_FILE ROOT)
         "oil_gas" = Ok po
    /\ esg_standardised "banks" pb b
    /\ esg_standardised "oil_gas" po o.
Proof.
  intros ROOT bank_wb oil_wb save b o H.
  apply (DriverFacts.main_outcome_Ok to_datetime to_numeric) in H.
  apply DriverFacts.main_panels_Ok in H as [pb [po [Hpb [Hpo [Hb Ho]]]]].
  exists pb, po. split; [exact Hpb|]. split; [exact Hpo|]. split.
  - exact (DriverFacts.standardised_panel _ _ _ _ _ _ _ _ _ _ _ Hpb Hb).
  - exact (DriverFacts.standardised_panel _ _ _ _ _ _ _ _ _ _ _ Hpo Ho).
Qed.

(** X19: when both panels are built but one of them lacks one of the two
    ESG columns, which the tolerance of the header search allows, [main]
    raises and writes no file. *)
Theorem main_missing_esg_column :
  forall ROOT bank_wb oil_wb save pb po c,
  build_panel to_datetime to_numeric bank_wb (Paths.BANK_FILE ROOT) "banks"
  = Ok pb ->
  build_panel to_datetime to_numeric oil_wb (Paths.OIL_FILE ROOT) "oil_gas"
  = Ok po ->
  In c ["bloomberg_esg"; "refinitiv_esg"] ->
  ~ In c (columns pb) \/ ~ In c (columns po) ->
  (exists e,
     outcome (main to_datetime to_numeric series_mean series_std val_sub
                val_div ROOT bank_wb oil_wb save) = Raise e)
  /\ written (main to_datetime to_numeric series_mean series_std val_sub
                val_div ROOT bank_wb oil_wb save) = [].
Proof.
  intros ROOT bank_wb oil_wb save pb po c Hpb Hpo Hc Hmiss.
  assert (Hz : ~ In c (map z_name ["bloomberg_esg"; "refinitiv_esg"])).
  { destruct Hc as [<- | [<- | []]]; cbn; intuition discriminate. }
  assert (E : exists e,
            main_panels to_datetime to_numeric series_mean series_std
              val_sub val_div ROOT bank_wb oil_wb = Raise e).
  { unfold main_panels.
    change Config.SECTOR_BANKS with "banks".
    change Config.SECTOR_OILGAS with "oil_gas".
    rewrite Hpb, Hpo. cbn [bind].
    destruct Hmiss as [Hm | Hm].
    - destruct (OverwriteFacts.loop_missing_target series_mean series_std
                  val_sub val_div _ "sector" pb c Hc Hm Hz) as [e He].
      unfold add_esg_zscores. rewrite He. now exists e.
    - destruct (add_esg_zscores _ _ _ _ pb _ _) as [b | e]; [| now exists e].
      cbn [bind].
      destruct (OverwriteFacts.loop_missing_target series_mean series_std
                  val_sub val_div _ "sector" po c Hc Hm Hz) as [e He].
      unfold add_esg_zscores. rewrite He. now exists e. }
  destruct E as [e E]. unfold main. rewrite E. split; [now exists e | reflexivity].
Qed.

(** X21: every row of a panel of [main] has the same sector, so its
    z-scores are taken over the whole panel: each z-score column returned
    is [(x - x.mean()) / x.std()] of the whole ESG column of the built
    panel, all firms and dates together. *)
Theorem main_standardises_whole_panel :
  forall ROOT bank_wb oil_wb save b o,
  outcome (main to_datetime to_numeric series_mean series_std val_sub val_div
             ROOT bank_wb oil_wb save) = Ok (b, o) ->
  exists pb po,
    build_panel to_datetime to_numeric bank_wb (Paths.BANK_FILE ROOT) "banks"
    = Ok pb
    /\ build_panel to_datetime to_numeric oil_wb (Paths.OIL_FILE ROOT)
         "oil_gas" = Ok po
    /\ forall c, In c ["bloomberg_esg"; "refinitiv_esg"] ->
         (rows pb <> [] ->
          zscore series_mean series_std val_sub val_div (column c pb)
          = Ok (column (c ++ "_z") b))
         /\ (rows po <> [] ->
             zscore series_mean series_std val_sub val_div (column c po)
             = Ok (column (c ++ "_z") o)).
Proof.
  intros ROOT bank_wb oil_wb save b o H.
  apply (DriverFacts.main_outcome_Ok to_datetime to_numeric) in H.
  apply DriverFacts.main_panels_Ok in H as [pb [po [Hpb [Hpo [Hb Ho]]]]].
  exists pb, po. split; [exact Hpb|]. split; [exact Hpo|].
  intros c Hc. split; intros Hne.
  - exact (DriverFacts.standardised_whole _ _ _ _ _ _ _ _ _ _ _ Hpb Hb Hne c Hc).
  - exact (DriverFacts.standardised_whole _ _ _ _ _ _ _ _ _ _ _ Hpo Ho Hne c Hc).
Qed.

End DriverExtras.

Lemma main_result_witness :
  exists b o pb po,
    outcome (SampleRun.main "/repo" Demo.wb Demo.wb true) = Ok (b, o)
    /\ Sample.build_panel Demo.wb (Paths.BANK_FILE "/repo") "banks" = Ok pb
    /\ Sample.build_panel Demo.wb (Paths.OIL_FILE "/repo") "oil_gas" = Ok po
    /\ esg_standardised "banks" pb b
    /\ esg_standardised "oil_gas" po o.
Proof.
  destruct (outcome (main Sample.to_datetime Sample.to_numeric
                       Sample.series_mean Sample.series_std Sample.val_sub
                       Sample.val_div "/repo" Demo.wb Demo.wb true))
    as [[b o] | e] eqn:E; [| vm_compute in E; discriminate E].
  destruct (main_result Sample.to_datetime Sample.to_numeric
              Sample.series_mean Sample.series_std Sample.val_sub
              Sample.val_div "/repo" Demo.wb Demo.wb true b o E)
    as [pb [po [H1 [H2 [H3 H4]]]]].
  exists b, o, pb, po.
  split; [exact E|]. split; [exact H1|]. split; [exact H2|].
  split; [exact H3 | exact H4].
Defined.

Lemma main_missing_esg_column_witness :
  exists pb po,
    Sample.build_panel Demo.wb (Paths.BANK_FILE "/repo") "banks" = Ok pb
    /\ Sample.build_panel OnlyB.wb (Paths.OIL_FILE "/repo") "oil_gas" = Ok po
    /\ ~ In "refinitiv_esg" (columns po)
    /\ (exists e,
          outcome (SampleRun.main "/repo" Demo.wb OnlyB.wb true) = Raise e)
    /\ written (SampleRun.main "/repo" Demo.wb OnlyB.wb true) = [].
Proof.
  destruct (build_panel Sample.to_datetime Sample.to_numeric Demo.wb
              (Paths.BANK_FILE "/repo") "banks") as [pb | e] eqn:Eb;
    [| vm_compute in Eb; discriminate Eb].
  destruct (build_panel Sample.to_datetime Sample.to_numeric OnlyB.wb
              (Paths.OIL_FILE "/repo") "oil_gas") as [po | e] eqn:Eo;
    [| vm_compute in Eo; discriminate Eo].
  assert (Hn : ~ In "refinitiv_esg" (columns po)).
  { pose proof Eo as Eo'. vm_compute in Eo'. injection Eo' as <-.
    cbn [columns In]. intuition discriminate. }
  exists pb, po. split; [exact Eb|]. split; [exact Eo|]. split; [exact Hn|].
  exact (main_missing_esg_column Sample.to_datetime Sample.to_numeric
           Sample.series_mean Sample.series_std Sample.val_sub Sample.val_div
           "/repo" Demo.wb OnlyB.wb true pb po "refinitiv_esg" Eb Eo
           (or_intror (or_introl eq_refl)) (or_intror Hn)).
Defined.

Lemma main_standardises_whole_panel_witness :
  exists b o pb,
    outcome (SampleRun.main "/repo" Demo.wb Demo.wb true) = Ok (b, o)
    /\ Sample.build_panel Demo.wb (Paths.BANK_FILE "/repo") "banks" = Ok pb
    /\ rows pb <> []
    /\ zscore Sample.series_mean Sample.series_std Sample.val_sub
         Sample.val_div (column "bloomberg_esg" pb)
       = Ok (column "bloomberg_esg_z" b).
Proof.
  destruct (outcome (main Sample.to_datetime Sample.to_numeric
                       Sample.series_mean Sample.series_std Sample.val_sub
                       Sample.val_div "/repo" Demo.wb Demo.wb true))
    as [[b o] | e] eqn:E; [| vm_compute in E; discriminate E].
  destruct (main_standardises_whole_panel Sample.to_datetime Sample.to_numeric
              Sample.series_mean Sample.series_std Sample.val_sub
              Sample.val_div "/repo" Demo.wb Demo.wb true b o E)
    as [pb [po [H1 [_ H3]]]].
  assert (Hne : rows pb <> []).
  { pose proof H1 as H1'. vm_compute in H1'. injection H1' as <-.
    discriminate. }
  exists b, o, pb. split; [exact E|]. split; [exact H1|]. split; [exact Hne|].
  exact (proj1 (H3 "bloomberg_esg" (or_introl eq_refl)) Hne).
Defined.

(** ** Floats and group keys *)

Module FloatFacts.
Import SpecFloat.

Lemma SFeqb_iff a b :
  SFeqb a b = true
  <-> (exists s1 s2, a = S754_zero s1 /\ b = S754_zero s2)
      \/ (a = b /\ a <> S754_nan).
Proof.
  unfold SFeqb, SFcompare. split.
  - destruct a as [sa | sa | | sa ma ea], b as [sb | sb | | sb mb eb];
      try discriminate; try (destruct sa; discriminate);
      try (destruct sb; discriminate).
    + intros _. left. now exists sa, sb.
    + destruct sa, sb; try discriminate; intros _; right;
        (split; [reflexivity | discriminate]).
    + destruct sa, sb; try discriminate;
        destruct (Z.compare_spec ea eb) as [-> | |]; try discriminate;
        fold (Pos.compare ma mb);
        destruct (Pos.compare_spec ma mb) as [-> | |]; try discriminate;
        intros _; right; (split; [reflexivity | discriminate]).
  - intros [[s1 [s2 [-> ->]]] | [<- Hn]]; [reflexivity|].
    destruct a as [sa | sa | | sa ma ea]; try reflexivity.
    + now destruct sa.
    + congruence.
    + destruct sa; rewrite Z.compare_refl; fold (Pos.compare ma ma);
        now rewrite Pos.compare_refl.
Qed.

Lemma SFeqb_sym a b : SFeqb a b = SFeqb b a.
Proof.
  destruct (SFeqb a b) eqn:E1, (SFeqb b a) eqn:E2; try reflexivity; exfalso.
  - apply SFeqb_iff in E1.
    assert (H : SFeqb b a = true); [| congruence].
    apply SFeqb_iff. destruct E1 as [[s1 [s2 [-> ->]]] | [<- Hn]].
    + left. now exists s2, s1.
    + right. now split.
  - apply SFeqb_iff in E2.
    assert (H : SFeqb a b = true); [| congruence].
    apply SFeqb_iff. destruct E2 as [[s1 [s2 [-> ->]]] | [<- Hn]].
    + left. now exists s2, s1.
    + right. now split.
Qed.

Lemma SFeqb_trans a b c :
  SFeqb a b = true -> SFeqb b c = true -> SFeqb a c = true.
Proof.
  rewrite !SFeqb_iff.
  intros [[s1 [s2 [-> ->]]] | [<- Hn]] [[s3 [s4 [E ->]]] | [<- Hm]].
  - left. now exists s1, s4.
  - left. now exists s1, s2.
  - left. now exists s3, s4.
  - right. now split.
Qed.

Lemma eqb_sym x y : PrimFloat.eqb x y = PrimFloat.eqb y x.
Proof. rewrite !FloatAxioms.eqb_spec. apply SFeqb_sym. Qed.

Lemma eqb_trans x y z :
  PrimFloat.eqb x y = true -> PrimFloat.eqb y z = true ->
  PrimFloat.eqb x z = true.
Proof. rewrite !FloatAxioms.eqb_spec. apply SFeqb_trans. Qed.

Lemma eqb_refl x : is_nan x = false -> PrimFloat.eqb x x = true.
Proof. unfold is_nan. now destruct (PrimFloat.eqb x x). Qed.

(** There is one NaN. *)
Lemma is_nan_nan x : is_nan x = true -> x = nan.
Proof.
  unfold is_nan. intros H. apply negb_true_iff in H.
  rewrite FloatAxioms.eqb_spec in H. apply FloatAxioms.Prim2SF_inj.
  destruct (FloatOps.Prim2SF x) as [s | s | | s m e] eqn:E;
    try reflexivity; exfalso;
    (assert (Ht : SFeqb (FloatOps.Prim2SF x) (FloatOps.Prim2SF x) = true);
     [apply SFeqb_iff; right; rewrite E; split; [reflexivity | discriminate]
     | rewrite E in Ht; congruence]).
Qed.

Lemma eqb_nan_l y : PrimFloat.eqb nan y = false.
Proof. rewrite FloatAxioms.eqb_spec. reflexivity. Qed.

Lemma sub_nan_l y : (nan - y)%float = nan.
Proof.
  apply FloatAxioms.Prim2SF_inj. rewrite FloatAxioms.sub_spec. reflexivity.
Qed.

Lemma div_nan_l y : (nan / y)%float = nan.
Proof.
  apply FloatAxioms.Prim2SF_inj. rewrite FloatAxioms.div_spec. reflexivity.
Qed.

Lemma div_nan_r x : (x / nan)%float = nan.
Proof.
  apply FloatAxioms.Prim2SF_inj. rewrite FloatAxioms.div_spec.
  change (FloatOps.Prim2SF nan) with S754_nan.
  now destruct (FloatOps.Prim2SF x).
Qed.

End FloatFacts.

Module KeyFacts.

Lemma cell_eqb_sym a b : cell_eqb a b = cell_eqb b a.
Proof.
  destruct a, b; try reflexivity; cbn [cell_eqb];
    [apply String.eqb_sym | apply Z.eqb_sym | apply String.eqb_sym].
Qed.

Lemma cell_eqb_trans a b c :
  cell_eqb a b = true -> cell_eqb b c = true -> cell_eqb a c = true.
Proof.
  destruct a, b; try discriminate; destruct c; try discriminate;
    cbn [cell_eqb]; rewrite ?String.eqb_eq, ?Z.eqb_eq; congruence.
Qed.

Lemma value_eqb_sym a b : value_eqb a b = value_eqb b a.
Proof.
  destruct a, b; try reflexivity; cbn [value_eqb];
    [apply cell_eqb_sym | apply FloatFacts.eqb_sym | apply String.eqb_sym
     | apply Z.eqb_sym].
Qed.

Lemma value_eqb_trans a b c :
  value_eqb a b = true -> value_eqb b c = true -> value_eqb a c = true.
Proof.
  destruct a, b; try discriminate; destruct c; try discriminate;
    cbn [value_eqb].
  - apply cell_eqb_trans.
  - apply FloatFacts.eqb_trans.
  - rewrite !String.eqb_eq. congruence.
  - rewrite !Z.eqb_eq. congruence.
Qed.

Lemma value_eqb_refl v : notna v = true -> value_eqb v v = true.
Proof.
  destruct v as [c | x | s | t |]; cbn [notna value_eqb]; try discriminate.
  - destruct c; try discriminate; intros _; cbn [cell_eqb];
      [apply String.eqb_refl | apply Z.eqb_refl | apply String.eqb_refl].
  - intros H. apply negb_true_iff in H. now apply FloatFacts.eqb_refl.
  - intros _. apply String.eqb_refl.
  - intros _. apply Z.eqb_refl.
Qed.

(** A missing value is the key of no group. *)
Lemma value_eqb_na v w : notna v = false -> value_eqb v w = false.
Proof.
  destruct v as [c | x | s | t |]; cbn [notna]; try discriminate.
  - destruct c; try discriminate; intros _; now destruct w.
  - intros H. apply negb_false_iff, FloatFacts.is_nan_nan in H. subst x.
    destruct w; try reflexivity. apply FloatFacts.eqb_nan_l.
  - intros _. now destruct w.
Qed.

(** Keys that are equal as group keys have the same group. *)
Lemma group_values_eqb k k' keys x :
  value_eqb k' k = true -> group_values k' keys x = group_values k keys x.
Proof.
  intros H. unfold group_values. f_equal. apply filter_ext. intros [a v].
  cbn [fst].
  destruct (value_eqb a k') eqn:E1, (value_eqb a k) eqn:E2; try reflexivity.
  - rewrite (value_eqb_trans _ _ _ E1 H) in E2. discriminate.
  - rewrite value_eqb_sym in H. rewrite (value_eqb_trans _ _ _ E2 H) in E1.
    discriminate.
Qed.

Lemma group_values_cons k k0 ks v vs :
  group_values k (k0 :: ks) (v :: vs)
  = if value_eqb k0 k then v :: group_values k ks vs
    else group_values k ks vs.
Proof.
  unfold group_values. cbn [combine filter fst].
  now destruct (value_eqb k0 k).
Qed.

Lemma distinct_keys_incl l : forall k, In k (distinct_keys l) -> In k l.
Proof.
  induction l as [|a l IH]; intros k H; [destruct H|].
  cbn [distinct_keys] in H. destruct H as [<- | H]; [now left|].
  apply filter_In in H as [H _]. right. now apply IH.
Qed.

Lemma keys_apart_filter (f : value -> bool) D :
  keys_apart D -> keys_apart (filter f D).
Proof.
  unfold keys_apart. induction 1 as [|a D Ha _ IH]; cbn [filter];
    [constructor|].
  destruct (f a); [| assumption]. constructor; [| assumption].
  rewrite Forall_forall in *. intros b Hb. apply filter_In in Hb as [Hb _].
  now apply Ha.
Qed.

Lemma distinct_keys_apart l : keys_apart (distinct_keys l).
Proof.
  induction l as [|a l IH]; [constructor|]. cbn [distinct_keys].
  constructor.
  - apply Forall_forall. intros b Hb. apply filter_In in Hb as [_ Hb].
    now apply negb_true_iff in Hb.
  - now apply keys_apart_filter.
Qed.

(** Every key that is not missing has its group among the distinct keys. *)
Lemma distinct_keys_cover l : forall k,
  In k l -> value_eqb k k = true ->
  exists k', In k' (distinct_keys l) /\ value_eqb k' k = true.
Proof.
  induction l as [|a l IH]; intros k Hin Hk; [destruct Hin|].
  cbn [distinct_keys]. destruct Hin as [<- | Hin].
  - exists a. split; [now left | assumption].
  - destruct (IH k Hin Hk) as [k' [Hk' E]].
    destruct (value_eqb k' a) eqn:Ea.
    + exists a. split; [now left|].
      rewrite value_eqb_sym in Ea. exact (value_eqb_trans _ _ _ Ea E).
    + exists k'. split; [| assumption]. right. apply filter_In.
      split; [assumption | now rewrite Ea].
Qed.

End KeyFacts.

(** ** The transform, row by row *)

Module ScatterFacts.
Import ZFacts KeyFacts.

Section Outputs.

Variable R : value -> value -> value -> Prop.

(** A row whose key belongs to none of the groups of [D] can be left
    out. *)
Lemma outputs_for_skip k v ks vs : forall D outs,
  (forall b, In b D -> value_eqb k b = false) ->
  outputs_for R D (k :: ks) (v :: vs) outs ->
  outputs_for R D ks vs outs.
Proof.
  unfold outputs_for. intros D outs Hk H. induction H as [|b o D outs [Hb Ho] _ IH];
    [constructor|].
  constructor.
  - split; [assumption|]. rewrite group_values_cons in Ho.
    now rewrite (Hk b (or_introl eq_refl)) in Ho.
  - apply IH. intros c Hc. apply Hk. now right.
Qed.

Lemma take_output_spec k v ks vs : forall D outs,
  keys_apart D ->
  (exists k', In k' D /\ value_eqb k' k = true) ->
  outputs_for R D (k :: ks) (v :: vs) outs ->
  exists k' z outs',
    take_output k outs = Some (z, outs')
    /\ In k' D /\ value_eqb k' k = true /\ R k' v z
    /\ outputs_for R D ks vs outs'.
Proof.
  unfold outputs_for. intros D outs Hap Hex H. revert Hap Hex.
  induction H as [|a [a' zs] D outs [Ha Ho] Hrest IH]; intros Hap Hex.
  - destruct Hex as [k' [[] _]].
  - cbn [fst snd] in Ha, Ho. subst a'.
    inversion Hap as [|? ? Hhead Htail]; subst.
    rewrite Forall_forall in Hhead. cbn [take_output].
    rewrite group_values_cons in Ho.
    destruct (value_eqb a k) eqn:Eak.
    + rewrite value_eqb_sym, Eak in Ho.
      inversion Ho as [|? z ? zs' Hz Hzs]; subst.
      exists a, z, ((a, zs') :: outs). split; [reflexivity|].
      split; [now left|]. split; [assumption|]. split; [assumption|].
      constructor; [now split|].
      apply (outputs_for_skip k v ks vs D outs); [| exact Hrest].
      intros b Hb. destruct (value_eqb k b) eqn:Ekb; [| reflexivity].
      exfalso. rewrite value_eqb_sym in Ekb. rewrite value_eqb_sym in Eak.
      pose proof (value_eqb_trans _ _ _ Ekb Eak) as Hba.
      rewrite (Hhead b Hb) in Hba. discriminate.
    + rewrite value_eqb_sym, Eak in Ho.
      destruct IH as [k' [z [outs' [Ht [Hin [Ek [Hr Hout]]]]]]];
        [assumption | |].
      { destruct Hex as [k' [[<- | Hin] Ek]]; [congruence|]. now exists k'. }
      rewrite Ht. exists k', z, ((a, zs) :: outs').
      split; [reflexivity|]. split; [now right|]. split; [assumption|].
      split; [assumption|]. constructor; [now split | assumption].
Qed.

Lemma scatter_spec D :
  keys_apart D ->
  forall ks vs outs,
  List.length vs = List.length ks ->
  (forall k, In k ks -> notna k = true ->
     exists k', In k' D /\ value_eqb k' k = true) ->
  outputs_for R D ks vs outs ->
  Forall2 (fun kv z =>
             if notna (fst kv)
             then exists k', In k' D /\ value_eqb k' (fst kv) = true
                             /\ R k' (snd kv) z
             else z = NaN)
          (combine ks vs) (scatter ks outs).
Proof.
  intros Hap. induction ks as [|k ks IH]; intros vs outs Hlen Hcov Hout;
    [constructor|].
  destruct vs as [|v vs]; [discriminate|]. injection Hlen as Hlen.
  cbn [combine scatter].
  destruct (notna k) eqn:Ek.
  - destruct (take_output_spec k v ks vs D outs Hap
                (Hcov k (or_introl eq_refl) Ek) Hout)
      as [k' [z [outs' [-> [Hin [Ekk [Hr Hout']]]]]]].
    constructor.
    + cbn [fst snd]. rewrite Ek. now exists k'.
    + apply IH; try assumption. intros k0 H0. apply Hcov. now right.
  - constructor.
    + cbn [fst]. now rewrite Ek.
    + apply IH; try assumption.
      * intros k0 H0. apply Hcov. now right.
      * apply (outputs_for_skip k v); [| assumption].
        intros b _. now apply value_eqb_na.
Qed.

End Outputs.

Lemma mapM_Forall2 {A B : Type} (f : A -> result B) l : forall bs,
  mapM f l = Ok bs -> Forall2 (fun a b => f a = Ok b) l bs.
Proof.
  induction l as [|a l IH]; intros bs H.
  - injection H as <-. constructor.
  - cbn [mapM] in H. apply bind_Ok in H as [b [Hb H]].
    apply bind_Ok in H as [bs' [Hbs H]]. injection H as <-.
    constructor; [assumption | now apply IH].
Qed.

(** [groupby(..).transform(f)], row by row, for an [f] that relates each
    value of a group to its output by [P], given the group. *)
Lemma groupby_transform_rows (f : list value -> result (list value))
    (P : list value -> value -> value -> Prop) keys x z :
  (forall g zs, f g = Ok zs -> Forall2 (P g) g zs) ->
  List.length x = List.length keys ->
  groupby_transform f keys x = Ok z ->
  Forall2 (fun kv zi =>
             if notna (fst kv)
             then P (group_values (fst kv) keys x) (snd kv) zi
             else zi = NaN)
          (combine keys x) z.
Proof.
  intros Hf Hlen H. unfold groupby_transform in H.
  apply bind_Ok in H as [outs [Houts H]]. injection H as <-.
  set (D := distinct_keys (filter notna keys)) in *.
  assert (Hout : outputs_for (fun k => P (group_values k keys x))
                   D keys x outs).
  { apply mapM_Forall2 in Houts. unfold outputs_for.
    induction Houts as [|k o D' outs' Ho _ IH]; constructor; [| assumption].
    apply bind_Ok in Ho as [zs [Hzs Ho]]. injection Ho as <-.
    split; [reflexivity|]. cbn [snd]. now apply Hf. }
  pose proof (scatter_spec (fun k => P (group_values k keys x)) D
                (distinct_keys_apart _) keys x outs Hlen) as Hs.
  eapply Forall2_impl; [| apply Hs; [| exact Hout]].
  - intros [k v] zi. cbn [fst snd]. destruct (notna k); [| auto].
    intros [k' [_ [Ek Hp]]]. now rewrite <- (group_values_eqb k k' keys x Ek).
  - intros k Hin Hk. apply distinct_keys_cover.
    + apply filter_In. now split.
    + now apply value_eqb_refl.
Qed.

End ScatterFacts.

(** ** The z-score of a group *)

Module ZscoreFacts.
Import ZFacts ScatterFacts.

Lemma floats_of_Some g :
  Forall (fun v => is_float v = true) g -> exists fs, Sample.floats_of g = Some fs.
Proof.
  induction 1 as [|v g Hv _ [fs IH]]; [now exists []|].
  destruct v; try discriminate. cbn [Sample.floats_of]. rewrite IH.
  now eexists.
Qed.

Lemma floats_of_count g : forall fs,
  Sample.floats_of g = Some fs -> List.length fs = count_notna g.
Proof.
  unfold count_notna. induction g as [|v g IH]; intros fs H.
  - now injection H as <-.
  - destruct v as [| x | | |]; try discriminate. cbn [Sample.floats_of] in H.
    destruct (Sample.floats_of g) as [fs'|]; [| discriminate].
    injection H as <-. cbn [filter notna].
    destruct (is_nan x); cbn [negb List.length]; now rewrite (IH fs').
Qed.

Lemma val_sub_Ok v m d :
  Sample.val_sub v m = Ok d ->
  exists x y, v = VFloat x /\ m = VFloat y /\ d = VFloat (x - y)%float.
Proof.
  destruct v, m; try discriminate. cbn. intros H. injection H as <-.
  now eexists _, _.
Qed.

Lemma val_div_Ok v s z :
  Sample.val_div v s = Ok z ->
  exists x y, v = VFloat x /\ s = VFloat y /\ z = VFloat (x / y)%float.
Proof.
  destruct v, s; try discriminate. cbn. intros H. injection H as <-.
  now eexists _, _.
Qed.

Lemma Forall2_compose {A B C : Type} (P : A -> B -> Prop) (Q : B -> C -> Prop)
    l1 l2 : forall l3,
  Forall2 P l1 l2 -> Forall2 Q l2 l3 ->
  Forall2 (fun a c => exists b, P a b /\ Q b c) l1 l3.
Proof.
  intros l3 H. revert l3. induction H as [|a b l1 l2 Hab _ IH]; intros l3 H3;
    inversion H3; subst; constructor; [now exists b | now apply IH].
Qed.

Lemma Forall2_In_l {A B : Type} (P : A -> B -> Prop) l1 l2 a :
  Forall2 P l1 l2 -> In a l1 -> exists b, P a b.
Proof.
  induction 1 as [|x y l1 l2 Hxy _ IH]; intros Hin; [destruct Hin|].
  destruct Hin as [<- | Hin]; [now exists y | now apply IH].
Qed.

Section Reductions.

Variable series_mean : list value -> result value.
Variable series_std : list value -> result value.
Hypothesis reductions : pandas_reductions series_mean series_std.

(** The outputs of [lambda x: (x - x.mean()) / x.std()], value by
    value. *)
Lemma zscore_rows g zs :
  zscore series_mean series_std Sample.val_sub Sample.val_div g = Ok zs ->
  Forall2 (row_zscore series_mean series_std g) g zs.
Proof.
  unfold zscore. intros H.
  apply bind_Ok in H as [m [Hm H]]. apply bind_Ok in H as [d [Hd H]].
  apply bind_Ok in H as [s [Hs H]].
  apply mapM_Forall2 in Hd. apply mapM_Forall2 in H.
  pose proof (Forall2_compose _ _ _ _ _ Hd H) as Hc.
  assert (Hfl : Forall (fun v => is_float v = true) g).
  { apply Forall_forall. intros v Hv.
    destruct (Forall2_In_l _ _ _ _ Hd Hv) as [dv Hdv].
    apply val_sub_Ok in Hdv as [x [y [-> _]]]. reflexivity. }
  destruct (floats_of_Some g Hfl) as [fs Hfs].
  destruct (reductions g fs Hfs) as [_ [_ Hone]].
  eapply Forall2_impl; [| exact Hc].
  intros v z [dv [Hsub Hdiv]]. cbn beta in Hsub, Hdiv.
  apply val_sub_Ok in Hsub as [x [y [-> [-> ->]]]].
  apply val_div_Ok in Hdiv as [x' [y' [Ex [-> ->]]]].
  injection Ex as <-. unfold row_zscore. split; [| split].
  - now exists x, y, y'.
  - cbn [notna]. intros Hn. apply negb_false_iff, FloatFacts.is_nan_nan in Hn.
    subst x. unfold NaN.
    now rewrite FloatFacts.sub_nan_l, FloatFacts.div_nan_l.
  - intros Hle. rewrite <- (floats_of_count g fs Hfs) in Hle.
    rewrite (Hone Hle) in Hs. injection Hs as <-.
    unfold NaN. now rewrite FloatFacts.div_nan_r.
Qed.

(** A Series of floats is standardised without error. *)
Lemma zscore_total g :
  Forall (fun v => is_float v = true) g ->
  exists zs,
    zscore series_mean series_std Sample.val_sub Sample.val_div g = Ok zs.
Proof.
  intros Hfl. destruct (floats_of_Some g Hfl) as [fs Hfs].
  destruct (reductions g fs Hfs) as [[m Hm] [[s Hs] _]].
  unfold zscore. rewrite Hm. cbn [bind].
  destruct (mapM_total (fun v => Sample.val_sub v (VFloat m)) g) as [d Hd].
  { intros v Hv. rewrite Forall_forall in Hfl. specialize (Hfl v Hv).
    destruct v; try discriminate. cbn. now eexists. }
  rewrite Hd. cbn [bind]. rewrite Hs. cbn [bind].
  apply mapM_total. intros dv Hdv.
  apply mapM_Forall2 in Hd.
  assert (Hex : exists v, Sample.val_sub v (VFloat m) = Ok dv).
  { clear - Hd Hdv. induction Hd as [|v b g d Hvb _ IH]; [destruct Hdv|].
    destruct Hdv as [<- | Hdv]; [now exists v | now apply IH]. }
  destruct Hex as [v Hv]. apply val_sub_Ok in Hv as [x [y [_ [_ ->]]]].
  cbn. now eexists.
Qed.

Lemma group_values_float k keys x :
  Forall (fun v => is_float v = true) x ->
  Forall (fun v => is_float v = true) (group_values k keys x).
Proof.
  rewrite !Forall_forall. intros H v Hv. unfold group_values in Hv.
  apply in_map_iff in Hv as [[a b] [<- Hin]]. apply filter_In in Hin as [Hin _].
  apply in_combine_r in Hin. now apply H.
Qed.

(** The transform of a column of floats: it goes through, and gives the
    z-score column. *)
Lemma transform_zscore keys x :
  Forall (fun v => is_float v = true) x ->
  List.length x = List.length keys ->
  exists zs,
    groupby_transform
      (zscore series_mean series_std Sample.val_sub Sample.val_div) keys x
    = Ok zs
    /\ zscore_column series_mean series_std keys x zs.
Proof.
  intros Hfl Hlen.
  destruct (groupby_transform_total series_mean series_std
              Sample.val_sub Sample.val_div keys x) as [zs Hzs].
  { intros k _. apply zscore_total. now apply group_values_float. }
  exists zs. split; [assumption|].
  apply (groupby_transform_rows
           (zscore series_mean series_std Sample.val_sub Sample.val_div)
           (row_zscore series_mean series_std) keys x zs); try assumption.
  apply zscore_rows.
Qed.

End Reductions.

End ZscoreFacts.

(** ** The loop over the targets, on a frame and its extensions *)

Module ExtendFacts.
Import FrameFacts ReaderFacts ZFacts OverwriteFacts.

Lemma cell_at_set_at_same l cols : forall (r : list value) v,
  In l cols -> List.length r = List.length cols ->
  cell_at l cols (set_at l cols r v) = v.
Proof.
  unfold cell_at, cells_at, set_at.
  induction cols as [|c cols IH]; intros r v Hin Hlen; [destruct Hin|].
  destruct r as [|x r]; [discriminate|]. injection Hlen as Hlen.
  cbn [combine map filter fst snd].
  destruct (String.eqb_spec c l) as [-> | Hne]; [reflexivity|].
  destruct Hin as [E | Hin]; [congruence|]. now apply IH.
Qed.

Lemma column_setitem_over l vals df :
  In l (columns df) -> frame_wf df ->
  List.length vals = List.length (rows df) ->
  column l (setitem l vals df) = vals.
Proof.
  intros Hin Hwf Hlen. unfold setitem, column.
  rewrite (proj2 (mem_In _ _) Hin). cbn [columns rows].
  unfold frame_wf in Hwf. revert vals Hlen.
  induction (rows df) as [|r rs IH]; intros vals Hlen.
  - destruct vals; [reflexivity | discriminate].
  - destruct vals as [|v vals]; [discriminate|].
    inversion Hwf as [|? ? Hr Hrs]; subst. cbn [combine map fst snd].
    rewrite (IH Hrs vals) by now injection Hlen.
    now rewrite cell_at_set_at_same.
Qed.

(** The column just assigned holds the values assigned. *)
Lemma column_setitem l vals df :
  frame_wf df -> List.length vals = List.length (rows df) ->
  column l (setitem l vals df) = vals.
Proof.
  intros Hwf Hlen. destruct (in_dec string_dec l (columns df)) as [Hin | Hn].
  - now apply column_setitem_over.
  - now apply RerunFacts.column_setitem_fresh.
Qed.

Lemma setitem_nodup l vals df :
  NoDup (columns df) -> NoDup (columns (setitem l vals df)).
Proof.
  intros Hnd. unfold setitem. destruct (mem l (columns df)) eqn:E;
    cbn [columns]; [assumption|].
  apply mem_false in E. apply NoDup_app; [assumption | | ].
  - constructor; [intros [] | constructor].
  - intros x Hx [<- | []]. contradiction.
Qed.

Lemma z_extended_refl esg p :
  frame_wf p -> NoDup (columns p) -> z_extended esg p p.
Proof. intros Hwf Hnd. unfold z_extended. repeat split; auto. Qed.

Lemma z_extended_step esg p d col z :
  z_extended esg p d -> In col esg -> ~ In (z_name col) (columns p) ->
  List.length z = List.length (rows d) ->
  z_extended esg p (setitem (z_name col) z d).
Proof.
  intros [Hi [Hk [Hwf [Hnd [Hsub Hcols]]]]] Hcol Hfresh Hlen.
  destruct (setitem_any (z_name col) z d Hwf Hlen)
    as [Hi1 [Hk1 [Hwf1 [Hc1 Hv1]]]].
  unfold z_extended.
  split; [congruence|]. split; [congruence|]. split; [assumption|].
  split; [now apply setitem_nodup|]. split.
  - intros l Hl. apply Hc1 in Hl as [Hl | ->]; [now apply Hsub|].
    right. now apply in_map.
  - intros l Hl. destruct (Hcols l Hl) as [Hld Hval]. split.
    + apply Hc1. now left.
    + rewrite Hv1; [assumption | assumption |].
      intros ->. contradiction.
Qed.

Lemma label_count_same l p d :
  NoDup (columns p) -> NoDup (columns d) ->
  (In l (columns d) <-> In l (columns p)) ->
  label_count l (columns d) = label_count l (columns p).
Proof.
  intros Hp Hd Hiff. destruct (in_dec string_dec l (columns p)) as [Hin | Hn].
  - rewrite !label_count_NoDup; try assumption; [reflexivity | now apply Hiff].
  - rewrite !label_count_absent; try assumption; [reflexivity|].
    intros H. now apply Hn, Hiff.
Qed.

(** The grouping of an extension is the grouping of the frame. *)
Lemma group_keys_zext esg p d g :
  NoDup (columns p) -> z_extended esg p d -> ~ In g (map z_name esg) ->
  group_keys g d = group_keys g p.
Proof.
  intros Hp [Hi [Hk [Hwf [Hnd [Hsub Hcols]]]]] Hg.
  assert (Hcount : label_count g (columns d) = label_count g (columns p)).
  { apply label_count_same; try assumption. split.
    - intros H. destruct (Hsub g H); [assumption | contradiction].
    - intros H. now apply Hcols. }
  unfold group_keys. unfold label_count in Hcount. rewrite Hcount, Hi.
  destruct (List.length (filter (String.eqb g) (columns p))) as [|[|a]] eqn:Ea;
    destruct (List.length (filter (String.eqb g) (index_names p))) as [|i];
    try reflexivity.
  - f_equal.
    rewrite <- (map_map fst (fun k => cell_at g (index_names p) k) (rows d)).
    rewrite <- (map_map fst (fun k => cell_at g (index_names p) k) (rows p)).
    now rewrite Hk.
  - f_equal. apply Hcols. apply label_count_pos. unfold label_count. lia.
Qed.

Section Loop.

Variable series_mean : list value -> result value.
Variable series_std : list value -> result value.
Variable val_sub : value -> value -> result value.
Variable val_div : value -> value -> result value.

Variable esg_all : list string.
Variable p : DataFrame.
Variable g : string.
Variable keys : list value.

Hypothesis p_nodup : NoDup (columns p).
Hypothesis g_no_z : ~ In g (map z_name esg_all).
Hypothesis p_keys : group_keys g p = Ok keys.
Hypothesis p_fresh : forall c, In c esg_all -> ~ In (z_name c) (columns p).
Hypothesis p_targets : forall c, In c esg_all -> In c (columns p).

(** The loop, whether the targets repeat or not: every z-score column of
    the result is the transform of its target column as the frame [p] has
    it, by the keys of [p]. *)
Lemma loop_columns esg : forall d df',
  incl esg esg_all -> z_extended esg_all p d ->
  add_esg_zscores_loop series_mean series_std val_sub val_div esg g d
  = Ok df' ->
  z_extended esg_all p df'
  /\ (forall c, In c esg ->
        groupby_transform (zscore series_mean series_std val_sub val_div)
          keys (column c p) = Ok (column (z_name c) df'))
  /\ (forall l, In l (columns d) -> ~ In l (map z_name esg) ->
        column l df' = column l d).
Proof.
  induction esg as [|col rest IH]; intros d df' Hincl Hext H.
  - injection H as <-. split; [assumption|]. split; [intros c []|]. auto.
  - apply loop_step in H as [keys' [x [z [Hk [Hget [Hz [Hlen Hrest]]]]]]].
    assert (Hcol : In col esg_all) by (apply Hincl; now left).
    rewrite (group_keys_zext esg_all p d g p_nodup Hext g_no_z), p_keys in Hk.
    injection Hk as <-.
    pose proof Hext as [_ [_ [Hwf [Hnd [_ Hcols]]]]].
    destruct (Hcols col (p_targets col Hcol)) as [Hind Hval].
    assert (Hx : x = column col p).
    { unfold getitem in Hget.
      destruct (List.length (filter (String.eqb col) (columns d)))
        as [|[|k]]; try discriminate. injection Hget as <-. exact Hval. }
    subst x.
    pose proof (z_extended_step esg_all p d col z Hext Hcol
                  (p_fresh col Hcol) Hlen) as Hext1.
    destruct (setitem_any (z_name col) z d Hwf Hlen)
      as [_ [_ [_ [Hc1 Hv1]]]].
    destruct (IH _ _ (fun c Hc => Hincl c (or_intror Hc)) Hext1 Hrest)
      as [Hext' [Hvals Hkeep]].
    split; [assumption|]. split.
    + intros c [<- | Hc]; [| now apply Hvals].
      destruct (in_dec string_dec col rest) as [Hin | Hn];
        [now apply Hvals|].
      rewrite Hkeep.
      * now rewrite (column_setitem _ _ _ Hwf Hlen).
      * apply Hc1. now right.
      * intros Hm. apply in_map_iff in Hm as [c' [E Hc']].
        apply z_name_inj in E. subst c'. contradiction.
    + intros l Hl Hn. rewrite Hkeep.
      * apply Hv1; [assumption|]. intros ->. apply Hn. now left.
      * apply Hc1. now left.
      * intros Hm. apply Hn. now right.
Qed.

(** The loop goes through when every target column can be
    transformed. *)
Lemma loop_total_zext esg : forall d,
  (forall c, In c esg_all ->
     exists zs,
       groupby_transform (zscore series_mean series_std val_sub val_div)
         keys (column c p) = Ok zs) ->
  incl esg esg_all -> z_extended esg_all p d ->
  exists df',
    add_esg_zscores_loop series_mean series_std val_sub val_div esg g d
    = Ok df'.
Proof.
  induction esg as [|col rest IH]; intros d Hall Hincl Hext; [now eexists|].
  assert (Hcol : In col esg_all) by (apply Hincl; now left).
  pose proof Hext as [_ [_ [Hwf [Hnd [_ Hcols]]]]].
  destruct (Hcols col (p_targets col Hcol)) as [Hind Hval].
  destruct (Hall col Hcol) as [zs Hzs].
  pose proof (group_keys_zext esg_all p d g p_nodup Hext g_no_z) as Hk.
  rewrite p_keys in Hk.
  cbn [add_esg_zscores_loop]. rewrite Hk. cbn [bind]. unfold getitem.
  rewrite (label_count_NoDup col (columns d) Hnd Hind
           : List.length (filter (String.eqb col) (columns d)) = 1%nat).
  cbn [bind]. rewrite Hval, Hzs. cbn [bind]. fold (z_name col).
  apply IH; try assumption.
  - intros c Hc. apply Hincl. now right.
  - apply z_extended_step; try assumption; [now apply p_fresh|].
    rewrite (groupby_transform_length _ _ _ _ Hzs).
    now apply (group_keys_length g d).
Qed.

End Loop.

End ExtendFacts.

(** ** The values and labels of a panel *)

Module PanelValues.
Import FrameFacts PanelFacts ZFacts.

Lemma ends_z_name c : ends_z (z_name c) = true.
Proof.
  unfold z_name. induction c as [|a c IH]; [reflexivity|].
  cbn [append ends_z]. rewrite IH. apply orb_true_r.
Qed.

(** No expected name, and none of the labels the builder adds, ends in
    [_z]. *)
Lemma z_name_not_panel_label c l :
  In l ("sector" :: "firm" :: "date" :: Config.EXPECTED_HEADERS) ->
  z_name c <> l.
Proof.
  intros Hl E. pose proof (ends_z_name c) as Hz. rewrite E in Hz.
  cbn in Hl.
  repeat (destruct Hl as [<- | Hl]; [discriminate Hz|]). destruct Hl.
Qed.

Lemma cell_at_float l cols (r : list value) :
  Forall (fun v => is_float v = true) r -> is_float (cell_at l cols r) = true.
Proof.
  intros H. unfold cell_at, cells_at.
  destruct (map snd (filter _ (combine cols r))) as [|v vs] eqn:E;
    [reflexivity|].
  cbn [hd]. rewrite Forall_forall in H. apply H.
  assert (Hin : In v (map snd (filter (fun lx => String.eqb (fst lx) l)
                                      (combine cols r))))
    by (rewrite E; now left).
  apply in_map_iff in Hin as [[a b] [<- Hin]].
  apply filter_In in Hin as [Hin _]. now apply in_combine_r in Hin.
Qed.

Section Panel.

Variable to_datetime : string -> value -> option Z.
Variable to_numeric : value -> float.

(** Every value of a firm table is a float. *)
Lemma table_floats wb file_path sheet_name start_row max_scan_rows t :
  read_firm_sheet to_datetime to_numeric wb file_path sheet_name
    start_row max_scan_rows = Ok t ->
  forall row, In row (rows t) -> Forall (fun v => is_float v = true) (snd row).
Proof.
  intros H row Hr.
  apply (read_firm_sheet_Ok_iff to_datetime to_numeric) in H
    as [hdr [_ [_ [_ ->]]]].
  cbn [rows firm_table] in Hr.
  apply (Permutation_in _ (SortFacts.sort_perm _)) in Hr.
  apply in_map_iff in Hr as [r [<- _]]. unfold clean_row. cbn [snd].
  apply Forall_forall. intros v Hv. apply in_map_iff in Hv as [c [<- _]].
  reflexivity.
Qed.

Variable wb : Workbook.
Variable xlsx_path sector_label : string.
Variable panel : DataFrame.
Hypothesis built :
  build_panel to_datetime to_numeric wb xlsx_path sector_label = Ok panel.

Lemma panel_wf : frame_wf panel.
Proof.
  apply Forall_forall.
  apply (PanelShape.panel_invariant to_datetime to_numeric _ _ _ _ built).
Qed.

Lemma panel_nodup : NoDup (columns panel).
Proof.
  apply (PanelShape.panel_invariant to_datetime to_numeric _ _ _ _ built).
Qed.

Lemma panel_index : index_names panel = ["firm"; "date"].
Proof.
  apply (PanelShape.panel_invariant to_datetime to_numeric _ _ _ _ built).
Qed.

(** No column of a panel has the name of a z-score column. *)
Lemma panel_no_z c : ~ In (z_name c) (columns panel).
Proof.
  intros H.
  apply (PanelShape.panel_labels to_datetime to_numeric _ _ _ _ built)
    in H as [H | [H _]].
  - apply (z_name_not_panel_label c "sector"); [now left | assumption].
  - apply (z_name_not_panel_label c (z_name c)); [| reflexivity].
    now do 3 right.
Qed.

Lemma panel_no_index l : In l (index_names panel) -> ~ In l (columns panel).
Proof.
  rewrite panel_index. intros Hl H.
  apply (PanelShape.panel_labels to_datetime to_numeric _ _ _ _ built)
    in H as [H | [H Hd]].
  - subst l. destruct Hl as [E | [E | []]]; discriminate.
  - destruct Hl as [<- | [<- | []]]; [| now apply Hd].
    vm_compute in H. intuition discriminate.
Qed.

Lemma index_no_z l c : In l (index_names panel) -> l <> z_name c.
Proof.
  rewrite panel_index. intros Hl E. symmetry in E.
  apply (z_name_not_panel_label c l); [| assumption].
  destruct Hl as [<- | [<- | []]]; [right; now left | do 2 right; now left].
Qed.

(** The columns of a panel other than ["sector"] hold floats. *)
Lemma panel_floats c :
  In c (columns panel) -> c <> "sector" ->
  Forall (fun v => is_float v = true) (column c panel).
Proof.
  intros Hc Hs. pose proof built as H.
  apply PanelShape.build_panel_Ok_panel_of in H as [Hne [Hread E]].
  subst panel. unfold column. cbn [columns rows panel_of] in *.
  apply Forall_forall. intros v Hv.
  apply in_map_iff in Hv as [row [<- Hr]].
  apply (Permutation_in _ (SortFacts.sort_perm _)) in Hr.
  apply in_flat_map in Hr as [firm [Hf Hr]].
  apply in_map_iff in Hr as [r [<- Hr]]. cbn [snd panel_row].
  rewrite (cell_at_gen (panel_value sector_label _ r) c _);
    [| apply NoDup_filter, dedup_NoDup | assumption].
  unfold panel_value.
  destruct (String.eqb_spec c "sector") as [-> | _]; [congruence|].
  destruct (mem c _); [| reflexivity].
  apply cell_at_float.
  apply (table_floats wb xlsx_path firm Config.HEADER_SCAN_START_ROW
           Config.HEADER_SCAN_MAX_ROWS _ (Hread firm Hf) r Hr).
Qed.

(** A column or an index level of a panel can be grouped by. *)
Lemma panel_keys g :
  In g (columns panel) \/ In g (index_names panel) ->
  exists keys, group_keys g panel = Ok keys.
Proof.
  intros Hg. unfold group_keys.
  fold (label_count g (columns panel)).
  fold (label_count g (index_names panel)).
  destruct Hg as [Hg | Hg].
  - rewrite (label_count_NoDup g _ panel_nodup Hg).
    rewrite ReaderFacts.label_count_absent; [now eexists|].
    intros Hi. now apply (panel_no_index g Hi).
  - rewrite (ReaderFacts.label_count_absent g (columns panel))
      by now apply panel_no_index.
    apply label_count_pos in Hg.
    destruct (label_count g (index_names panel)); [lia | now eexists].
Qed.

Lemma panel_group_no_z g esg :
  In g (columns panel) \/ In g (index_names panel) ->
  ~ In g (map z_name esg).
Proof.
  intros Hg Hm. apply in_map_iff in Hm as [c [E _]].
  destruct Hg as [Hg | Hg].
  - rewrite <- E in Hg. now apply (panel_no_z c).
  - now apply (index_no_z g c Hg).
Qed.

End Panel.

End PanelValues.

(** ** The standardiser on the panels of [build_panel] *)

Module AdditiveFacts.
Import ZFacts.

Section Loop.

Variable series_mean : list value -> result value.
Variable series_std : list value -> result value.
Variable val_sub : value -> value -> result value.
Variable val_div : value -> value -> result value.

(** The labels of the frame come first in the result, and no label comes
    twice when none did. *)
Lemma loop_prefix esg : forall g d df',
  add_esg_zscores_loop series_mean series_std val_sub val_div esg g d
  = Ok df' ->
  (exists new, columns df' = (columns d ++ new)%list)
  /\ (NoDup (columns d) -> NoDup (columns df')).
Proof.
  induction esg as [|col rest IH]; intros g d df' H.
  - injection H as <-. split; [exists []; now rewrite app_nil_r | auto].
  - apply loop_step in H as [keys [x [z [_ [_ [_ [_ Hrest]]]]]]].
    destruct (IH _ _ _ Hrest) as [[new Hnew] Hnd]. split.
    + rewrite Hnew. unfold setitem.
      destruct (mem (z_name col) (columns d)); cbn [columns].
      * now exists new.
      * exists (z_name col :: new). now rewrite <- app_assoc.
    + intros H. apply Hnd. now apply ExtendFacts.setitem_nodup.
Qed.

End Loop.

Lemma NoDup_app_apart {A : Type} (l1 l2 : list A) x :
  NoDup (l1 ++ l2) -> In x l1 -> In x l2 -> False.
Proof.
  induction l1 as [|a l1 IH]; intros Hnd H1 H2; [destruct H1|].
  cbn [app] in Hnd. apply NoDup_cons_iff in Hnd as [Ha Hnd].
  destruct H1 as [-> | H1]; [| now apply IH].
  apply Ha, in_app_iff. now right.
Qed.

Lemma sample_reductions :
  pandas_reductions Sample.series_mean Sample.series_std.
Proof.
  intros x fs H. unfold Sample.series_mean, Sample.series_std. rewrite H.
  split; [now eexists|]. split.
  - destruct (List.length fs <=? 1)%nat; now eexists.
  - intros Hle. apply Nat.leb_le in Hle. now rewrite Hle.
Qed.

End AdditiveFacts.

Section PanelStandardiser.

Variable to_datetime : string -> value -> option Z.
Variable to_numeric : value -> float.
Variable series_mean : list value -> result value.
Variable series_std : list value -> result value.


Variable val_sub : value -> value -> result value.
Variable val_div : value -> value -> result value.

(** C9: on every panel of [build_panel], whatever the targets and the
    group column, the table [add_esg_zscores] returns has the index and the
    row keys of the panel and distinct labels: the labels of the panel
    first, each column with the values it had, then the new labels, which
    are the target names followed by [_z], none of which the panel had.
    With distinct targets the new columns are one per target, in their
    order, and every row is the row of the panel with their values
    appended.  The table is returned when the group column and the targets
    are columns of the panel, the targets are distinct and every group can
    be standardised. *)
Theorem add_esg_zscores_additive :
  forall wb xlsx_path sector_label panel esg_cols group_col,
  build_panel to_datetime to_numeric wb xlsx_path sector_label = Ok panel ->
  (forall df',
     add_esg_zscores series_mean series_std val_sub val_div
       panel esg_cols group_col = Ok df' ->
     index_names df' = index_names panel
     /\ map fst (rows df') = map fst (rows panel)
     /\ NoDup (columns df')
     /\ (forall l, In l (columns panel) ->
           In l (columns df') /\ column l df' = column l panel)
     /\ (exists new,
           columns df' = (columns panel ++ new)%list
           /\ forall l, In l new <-> exists c, In c esg_cols /\ l = c ++ "_z")
     /\ (forall c, ~ In (c ++ "_z") (columns panel))
     /\ (NoDup esg_cols ->
         columns df'
         = (columns panel ++ map (fun c => (c ++ "_z")%string) esg_cols)%list
         /\ Forall2 (extends (List.length esg_cols))
              (rows panel) (rows df')))
  /\ (NoDup esg_cols ->
      In group_col (columns panel) ->
      (forall c, In c esg_cols -> In c (columns panel)) ->
      zscores_defined series_mean series_std val_sub val_div
        panel esg_cols group_col ->
      exists df',
        add_esg_zscores series_mean series_std val_sub val_div
          panel esg_cols group_col = Ok df').
Proof.
  intros wb xlsx_path sector_label panel esg_cols group_col Hp.
  pose proof (PanelValues.panel_wf to_datetime to_numeric _ _ _ _ Hp) as Hwf.
  pose proof (PanelValues.panel_nodup to_datetime to_numeric _ _ _ _ Hp) as Hnd.
  pose proof (PanelValues.panel_no_z to_datetime to_numeric _ _ _ _ Hp) as Hnz.
  assert (Hzn : forall l, In l (map z_name esg_cols)
                          <-> exists c, In c esg_cols /\ l = c ++ "_z").
  { intros l. rewrite in_map_iff. unfold z_name.
    split; intros [c [H1 H2]]; exists c; now split. }
  split.
  - intros df' H.
    destruct (OverwriteFacts.loop_preserves series_mean series_std val_sub
                val_div esg_cols group_col panel df' Hwf H)
      as [Hi [Hk [_ [Hc Hv]]]].
    destruct (AdditiveFacts.loop_prefix series_mean series_std val_sub
                val_div esg_cols group_col panel df' H) as [[new Hnew] Hnd'].
    specialize (Hnd' Hnd).
    assert (Hpz : forall l, In l (columns panel) ->
                    ~ In l (map z_name esg_cols)).
    { intros l Hl Hm. apply in_map_iff in Hm as [c [<- _]].
      now apply (Hnz c). }
    split; [exact Hi|]. split; [exact Hk|]. split; [exact Hnd'|].
    split; [|split; [|split]].
    + intros l Hl. split; [apply Hc; now left | apply Hv; auto].
    + exists new. split; [exact Hnew|]. intros l. rewrite <- Hzn. split.
      * intros Hl.
        assert (Hl' : In l (columns df'))
          by (rewrite Hnew, in_app_iff; now right).
        apply Hc in Hl' as [Hl' | Hl']; [| assumption]. exfalso.
        rewrite Hnew in Hnd'.
        exact (AdditiveFacts.NoDup_app_apart _ _ l Hnd' Hl' Hl).
      * intros Hl. pose proof (proj2 (Hc l) (or_intror Hl)) as Hl'.
        rewrite Hnew, in_app_iff in Hl'.
        destruct Hl' as [Hl' | Hl']; [| assumption].
        exfalso. now apply (Hpz l).
    + exact Hnz.
    + intros Hnde.
      destruct (ZFacts.loop_frame series_mean series_std val_sub val_div
                  esg_cols group_col panel df' Hnde
                  (fun c _ => Hnz c) H) as [_ [Hcols Hrows]].
      split; assumption.
  - intros Hnde Hg Htargets Hdef.
    apply ZFacts.loop_total; try assumption.
    + now apply FrameFacts.label_count_NoDup.
    + apply ReaderFacts.label_count_absent. intros Hi.
      now apply (PanelValues.panel_no_index to_datetime to_numeric
                   _ _ _ _ Hp group_col Hi).
    + intros c Hc. apply FrameFacts.label_count_NoDup; auto.
    + intros c _. apply Hnz.
Qed.

End PanelStandardiser.



Lemma add_esg_zscores_additive_witness :
  Sample.build_panel Demo.wb "banks.xlsx" "banks" = Ok DemoPanel.panel
  /\ exists df',
       Sample.add_esg_zscores DemoPanel.panel
         ["bloomberg_esg"; "refinitiv_esg"] "sector" = Ok df'
       /\ columns df'
          = (columns DemoPanel.panel
             ++ ["bloomberg_esg_z"; "refinitiv_esg_z"])%list
       /\ column "bloomberg_esg" df' = column "bloomberg_esg" DemoPanel.panel
       /\ column "sector" df' = column "sector" DemoPanel.panel.
Proof.
  assert (Hb : build_panel Sample.to_datetime Sample.to_numeric
                 Demo.wb "banks.xlsx" "banks" = Ok DemoPanel.panel)
    by (vm_compute; reflexivity).
  assert (Hnd : NoDup ["bloomberg_esg"; "refinitiv_esg"])
    by exact DriverFacts.esg_nodup.
  split; [exact Hb|].
  destruct (add_esg_zscores_additive Sample.to_datetime Sample.to_numeric
              Sample.series_mean Sample.series_std Sample.val_sub
              Sample.val_div Demo.wb "banks.xlsx" "banks" DemoPanel.panel
              ["bloomberg_esg"; "refinitiv_esg"] "sector" Hb)
    as [Hframe Htotal].
  destruct (Htotal Hnd) as [df' Hdf'].
  - vm_compute. tauto.
  - intros c [<- | [<- | []]]; vm_compute; tauto.
  - intros c k [<- | [<- | []]] Hk; vm_compute in Hk;
      destruct Hk as [<- | []]; vm_compute; eexists; reflexivity.
  - exists df'. split; [exact Hdf'|].
    destruct (Hframe df' Hdf') as [_ [_ [_ [Hcols [_ [_ Hnew]]]]]].
    split; [exact (proj1 (Hnew Hnd))|].
    split; apply Hcols; vm_compute; tauto.
Defined.
